(** * MediCare backend: appointment lifecycle and patient-status synchronisation

    A shallow embedding of the request handlers of
    [controllers/appointmentController.js] ([bookAppointment],
    [updateAppointmentStatus], [createAppointment],
    [updateTreatmentOutcome]), of the follow-up creation of
    [controllers/reportController.js] ([createReport]), of the no-show sweep
    [scripts/updateMissedAppointments.js] and of [utils/activityService.js],
    over an explicit document store.

    Modelling conventions.
    - A MongoDB collection is a list of documents in insertion order;
      [findOne] returns the first match, [findById] the first document with
      that [_id], and a save replaces the documents carrying the saved [_id].
    - ObjectIds are natural numbers, so a malformed id is excluded by typing
      ([mongoose.Types.ObjectId.isValid] always holds).
    - Every [new Date()] evaluated while one request is served reads the same
      instant [now] (milliseconds since the epoch).
    - Only the patient collection can be made to fail on demand
      ([patient_lookup_fails], [patient_save_fails]); the other collections
      reject a write only through the validation of their Mongoose schema.
    - A handler is a computation in [M]: it threads the store and may throw;
      what was written before a throw stays written, as no handler runs in a
      transaction.
    - A document built by a lookup carries the defaults of its schema for
      the paths the store lacks ([Appointment_hydrate], [Patient_hydrate]);
      a [save] of that document validates it and writes the filled paths,
      an update by [findByIdAndUpdate] writes the named paths only. *)

From Stdlib Require Import ZArith List Ascii String Bool Arith Lia.
Import ListNotations.
Local Open Scope string_scope.

Definition ObjectId := nat.

(** ** JavaScript truthiness of the request fields the handlers test *)

Definition truthy (o : option string) : bool :=
  match o with
  | Some s => negb (s =? "")
  | None => false
  end.

(** [o || d] on an optional string. *)
Definition or_else (o : option string) (d : string) : string :=
  match o with
  | Some s => if s =? "" then d else s
  | None => d
  end.

(** [o || p] where the fallback may itself be absent. *)
Definition or_opt (o p : option string) : option string :=
  if truthy o then o else p.

Definition mem_str (s : string) (l : list string) : bool :=
  existsb (String.eqb s) l.

(** ** Enumerations of the schemas *)

Inductive AppointmentStatus :=
  pending | confirmed | cancelled | completed | not_appeared.

Definition status_name (s : AppointmentStatus) : string :=
  match s with
  | pending => "pending"
  | confirmed => "confirmed"
  | cancelled => "cancelled"
  | completed => "completed"
  | not_appeared => "not_appeared"
  end.

(** The [enum] validator of [appointmentSchema.status]. *)
Definition parse_status (s : string) : option AppointmentStatus :=
  if s =? "pending" then Some pending
  else if s =? "confirmed" then Some confirmed
  else if s =? "cancelled" then Some cancelled
  else if s =? "completed" then Some completed
  else if s =? "not_appeared" then Some not_appeared
  else None.

Definition status_eqb (a b : AppointmentStatus) : bool :=
  match a, b with
  | pending, pending | confirmed, confirmed | cancelled, cancelled
  | completed, completed | not_appeared, not_appeared => true
  | _, _ => false
  end.

Inductive TreatmentOutcome := successful | partial | unsuccessful | ongoing.

Definition outcome_name (o : TreatmentOutcome) : string :=
  match o with
  | successful => "successful"
  | partial => "partial"
  | unsuccessful => "unsuccessful"
  | ongoing => "ongoing"
  end.

(** [validOutcomes] of [updateTreatmentOutcome], which is also the [enum] of
    [appointmentSchema.treatmentOutcome]. *)
Definition validOutcomes : list string :=
  ["successful"; "partial"; "unsuccessful"; "ongoing"].

Definition parse_outcome (s : string) : option TreatmentOutcome :=
  if s =? "successful" then Some successful
  else if s =? "partial" then Some partial
  else if s =? "unsuccessful" then Some unsuccessful
  else if s =? "ongoing" then Some ongoing
  else None.

Inductive PatientStatus := active | inactive.

Definition patient_status_eqb (a b : PatientStatus) : bool :=
  match a, b with
  | active, active | inactive, inactive => true
  | _, _ => false
  end.

(** ** Documents *)

Module Appointment.
(** [models/Appointment.js].  [checkInTime] and [consultationStartTime] are
    no paths of the schema, so Mongoose's strict mode drops them from every
    write; they are left out. *)
Record t := mk {
  _id : ObjectId;
  patientId : ObjectId;
  doctorId : ObjectId;
  hospitalId : ObjectId;
  date : string;
  time : string;
  type : string;
  status : AppointmentStatus;
  noShowReason : string;
  notes : option string;
  diagnosis : option string;
  disease : option string;
  treatmentOutcome : option TreatmentOutcome;
  treatmentEndDate : option Z;
  isFollowUp : bool;
  needsTimeSlot : bool;
  originalAppointmentId : option ObjectId;
  relatedReportId : option ObjectId
}.

Definition set_status (s : AppointmentStatus) (a : t) : t :=
  mk (_id a) (patientId a) (doctorId a) (hospitalId a) (date a) (time a)
     (type a) s (noShowReason a) (notes a) (diagnosis a) (disease a)
     (treatmentOutcome a) (treatmentEndDate a) (isFollowUp a)
     (needsTimeSlot a) (originalAppointmentId a) (relatedReportId a).

Definition set_noShowReason (r : string) (a : t) : t :=
  mk (_id a) (patientId a) (doctorId a) (hospitalId a) (date a) (time a)
     (type a) (status a) r (notes a) (diagnosis a) (disease a)
     (treatmentOutcome a) (treatmentEndDate a) (isFollowUp a)
     (needsTimeSlot a) (originalAppointmentId a) (relatedReportId a).

Definition set_treatment (dg ds : option string)
    (o : option TreatmentOutcome) (e : option Z) (a : t) : t :=
  mk (_id a) (patientId a) (doctorId a) (hospitalId a) (date a) (time a)
     (type a) (status a) (noShowReason a) (notes a) dg ds o e
     (isFollowUp a) (needsTimeSlot a) (originalAppointmentId a)
     (relatedReportId a).

(** The slot of an appointment: doctor, calendar day, time string. *)
Definition slot (a : t) : ObjectId * string * string :=
  (doctorId a, date a, time a).
End Appointment.

Module PatientAppointment.
(** An element of [patientSchema.appointments].  [date] is [None] for an
    Invalid Date, which the Date cast of the schema refuses. *)
Record t := mk {
  doctor : option ObjectId;
  date : option Z;
  status : string
}.

Definition set_status (s : string) (a : t) : t := mk (doctor a) (date a) s.

Definition validate (a : t) : bool :=
  mem_str (status a) ["scheduled"; "completed"; "cancelled"]
  && match date a with Some _ => true | None => false end.
End PatientAppointment.

Module Patient.
(** [models/Patient.js], the paths the lifecycle reads or writes.  The
    demographic payload (date of birth, age, phone, blood group, allergies,
    medical history, emergency contact) is copied through by the handlers
    and never read back; it is taken to be well typed and is left out. *)
Record t := mk {
  _id : ObjectId;
  name : string;
  email : string;
  gender : string;
  hospital : option ObjectId;
  status : PatientStatus;
  treatmentDays : Z;
  lastStatusChangeDate : option Z;
  appointments : list PatientAppointment.t
}.

Definition set_status (s : PatientStatus) (p : t) : t :=
  mk (_id p) (name p) (email p) (gender p) (hospital p) s
     (treatmentDays p) (lastStatusChangeDate p) (appointments p).

Definition set_lastStatusChangeDate (d : option Z) (p : t) : t :=
  mk (_id p) (name p) (email p) (gender p) (hospital p) (status p)
     (treatmentDays p) d (appointments p).

Definition set_treatmentDays (n : Z) (p : t) : t :=
  mk (_id p) (name p) (email p) (gender p) (hospital p) (status p)
     n (lastStatusChangeDate p) (appointments p).

Definition set_hospital (h : option ObjectId) (p : t) : t :=
  mk (_id p) (name p) (email p) (gender p) h (status p)
     (treatmentDays p) (lastStatusChangeDate p) (appointments p).

Definition set_appointments (l : list PatientAppointment.t) (p : t) : t :=
  mk (_id p) (name p) (email p) (gender p) (hospital p) (status p)
     (treatmentDays p) (lastStatusChangeDate p) l.

(** Schema validation run by [save] and [create]: required strings are
    non-empty, [gender] and the status of every listed appointment lie in
    their [enum], every listed date is a valid Date. *)
Definition validate (p : t) : bool :=
  negb (name p =? "") && negb (email p =? "")
  && mem_str (gender p) ["male"; "female"; "other"; "not_specified"]
  && forallb PatientAppointment.validate (appointments p).
End Patient.

Inductive MetaValue :=
| MStr (s : string)
| MId (i : ObjectId)
| MBool (b : bool)
| MUndefined.

Module Activity.
(** The [activitySchema] (it sits after the feedback schema in
    [models/Feedback.js]).  [metadata] is a Mixed bag: an association list
    from key to value, in the order the handler writes the keys. *)
Record t := mk {
  user : option ObjectId;
  hospitalId : option ObjectId;
  actorId : option ObjectId;
  actorName : option string;
  actorRole : option string;
  patientId : option ObjectId;
  action : string;
  subject : string;
  subjectId : option ObjectId;
  type : string;
  description : option string;
  details : option string;
  status : string;
  metadata : list (string * MetaValue)
}.

Definition action_enum : list string :=
  ["appointment_created"; "appointment_confirmed"; "appointment_cancelled";
   "appointment_completed"; "appointment_updated";
   "appointment_not_appeared"; "patient_checked_in"; "patient_completed";
   "patient_registered"; "prescription_added"; "report_generated";
   "report_updated"; "staff_login"; "doctor_login"; "update_treatment";
   "expense_added"; "expense_updated"; "expense_deleted"].

Definition type_enum : list string :=
  ["appointment_created"; "appointment_confirmed"; "appointment_cancelled";
   "appointment_completed"; "appointment_updated";
   "appointment_not_appeared"; "patient_checked_in"; "patient_completed";
   "patient_registered"; "prescription_added"; "report_generated";
   "report_updated"; "staff_login"; "doctor_login";
   "expense_added"; "expense_updated"; "expense_deleted"].

Definition subject_enum : list string :=
  ["appointment"; "patient"; "prescription"; "report"; "staff"; "doctor";
   "user"; "expense"].

Definition validate (a : t) : bool :=
  match user a with Some _ => true | None => false end
  && match actorRole a with
     | Some r => mem_str r ["staff"; "doctor"; "admin"]
     | None => true
     end
  && mem_str (action a) action_enum
  && mem_str (subject a) subject_enum
  && match subjectId a with Some _ => true | None => false end
  && mem_str (type a) type_enum
  && mem_str (status a) ["success"; "warning"; "error"].

Fixpoint lookup (k : string) (m : list (string * MetaValue))
  : option MetaValue :=
  match m with
  | [] => None
  | (k', v) :: m' => if k =? k' then Some v else lookup k m'
  end.
End Activity.

Module Doctor.
Record t := mk { _id : ObjectId; userId : ObjectId }.
End Doctor.

Module User.
(** The user behind a doctor profile, as [populate('userId', 'name email
    status')] reads it, and the caller [req.user] set by [protect]. *)
Record t := mk {
  _id : ObjectId;
  name : option string;
  role : option string;
  status : string
}.
End User.

Module Report.
(** [reportSchema] (after the message schema in [models/Message.js]). *)
Record t := mk {
  _id : ObjectId;
  appointmentId : ObjectId;
  patientId : ObjectId;
  doctorId : ObjectId;
  hospitalId : ObjectId;
  type : string;
  status : string;
  reportNumber : string;
  diagnosis : option string;
  prescription : option string;
  notes : option string;
  followUpDate : option Z;
  followUpAppointmentId : option ObjectId
}.

Definition set_followUpAppointmentId (i : option ObjectId) (r : t) : t :=
  mk (_id r) (appointmentId r) (patientId r) (doctorId r) (hospitalId r)
     (type r) (status r) (reportNumber r) (diagnosis r) (prescription r)
     (notes r) (followUpDate r) i.

Definition validate (r : t) : bool :=
  mem_str (type r) ["lab"; "diagnosis"; "prescription"; "invoice"]
  && mem_str (status r) ["pending"; "completed"; "processing"]
  && negb (reportNumber r =? "")
  && (negb (type r =? "diagnosis") || truthy (diagnosis r))
  && (negb (type r =? "prescription") || truthy (prescription r)).
End Report.

(** ** The document store and the environment of a request *)

Record DB := mkDB {
  patients : list Patient.t;
  appointments : list Appointment.t;
  activities : list Activity.t;
  doctors : list Doctor.t;
  users : list User.t;
  reports : list Report.t;
  next_id : ObjectId
}.

Definition with_patients (l : list Patient.t) (db : DB) : DB :=
  mkDB l (appointments db) (activities db) (doctors db) (users db)
       (reports db) (next_id db).

Definition with_appointments (l : list Appointment.t) (db : DB) : DB :=
  mkDB (patients db) l (activities db) (doctors db) (users db)
       (reports db) (next_id db).

Definition with_activities (l : list Activity.t) (db : DB) : DB :=
  mkDB (patients db) (appointments db) l (doctors db) (users db)
       (reports db) (next_id db).

Definition with_reports (l : list Report.t) (db : DB) : DB :=
  mkDB (patients db) (appointments db) (activities db) (doctors db)
       (users db) l (next_id db).

Definition with_next_id (n : ObjectId) (db : DB) : DB :=
  mkDB (patients db) (appointments db) (activities db) (doctors db)
       (users db) (reports db) n.

(** What a request reads from outside the store.  [Date_parse] is the
    JavaScript [Date] constructor on a string and [parseISO] the date-fns
    parser, both [None] on an Invalid Date; [format_date] is date-fns
    [format (_, 'yyyy-MM-dd')]. *)
Record Env := mkEnv {
  now : Z;
  Date_parse : string -> option Z;
  parseISO : string -> option Z;
  format_date : Z -> string;
  patient_lookup_fails : bool;
  patient_save_fails : bool
}.

(** ** Handlers as store-threading computations that may throw *)

Inductive Result (A : Type) :=
| Ok (a : A)
| Throw (e : string).
Arguments Ok {A} a.
Arguments Throw {A} e.

Definition M (A : Type) : Type := DB -> DB * Result A.

Definition ret {A} (a : A) : M A := fun db => (db, Ok a).

Definition throw {A} (e : string) : M A := fun db => (db, Throw e).

Definition bind {A B} (c : M A) (k : A -> M B) : M B :=
  fun db =>
    match c db with
    | (db', Ok a) => k a db'
    | (db', Throw e) => (db', Throw e)
    end.

(** [try { c } catch (e) { h e }]: the handler runs in the store the throwing
    computation left behind. *)
Definition try_catch {A} (c : M A) (h : string -> M A) : M A :=
  fun db =>
    match c db with
    | (db', Ok a) => (db', Ok a)
    | (db', Throw e) => h e db'
    end.

Declare Scope js_scope.
Delimit Scope js_scope with js.
Notation "x <- c ;; k" := (bind c (fun x => k))
  (at level 61, c at next level, right associativity) : js_scope.
Notation "c ;; k" := (bind c (fun _ => k))
  (at level 61, right associativity) : js_scope.
Local Open Scope js_scope.

Definition replace_by {A} (same : A -> bool) (x : A) (l : list A) : list A :=
  map (fun y => if same y then x else y) l.

Definition fresh_id : M ObjectId :=
  fun db => (with_next_id (S (next_id db)) db, Ok (next_id db)).

(** *** Appointment collection *)

Definition Appointment_validate (a : Appointment.t) : bool :=
  negb (Appointment.date a =? "") && negb (Appointment.time a =? "")
  && negb (Appointment.type a =? "").

Definition Appointment_findById (i : ObjectId) : M (option Appointment.t) :=
  fun db =>
    (db, Ok (find (fun a => Appointment._id a =? i)%nat (appointments db))).

(** [Appointment.findOne({ doctorId, date, time, status: { $ne: 'cancelled' } })] *)
Definition slot_taken_by (doctorId : ObjectId) (date time : string)
    (a : Appointment.t) : bool :=
  (Appointment.doctorId a =? doctorId)%nat && (Appointment.date a =? date)
  && (Appointment.time a =? time)
  && negb (status_eqb (Appointment.status a) cancelled).

Definition Appointment_findOne_slot (doctorId : ObjectId) (date time : string)
  : M (option Appointment.t) :=
  fun db => (db, Ok (find (slot_taken_by doctorId date time) (appointments db))).

Definition Appointment_save (a : Appointment.t) : M unit :=
  fun db =>
    (with_appointments
       (replace_by (fun x => Appointment._id x =? Appointment._id a)%nat a
                   (appointments db)) db,
     Ok tt).

(** A document loaded by [findById] or [find] and then saved: Mongoose
    fills a path that is absent in the store with the default of the schema
    when it builds the document, and the next [save] of the document
    writes the filled path.  Of the paths of the record only
    [treatmentOutcome] can be absent and has a default, ['ongoing']. *)
Definition Appointment_hydrate (a : Appointment.t) : Appointment.t :=
  match Appointment.treatmentOutcome a with
  | Some _ => a
  | None =>
      Appointment.set_treatment (Appointment.diagnosis a)
        (Appointment.disease a) (Some ongoing) (Appointment.treatmentEndDate a)
        a
  end.

(** [appointment.save()] of a document loaded by [findById]: the save
    validates, and a document that lacks a required path is refused. *)
Definition Appointment_save_validated (a : Appointment.t) : M unit :=
  if Appointment_validate a then Appointment_save a
  else throw "Appointment validation failed".

(** [Appointment.create(fields)] and the first [save] of a [new Appointment]:
    the document gets a fresh [_id], is validated and appended. *)
Definition Appointment_create (mk_doc : ObjectId -> Appointment.t)
  : M Appointment.t :=
  i <- fresh_id ;;
  let a := mk_doc i in
  if Appointment_validate a
  then fun db => (with_appointments (appointments db ++ [a]) db, Ok a)
  else throw "Appointment validation failed".

(** *** Patient collection *)

(** The patient document a lookup builds: a patient stored without
    [lastStatusChangeDate] gets the default of the schema, [Date.now], and
    the next [save] of the document writes it. *)
Definition Patient_hydrate (env : Env) (p : Patient.t) : Patient.t :=
  match Patient.lastStatusChangeDate p with
  | Some _ => p
  | None => Patient.set_lastStatusChangeDate (Some (now env)) p
  end.

Definition Patient_findById (env : Env) (i : ObjectId) : M (option Patient.t) :=
  if patient_lookup_fails env then throw "patient lookup failed"
  else fun db =>
    (db, Ok (option_map (Patient_hydrate env)
               (find (fun p => Patient._id p =? i)%nat (patients db)))).

Definition Patient_findOne_email (env : Env) (e : string)
  : M (option Patient.t) :=
  if patient_lookup_fails env then throw "patient lookup failed"
  else fun db =>
    (db, Ok (option_map (Patient_hydrate env)
               (find (fun p => Patient.email p =? e) (patients db)))).

Definition Patient_save (env : Env) (p : Patient.t) : M unit :=
  if patient_save_fails env then throw "patient save failed"
  else if negb (Patient.validate p) then throw "Patient validation failed"
  else fun db =>
    (with_patients
       (replace_by (fun x => Patient._id x =? Patient._id p)%nat p
                   (patients db)) db,
     Ok tt).

Definition Patient_create (env : Env) (mk_doc : ObjectId -> Patient.t)
  : M Patient.t :=
  i <- fresh_id ;;
  let p := mk_doc i in
  if patient_save_fails env then throw "patient save failed"
  else if negb (Patient.validate p) then throw "Patient validation failed"
  else fun db => (with_patients (patients db ++ [p]) db, Ok p).

(** *** Doctors and users *)

Definition Doctor_findById (i : ObjectId) : M (option Doctor.t) :=
  fun db => (db, Ok (find (fun d => Doctor._id d =? i)%nat (doctors db))).

Definition Doctor_findOne_userId (u : ObjectId) : M (option Doctor.t) :=
  fun db => (db, Ok (find (fun d => Doctor.userId d =? u)%nat (doctors db))).

Definition User_findById (i : ObjectId) : M (option User.t) :=
  fun db => (db, Ok (find (fun u => User._id u =? i)%nat (users db))).

(** *** [ActivityService.logActivity] *)

Definition Activity_save (a : Activity.t) : M unit :=
  if Activity.validate a
  then fun db => (with_activities (activities db ++ [a]) db, Ok tt)
  else throw "Activity validation failed".

(** The document [logActivity] builds from its argument object: [type] is a
    copy of [action], [status] keeps its default ['success'] (no caller
    below passes one). *)
Definition activity_doc (user hospitalId actorId : option ObjectId)
    (actorName actorRole : option string) (patientId : option ObjectId)
    (action subject : string) (subjectId : option ObjectId)
    (description details : option string)
    (metadata : list (string * MetaValue)) : Activity.t :=
  Activity.mk user hospitalId actorId actorName actorRole patientId action
              subject subjectId action description details "success" metadata.

(** Errors of the save are logged and swallowed. *)
Definition logActivity (a : Activity.t) : M unit :=
  try_catch (Activity_save a) (fun _ => ret tt).

(** ** Responses *)

Record Response := mkRes {
  res_status : nat;
  res_message : option string;
  res_appointment : option Appointment.t;
  res_warning : option string
}.

Definition error_response (code : nat) (msg : string) : Response :=
  mkRes code (Some msg) None None.

(** ** [bookAppointment] (appointmentController.js, POST /api/appointments) *)

Module PatientDetails.
Record t := mk {
  name : option string;
  email : option string;
  gender : option string
}.
End PatientDetails.

Module BookReq.
(** [req.body] and, on this public route, the optional [req.user]. *)
Record t := mk {
  user : option User.t;
  doctorId : option ObjectId;
  patientDetails : option PatientDetails.t;
  hospitalId : option ObjectId;
  date : option string;
  time : option string;
  type : option string;
  notes : option string
}.
End BookReq.

Definition user_id (u : option User.t) : option ObjectId :=
  option_map User._id u.

Definition user_name (u : option User.t) : option string :=
  match u with Some x => User.name x | None => None end.

Definition user_role (u : option User.t) : option string :=
  match u with Some x => User.role x | None => None end.

Definition meta_opt (o : option string) : MetaValue :=
  match o with Some s => MStr s | None => MUndefined end.

(** The [populate]d doctor is bookable when its user exists and is active. *)
Definition doctor_available (u : option User.t) : bool :=
  match u with
  | Some x => User.status x =? "active"
  | None => false
  end.

(** Lines 53-95: find the patient by e-mail, create it when absent,
    reactivate it when inactive.  Returns the in-memory patient document and
    [patientStatusChanged]. *)
Definition find_or_create_patient (env : Env) (name email : string)
    (gender : option string) (hospitalId : ObjectId)
  : M (Patient.t * bool) :=
  found <- Patient_findOne_email env email ;;
  match found with
  | None =>
      p <- Patient_create env (fun i =>
             Patient.mk i name email (or_else gender "not_specified")
                        (Some hospitalId) active 0 (Some (now env)) []) ;;
      ret (p, false)
  | Some p =>
      match Patient.status p with
      | inactive =>
          let p1 := Patient.set_lastStatusChangeDate (Some (now env))
                      (Patient.set_status active p) in
          let p2 := match Patient.hospital p1 with
                    | None => Patient.set_hospital (Some hospitalId) p1
                    | Some _ => p1
                    end in
          Patient_save env p2 ;;
          ret (p2, true)
      | active => ret (p, false)
      end
  end.

(** The appointment document of lines 111-120. *)
Definition booked_appointment (req : BookReq.t) (patient : Patient.t)
    (doctorId hospitalId : ObjectId) (date time : string) (i : ObjectId)
  : Appointment.t :=
  Appointment.mk i (Patient._id patient) doctorId hospitalId date time
    (or_else (BookReq.type req) "consultation") pending ""
    (Some (or_else (BookReq.notes req) "")) None None (Some ongoing) None
    false false None None.

(** The patient document of lines 123-128, before its [save]. *)
Definition patient_with_booking (env : Env) (patient : Patient.t)
    (doctorId : ObjectId) (date : string) : Patient.t :=
  Patient.set_appointments
    (Patient.appointments patient ++
     [PatientAppointment.mk (Some doctorId) (Date_parse env date) "scheduled"])
    patient.

Definition booking_activity (req : BookReq.t) (patient : Patient.t)
    (appointment : Appointment.t) (doctorId hospitalId : ObjectId)
    (date : string) (patientStatusChanged : bool) : Activity.t :=
  activity_doc (user_id (BookReq.user req)) (Some hospitalId)
    (user_id (BookReq.user req))
    (Some (or_else (user_name (BookReq.user req)) "User"))
    (Some (or_else (user_role (BookReq.user req)) "user"))
    (Some (Patient._id patient)) "appointment_booked" "appointment"
    (Some (Appointment._id appointment))
    (Some "Appointment booked for patient") None
    [("appointmentDate", MStr date); ("doctorId", MId doctorId);
     ("type", meta_opt (BookReq.type req));
     ("patientStatusChanged", MBool patientStatusChanged)].

Definition reactivation_activity (req : BookReq.t) (patient : Patient.t)
    (appointment : Appointment.t) (hospitalId : ObjectId) : Activity.t :=
  activity_doc (user_id (BookReq.user req)) (Some hospitalId)
    (user_id (BookReq.user req))
    (Some (or_else (user_name (BookReq.user req)) "User"))
    (Some (or_else (user_role (BookReq.user req)) "user"))
    (Some (Patient._id patient)) "update_patient_status" "patient"
    (Some (Patient._id patient))
    (Some "Patient status changed to active due to new appointment booking")
    None
    [("appointmentId", MId (Appointment._id appointment));
     ("previousStatus", MStr "inactive"); ("newStatus", MStr "active")].

(** Lines 97-203: the slot is looked up after the patient step; a free slot
    gets the appointment, then the patient document is saved with the
    booking pushed, and the audit entries are submitted. *)
Definition book_slot (env : Env) (req : BookReq.t)
    (doctorId hospitalId : ObjectId) (date time : string)
    (pc : Patient.t * bool) : M Response :=
  let patient := fst pc in
  let patientStatusChanged := snd pc in
  existingAppointment <- Appointment_findOne_slot doctorId date time ;;
  match existingAppointment with
  | Some _ => throw "This time slot is already booked"
  | None =>
      appointment <- Appointment_create
        (booked_appointment req patient doctorId hospitalId date time) ;;
      Patient_save env (patient_with_booking env patient doctorId date) ;;
      (* sendAppointmentEmail: its failure is caught and ignored *)
      logActivity (booking_activity req patient appointment doctorId
                     hospitalId date patientStatusChanged) ;;
      (if patientStatusChanged
       then logActivity (reactivation_activity req patient appointment
                           hospitalId)
       else ret tt) ;;
      ret (mkRes 201 None (Some appointment) None)
  end.

Definition bookAppointment_body (env : Env) (req : BookReq.t) : M Response :=
  match BookReq.doctorId req, BookReq.hospitalId req,
        BookReq.patientDetails req with
  | Some doctorId, Some hospitalId, Some pd =>
    if negb (truthy (BookReq.date req)) || negb (truthy (BookReq.time req))
    then throw "Please provide all required fields"
    else if negb (truthy (PatientDetails.name pd))
            || negb (truthy (PatientDetails.email pd))
    then throw "Patient name and email are required"
    else
      doctor <- Doctor_findById doctorId ;;
      match doctor with
      | None => throw "Doctor not found"
      | Some d =>
        u <- User_findById (Doctor.userId d) ;;
        if negb (doctor_available u)
        then throw "Selected doctor is not available for appointments"
        else
          pc <- find_or_create_patient env
                  (or_else (PatientDetails.name pd) "")
                  (or_else (PatientDetails.email pd) "")
                  (PatientDetails.gender pd) hospitalId ;;
          book_slot env req doctorId hospitalId
            (or_else (BookReq.date req) "") (or_else (BookReq.time req) "") pc
      end
  | _, _, _ => throw "Please provide all required fields"
  end.

(** The handler's [catch] sets [res.status(error.status || 500)] on a plain
    [Error], which has no [status], and rethrows: whatever status was set
    where the error was thrown, the client receives 500 and the message. *)
Definition bookAppointment (env : Env) (req : BookReq.t) (db : DB)
  : DB * Response :=
  match bookAppointment_body env req db with
  | (db', Ok r) => (db', r)
  | (db', Throw e) =>
      (db', error_response 500 (or_else (Some e) "Error booking appointment"))
  end.

(** ** [updateAppointmentStatus] (PUT /api/appointments/:id/status) *)

Module StatusReq.
Record t := mk {
  user : User.t;
  id : ObjectId;
  status : string;
  noShowReason : option string
}.
End StatusReq.

(** [status === 'confirmed' ? 'scheduled' : status] *)
Definition patient_side_status (status : string) : string :=
  if status =? "confirmed" then "scheduled" else status.

(** [findIndex] followed by the assignment at the found index: [None] when no
    element satisfies the test. *)
Fixpoint update_first {A} (test : A -> bool) (upd : A -> A) (l : list A)
  : option (list A) :=
  match l with
  | [] => None
  | x :: l' =>
      if test x then Some (upd x :: l')
      else option_map (cons x) (update_first test upd l')
  end.

(** Lines 485-503: the entry of the patient's [appointments] array whose
    doctor is the appointment's doctor gets the new status; without such an
    entry one is pushed. *)
Definition sync_patient_appointments (env : Env) (status : string)
    (a : Appointment.t) (l : list PatientAppointment.t)
  : list PatientAppointment.t :=
  match update_first
          (fun x => match PatientAppointment.doctor x with
                    | Some d => (d =? Appointment.doctorId a)%nat
                    | None => false
                    end)
          (PatientAppointment.set_status (patient_side_status status)) l with
  | Some l' => l'
  | None =>
      l ++ [PatientAppointment.mk (Some (Appointment.doctorId a))
                                  (Date_parse env (Appointment.date a))
                                  (patient_side_status status)]
  end.

(** Lines 470-535.  The source has one [try] around lookup, save and the
    patient-status log, and a flag [patientStatusChanged] assigned before the
    save; the value returned here is the flag as the code after the [catch]
    reads it: still [false] when the lookup threw, already set when only the
    save threw. *)
Definition sync_patient_on_status (env : Env) (req : StatusReq.t)
    (updatedAppointment : Appointment.t) : M bool :=
  found <- try_catch
             (p <- Patient_findById env
                     (Appointment.patientId updatedAppointment) ;;
              ret p)
             (fun _ => ret None) ;;
  match found with
  | None => ret false
  | Some patient =>
      let patientStatusChanged :=
        (StatusReq.status req =? "confirmed")
        && patient_status_eqb (Patient.status patient) inactive in
      let p1 :=
        if patientStatusChanged
        then Patient.set_lastStatusChangeDate (Some (now env))
               (Patient.set_status active patient)
        else patient in
      let p2 :=
        Patient.set_appointments
          (sync_patient_appointments env (StatusReq.status req)
             updatedAppointment (Patient.appointments p1)) p1 in
      try_catch
        (Patient_save env p2 ;;
         if patientStatusChanged
         then logActivity
                (activity_doc (Some (User._id (StatusReq.user req))) None None
                   None None None "update_patient_status" "patient"
                   (Some (Patient._id patient)) None
                   (Some "Patient status changed to active due to confirmed appointment")
                   [("appointmentId", MId (Appointment._id updatedAppointment));
                    ("previousStatus", MStr "inactive");
                    ("newStatus", MStr "active")])
         else ret tt)
        (fun _ => ret tt) ;;
      ret patientStatusChanged
  end.

Definition status_action (status : string) : string :=
  if status =? "confirmed" then "appointment_confirmed"
  else if status =? "cancelled" then "appointment_cancelled"
  else if status =? "completed" then "appointment_completed"
  else if status =? "not_appeared" then "appointment_not_appeared"
  else "appointment_updated".

(** Lines 537-564.  [previousStatus] is read from [updatedAppointment], the
    document [findByIdAndUpdate] returned with [new: true]. *)
Definition status_activity (req : StatusReq.t)
    (updatedAppointment : Appointment.t) (patientStatusChanged : bool)
  : Activity.t :=
  activity_doc (Some (User._id (StatusReq.user req)))
    (Some (Appointment.hospitalId updatedAppointment))
    (Some (User._id (StatusReq.user req)))
    (Some (or_else (User.name (StatusReq.user req)) "User"))
    (Some (or_else (User.role (StatusReq.user req)) "user"))
    (Some (Appointment.patientId updatedAppointment))
    (status_action (StatusReq.status req)) "appointment"
    (Some (Appointment._id updatedAppointment))
    (Some ("Appointment " ++ StatusReq.status req ++ " by "
           ++ or_else (User.role (StatusReq.user req)) "user"))
    None
    [("appointmentId", MId (Appointment._id updatedAppointment));
     ("previousStatus",
      MStr (status_name (Appointment.status updatedAppointment)));
     ("newStatus", MStr (StatusReq.status req));
     ("patientStatusChanged", MBool patientStatusChanged)].

(** [updateData] (lines 424-429) applied to the stored document. *)
Definition apply_updateData (req : StatusReq.t) (st : AppointmentStatus)
    (a : Appointment.t) : Appointment.t :=
  if (StatusReq.status req =? "not_appeared")
     && truthy (StatusReq.noShowReason req)
  then Appointment.set_noShowReason (or_else (StatusReq.noShowReason req) "")
         (Appointment.set_status st a)
  else Appointment.set_status st a.

Definition updateAppointmentStatus_body (env : Env) (req : StatusReq.t)
  : M Response :=
  appointment <- Appointment_findById (StatusReq.id req) ;;
  match appointment with
  | None => throw "Appointment not found"
  | Some a =>
      (* findByIdAndUpdate (id, updateData, { new: true, runValidators: true }) *)
      match parse_status (StatusReq.status req) with
      | None =>
          throw ("Validation failed: status: `" ++ StatusReq.status req
                 ++ "` is not a valid enum value for path `status`.")
      | Some st =>
          let updatedAppointment := apply_updateData req st a in
          Appointment_save updatedAppointment ;;
          patientStatusChanged <-
            sync_patient_on_status env req updatedAppointment ;;
          logActivity
            (status_activity req updatedAppointment patientStatusChanged) ;;
          ret (mkRes 200 None (Some updatedAppointment) None)
      end
  end.

Definition updateAppointmentStatus (env : Env) (req : StatusReq.t) (db : DB)
  : DB * Response :=
  match updateAppointmentStatus_body env req db with
  | (db', Ok r) => (db', r)
  | (db', Throw e) =>
      (db', error_response 500 ("Error updating appointment status: " ++ e))
  end.

(** ** [updateTreatmentOutcome] (PUT /api/appointments/:id/treatment-outcome) *)

Module OutcomeReq.
Record t := mk {
  user : User.t;
  id : ObjectId;
  diagnosis : option string;
  disease : option string;
  treatmentOutcome : option string;
  treatmentEndDate : option string
}.
End OutcomeReq.

Definition ms_per_day : Z := 1000 * 60 * 60 * 24.

(** [Math.floor((currentDate - lastChangeDate) / (1000 * 60 * 60 * 24))] *)
Definition daysDifference (currentDate lastChangeDate : Z) : Z :=
  (currentDate - lastChangeDate) / ms_per_day.

(** Lines 1076-1089: accrue the elapsed days of an active patient, then
    deactivate. *)
Definition deactivate (env : Env) (patient : Patient.t) : Patient.t :=
  let accrued :=
    match Patient.status patient, Patient.lastStatusChangeDate patient with
    | active, Some last =>
        Patient.set_treatmentDays
          (Patient.treatmentDays patient + daysDifference (now env) last)
          patient
    | _, _ => patient
    end in
  Patient.set_lastStatusChangeDate (Some (now env))
    (Patient.set_status inactive accrued).

Definition outcome_response (msg : string) (a : Appointment.t)
    (warning : option string) : Response :=
  mkRes 200 (Some msg) (Some a) warning.

Definition patient_status_activity (req : OutcomeReq.t) (a : Appointment.t)
    (patient : Patient.t) (details previous new : string) : Activity.t :=
  activity_doc (Some (User._id (OutcomeReq.user req))) None None None None
    None "update_patient_status" "patient" (Some (Patient._id patient)) None
    (Some details)
    [("appointmentId", MId (Appointment._id a));
     ("treatmentOutcome", meta_opt (OutcomeReq.treatmentOutcome req));
     ("previousStatus", MStr previous); ("newStatus", MStr new)].

(** Lines 1117-1128 and 1202-1213. *)
Definition patient_not_found_response (a : Appointment.t) : Response :=
  outcome_response
    "Treatment outcome updated successfully but patient record not found to update status"
    a (Some "Patient record not found - status not updated").

(** Lines 1133-1144 and 1218-1229. *)
Definition patient_failed_response (a : Appointment.t) (e : string)
  : Response :=
  outcome_response "Treatment outcome updated but patient status update failed"
    a (Some ("Patient status update failed: " ++ e)).

(** The two [try] blocks of lines 1054-1231.  [Some r] is a response
    returned from inside the block (the handler ends there), [None] falls
    through to the audit entry.  The schema requires [patientId], so the
    answer 400 for an appointment without patient is never given. *)
Definition sync_patient_on_outcome (env : Env) (req : OutcomeReq.t)
    (a : Appointment.t) : M (option Response) :=
  let outcome := or_else (OutcomeReq.treatmentOutcome req) "" in
  if (outcome =? "successful") || (outcome =? "unsuccessful") then
    try_catch
      (found <- Patient_findById env (Appointment.patientId a) ;;
       match found with
       | Some patient =>
           Patient_save env (deactivate env patient) ;;
           logActivity
             (patient_status_activity req a patient
                ("Patient status changed to inactive after " ++ outcome
                 ++ " treatment") "active" "inactive") ;;
           ret None
       | None =>
           ret (Some (patient_not_found_response a))
       end)
      (fun e => ret (Some (patient_failed_response a e)))
  else if outcome =? "ongoing" then
    try_catch
      (found <- Patient_findById env (Appointment.patientId a) ;;
       match found with
       | Some patient =>
           match Patient.status patient with
           | active => ret None
           | inactive =>
               Patient_save env
                 (Patient.set_lastStatusChangeDate (Some (now env))
                    (Patient.set_status active patient)) ;;
               logActivity
                 (patient_status_activity req a patient
                    "Patient status changed to active for ongoing treatment"
                    "inactive" "active") ;;
               ret None
           end
       | None =>
           ret (Some (patient_not_found_response a))
       end)
      (fun e => ret (Some (patient_failed_response a e)))
  else ret None.

(** Lines 1233-1251. *)
Definition treatment_activity (req : OutcomeReq.t) (a : Appointment.t)
  : Activity.t :=
  activity_doc (Some (User._id (OutcomeReq.user req))) None None None None
    None "update_treatment" "appointment" (Some (Appointment._id a)) None
    (Some ("Updated treatment outcome to "
           ++ or_else (OutcomeReq.treatmentOutcome req) "undefined"))
    [("appointmentId", MId (Appointment._id a));
     ("patientId", MId (Appointment.patientId a));
     ("disease", meta_opt (OutcomeReq.disease req));
     ("treatmentOutcome", meta_opt (OutcomeReq.treatmentOutcome req))].

(** Lines 1006-1024: [None] when the caller may update the appointment. *)
Definition outcome_permission (req : OutcomeReq.t) (a : Appointment.t)
  : M (option Response) :=
  let role := or_else (User.role (OutcomeReq.user req)) "" in
  if role =? "doctor" then
    doctor <- Doctor_findOne_userId (User._id (OutcomeReq.user req)) ;;
    match doctor with
    | None => ret (Some (error_response 404 "Doctor not found"))
    | Some d =>
        if (Appointment.doctorId a =? Doctor._id d)%nat then ret None
        else ret (Some (error_response 403
               "You are not authorized to update this appointment"))
    end
  else if negb (role =? "staff") && negb (role =? "admin") then
    ret (Some (error_response 403
           "Only doctors, staff, or admins can update treatment outcomes"))
  else ret None.

(** Lines 1034-1048: the in-memory appointment after the assignments.
    [treatmentOutcome] is assigned whatever the request carries, also when
    it carries nothing; diagnosis and disease fall back to the stored
    values. *)
Definition treated_appointment (env : Env) (req : OutcomeReq.t)
    (a : Appointment.t) : Appointment.t :=
  let outcome := OutcomeReq.treatmentOutcome req in
  let a1 :=
    Appointment.set_treatment
      (or_opt (OutcomeReq.diagnosis req) (Appointment.diagnosis a))
      (or_opt (OutcomeReq.disease req) (Appointment.disease a))
      (match outcome with Some s => parse_outcome s | None => None end)
      (if truthy (OutcomeReq.treatmentEndDate req)
       then Date_parse env (or_else (OutcomeReq.treatmentEndDate req) "")
       else Appointment.treatmentEndDate a)
      a in
  if truthy outcome && negb (or_else outcome "" =? "ongoing")
  then Appointment.set_status completed a1 else a1.

(** What the validation of [appointment.save()] (line 1051) can refuse in
    the request: an outcome that passed the truthiness-guarded check of
    line 1028 as the empty string is outside the [enum], and an end date
    that is no valid Date cannot be cast. *)
Definition treatment_castable (env : Env) (req : OutcomeReq.t) : bool :=
  match OutcomeReq.treatmentOutcome req with
  | Some s => mem_str s validOutcomes
  | None => true
  end
  && (negb (truthy (OutcomeReq.treatmentEndDate req))
      || match Date_parse env (or_else (OutcomeReq.treatmentEndDate req) "") with
         | Some _ => true
         | None => false
         end).

Definition apply_treatment (env : Env) (req : OutcomeReq.t)
    (a : Appointment.t) : M Appointment.t :=
  if treatment_castable env req
  then Appointment_save_validated (treated_appointment env req a) ;;
       ret (treated_appointment env req a)
  else throw "Appointment validation failed".

Definition updateTreatmentOutcome_body (env : Env) (req : OutcomeReq.t)
  : M Response :=
  found <- Appointment_findById (OutcomeReq.id req) ;;
  match found with
  | None => ret (error_response 404 "Appointment not found")
  | Some appointment =>
      denied <- outcome_permission req appointment ;;
      match denied with
      | Some r => ret r
      | None =>
          if truthy (OutcomeReq.treatmentOutcome req)
             && negb (mem_str (or_else (OutcomeReq.treatmentOutcome req) "")
                              validOutcomes)
          then ret (error_response 400
            "Invalid treatment outcome. Must be one of: successful, partial, unsuccessful, ongoing")
          else
            a <- apply_treatment env req appointment ;;
            early <- sync_patient_on_outcome env req a ;;
            match early with
            | Some r => ret r
            | None =>
                logActivity (treatment_activity req a) ;;
                ret (outcome_response "Treatment outcome updated successfully"
                                      a None)
            end
      end
  end.

Definition updateTreatmentOutcome (env : Env) (req : OutcomeReq.t) (db : DB)
  : DB * Response :=
  match updateTreatmentOutcome_body env req db with
  | (db', Ok r) => (db', r)
  | (db', Throw _) =>
      (db', error_response 500 "Server error while updating treatment outcome")
  end.

(** ** [createAppointment] (appointmentController.js, lines 614-739) *)

Module CreateReq.
(** The paths of [req.body] that [new Appointment(req.body)] keeps and
    that the lifecycle reads. *)
Record t := mk {
  user : User.t;
  patientId : option ObjectId;
  doctorId : option ObjectId;
  hospitalId : option ObjectId;
  date : option string;
  time : option string;
  type : option string;
  status : option string;
  notes : option string
}.
End CreateReq.

(** Lines 626-638, in their own [try]: [patientStatusChanged] is assigned
    after the save, so a failed save leaves it [false]. *)
Definition activate_on_create (env : Env) (patientId : ObjectId) : M bool :=
  try_catch
    (found <- Patient_findById env patientId ;;
     match found with
     | Some patient =>
         match Patient.status patient with
         | inactive =>
             Patient_save env
               (Patient.set_lastStatusChangeDate (Some (now env))
                  (Patient.set_status active patient)) ;;
             ret true
         | active => ret false
         end
     | None => ret false
     end)
    (fun _ => ret false).

(** The document is saved as the request describes it: no lookup of the
    slot precedes the save.  A request without [patientId] fails the schema
    validation of that save, so the [patientDetails] branch of lines 639-678
    is never reached and is not modelled. *)
Definition createAppointment_body (env : Env) (req : CreateReq.t)
  : M Response :=
  match CreateReq.patientId req, CreateReq.doctorId req,
        CreateReq.hospitalId req,
        match CreateReq.status req with
        | None => Some pending
        | Some s => parse_status s
        end with
  | Some patientId, Some doctorId, Some hospitalId, Some st =>
      savedAppointment <- Appointment_create (fun i =>
        Appointment.mk i patientId doctorId hospitalId
          (or_else (CreateReq.date req) "") (or_else (CreateReq.time req) "")
          (or_else (CreateReq.type req) "") st "" (CreateReq.notes req)
          None None (Some ongoing) None false false None None) ;;
      patientStatusChanged <- activate_on_create env patientId ;;
      logActivity
        (activity_doc (Some (User._id (CreateReq.user req)))
           (Some hospitalId) (Some (User._id (CreateReq.user req)))
           (Some (or_else (User.name (CreateReq.user req)) "User"))
           (Some (or_else (User.role (CreateReq.user req)) "user"))
           (Some patientId) "appointment_created" "appointment"
           (Some (Appointment._id savedAppointment))
           (Some "Appointment created for patient") None
           [("appointmentDate", meta_opt (CreateReq.date req));
            ("doctorId", MId doctorId);
            ("type", meta_opt (CreateReq.type req))]) ;;
      ret (mkRes 201
             (Some (if patientStatusChanged
                    then "Appointment created successfully and patient status changed to active"
                    else "Appointment created successfully"))
             (Some savedAppointment) None)
  | _, _, _, _ => throw "Appointment validation failed"
  end.

Definition createAppointment (env : Env) (req : CreateReq.t) (db : DB)
  : DB * Response :=
  match createAppointment_body env req db with
  | (db', Ok r) => (db', r)
  | (db', Throw e) =>
      (db', error_response 400 (or_else (Some e) "Error creating appointment"))
  end.

(** ** [createReport] (reportController.js, lines 29-232) *)

Module ReportReq.
Record t := mk {
  user : User.t;
  appointmentId : option ObjectId;
  patientId : option ObjectId;
  doctorId : option ObjectId;
  hospitalId : option ObjectId;
  diagnosis : option string;
  prescription : option string;
  notes : option string;
  followUpDate : option string;
  type : option string;
  status : option string;
  reportNumber : option string
}.
End ReportReq.

Definition Report_findOne_number (n : string) : M (option Report.t) :=
  fun db => (db, Ok (find (fun r => Report.reportNumber r =? n) (reports db))).

Definition Report_create (mk_doc : ObjectId -> Report.t) : M Report.t :=
  i <- fresh_id ;;
  let r := mk_doc i in
  if Report.validate r
  then fun db => (with_reports (reports db ++ [r]) db, Ok r)
  else throw "Report validation failed".

Definition Report_save (r : Report.t) : M unit :=
  fun db =>
    (with_reports
       (replace_by (fun x => Report._id x =? Report._id r)%nat r (reports db))
       db,
     Ok tt).

(** [Appointment.findByIdAndUpdate(appointmentId, { status: 'completed' })] *)
Definition Appointment_complete (i : ObjectId) : M unit :=
  fun db =>
    (with_appointments
       (map (fun a => if (Appointment._id a =? i)%nat
                      then Appointment.set_status completed a else a)
            (appointments db)) db,
     Ok tt).

(** [staffUser ? staffUser.name : (req.user.name || 'Unknown')] and the
    like for the role. *)
Definition staff_name (req : ReportReq.t) (staffUser : option User.t)
  : option string :=
  match staffUser with
  | Some s => User.name s
  | None => Some (or_else (User.name (ReportReq.user req)) "Unknown")
  end.

Definition staff_role (req : ReportReq.t) (staffUser : option User.t)
  : option string :=
  match staffUser with
  | Some s => User.role s
  | None => Some (or_else (User.role (ReportReq.user req)) "staff")
  end.

(** The document of lines 122-135. *)
Definition follow_up_appointment (req : ReportReq.t) (appointmentId patientId
    doctorId hospitalId : ObjectId) (followUpDate reportNumber : string)
    (savedReport : Report.t) (i : ObjectId) : Appointment.t :=
  Appointment.mk i patientId doctorId hospitalId followUpDate "00:00"
    "followup" pending ""
    (Some ("Follow-up for report #" ++ reportNumber ++ ". "
           ++ or_else (ReportReq.notes req) ""))
    None None (Some ongoing) None true true (Some appointmentId)
    (Some (Report._id savedReport)).

(** Lines 114-173: the follow-up is created at the placeholder time
    ["00:00"], flagged [needsTimeSlot], without a lookup of the slot. *)
Definition create_follow_up (req : ReportReq.t) (appointmentId patientId
    doctorId hospitalId : ObjectId) (followUpDate reportNumber : string)
    (savedReport : Report.t) (staffUser : option User.t)
  : M (option Appointment.t) :=
  try_catch
    (_original <- Appointment_findById appointmentId ;;
     followUpAppointment <- Appointment_create
       (follow_up_appointment req appointmentId patientId doctorId hospitalId
          followUpDate reportNumber savedReport) ;;
     Report_save
       (Report.set_followUpAppointmentId
          (Some (Appointment._id followUpAppointment)) savedReport) ;;
     logActivity
       (activity_doc (Some (User._id (ReportReq.user req))) (Some hospitalId)
          (Some (User._id (ReportReq.user req)))
          (staff_name req staffUser) (staff_role req staffUser)
          (Some patientId) "followup_scheduled" "appointment"
          (Some (Appointment._id followUpAppointment))
          (Some ("Follow-up appointment scheduled for " ++ followUpDate))
          None
          [("reportId", MId (Report._id savedReport));
           ("originalAppointmentId", MId appointmentId);
           ("followUpDate", MStr followUpDate)]) ;;
     ret (Some followUpAppointment))
    (fun _ => ret None).

Definition createReport_body (env : Env) (req : ReportReq.t) : M Response :=
  match ReportReq.appointmentId req, ReportReq.patientId req,
        ReportReq.doctorId req, ReportReq.hospitalId req with
  | Some appointmentId, Some patientId, Some doctorId, Some hospitalId =>
    if negb (truthy (ReportReq.type req))
       || negb (truthy (ReportReq.reportNumber req))
    then ret (error_response 400 "Missing required fields")
    else
      let type := or_else (ReportReq.type req) "" in
      let reportNumber := or_else (ReportReq.reportNumber req) "" in
      existingReport <- Report_findOne_number reportNumber ;;
      match existingReport with
      | Some _ => ret (error_response 400 "Report number already exists")
      | None =>
        if (type =? "diagnosis") && negb (truthy (ReportReq.diagnosis req))
        then ret (error_response 400
                    "Diagnosis is required for diagnosis reports")
        else if (type =? "prescription")
                && negb (truthy (ReportReq.prescription req))
        then ret (error_response 400
                    "Prescription is required for prescription reports")
        else if truthy (ReportReq.followUpDate req)
                && match Date_parse env
                           (or_else (ReportReq.followUpDate req) "") with
                   | Some _ => false
                   | None => true
                   end
        then throw "Report validation failed: followUpDate"
        else
          savedReport <- Report_create (fun i =>
            Report.mk i appointmentId patientId doctorId hospitalId type
              (or_else (ReportReq.status req) "completed") reportNumber
              (ReportReq.diagnosis req) (ReportReq.prescription req)
              (ReportReq.notes req)
              (if truthy (ReportReq.followUpDate req)
               then Date_parse env (or_else (ReportReq.followUpDate req) "")
               else None)
              None) ;;
          Appointment_complete appointmentId ;;
          staffUser <- User_findById (User._id (ReportReq.user req)) ;;
          followUpAppointment <-
            (if truthy (ReportReq.followUpDate req)
             then create_follow_up req appointmentId patientId doctorId
                    hospitalId (or_else (ReportReq.followUpDate req) "")
                    reportNumber savedReport staffUser
             else ret None) ;;
          (* lines 175-219: [Activity.create] is called without [user],
             [action], [subject] and [subjectId]; its validation error
             leaves the [try] before [logActivity] is reached *)
          try_catch
            (Activity_save
               (Activity.mk None (Some hospitalId)
                  (Some (User._id (ReportReq.user req)))
                  (staff_name req staffUser) (staff_role req staffUser)
                  (Some patientId) "" "" None "report_generated" None
                  (Some ("Report #" ++ reportNumber)) "success" []) ;;
             logActivity
               (activity_doc (Some (User._id (ReportReq.user req)))
                  (Some hospitalId) (Some (User._id (ReportReq.user req)))
                  (staff_name req staffUser) (staff_role req staffUser)
                  (Some patientId) "report_generated" "report"
                  (Some (Report._id savedReport)) None None
                  [("reportType", MStr type);
                   ("followUpScheduled",
                    MBool (match followUpAppointment with
                           | Some _ => true
                           | None => false
                           end))]))
            (fun _ => ret tt) ;;
          ret (mkRes 201 None followUpAppointment None)
      end
  | _, _, _, _ => ret (error_response 400 "Missing required fields")
  end.

Definition createReport (env : Env) (req : ReportReq.t) (db : DB)
  : DB * Response :=
  match createReport_body env req db with
  | (db', Ok r) => (db', r)
  | (db', Throw _) => (db', error_response 500 "Error creating report")
  end.

(** ** The no-show sweep ([scripts/updateMissedAppointments.js]) *)

Definition sweep_query (today : string) (a : Appointment.t) : bool :=
  status_eqb (Appointment.status a) confirmed
  && (String.ltb (Appointment.date a) today || (Appointment.date a =? today)).

(** [now > addMinutes (parseISO (date + 'T' + time), 30)]; a comparison with
    an Invalid Date is false. *)
Definition past_threshold (env : Env) (a : Appointment.t) : bool :=
  match parseISO env (Appointment.date a ++ "T" ++ Appointment.time a) with
  | Some appointmentDateTime =>
      (appointmentDateTime + 30 * 60000 <? now env)%Z
  | None => false
  end.

Definition missed_activity (a : Appointment.t) : Activity.t :=
  Activity.mk (Some (Appointment.doctorId a)) (Some (Appointment.hospitalId a))
    (Some (Appointment.doctorId a)) None None (Some (Appointment.patientId a))
    "appointment_updated" "appointment" (Some (Appointment._id a))
    "appointment_updated" (Some "Patient did not appear for appointment")
    None "warning"
    [("appointmentId", MId (Appointment._id a));
     ("previousStatus", MStr "confirmed");
     ("newStatus", MStr "not_appeared")].

(** Lines 65-93.  The documents come from [find], so each is saved as the
    store has it plus the defaults of the schema; the save validates, and
    an error of the save or of [Activity.create] leaves the loop: the
    [try] of the function is around the whole loop. *)
Fixpoint sweep_loop (env : Env) (l : list Appointment.t) (updatedCount : nat)
  : M nat :=
  match l with
  | [] => ret updatedCount
  | appointment :: rest =>
      if past_threshold env appointment then
        Appointment_save_validated
          (Appointment.set_status not_appeared appointment) ;;
        Activity_save (missed_activity appointment) ;;
        sweep_loop env rest (S updatedCount)
      else sweep_loop env rest updatedCount
  end.

Definition Appointment_find (q : Appointment.t -> bool)
  : M (list Appointment.t) :=
  fun db => (db, Ok (map Appointment_hydrate (filter q (appointments db)))).

(** The function returns nothing; beside the store, the result is the
    count it writes to the console (line 96), absent when the [catch] of
    line 97 wrote the error instead. *)
Definition updateMissedAppointments (env : Env) (db : DB)
  : DB * option nat :=
  match (found <- Appointment_find
                    (sweep_query (format_date env (now env))) ;;
         sweep_loop env found 0) db with
  | (db', Ok n) => (db', Some n)
  | (db', Throw _) => (db', None)
  end.

(** *** The script file as [node] reads it

    [updateMissedAppointments] is not exported: it runs when the script
    runs, and [node] parses the whole file before it runs any of it. *)

(** Lines 1-9 of the script, its header. *)
Definition script_header : list string :=
  ["/**";
   " * This script updates the status of appointments to 'not_appeared' ";
   " * if they haven't been completed or cancelled within 30 minutes after ";
   " * their scheduled time.";
   " * ";
   " * This script should be run regularly with a cron job.";
   " * For example, to run every 15 minutes:";
   " * */15 * * * * node /path/to/backend/scripts/updateMissedAppointments.js";
   " */"].

(** A block comment ends with the first [*/] after its opening: the rest
    of the line behind that [*/], if the line has one. *)
Fixpoint comment_end (line : string) : option string :=
  match line with
  | EmptyString => None
  | String c rest =>
      match rest with
      | EmptyString => None
      | String c' rest' =>
          if (c =? "*")%char && (c' =? "/")%char then Some rest'
          else comment_end rest
      end
  end.

Fixpoint close_comment (lines : list string)
  : option (string * list string) :=
  match lines with
  | [] => None
  | line :: rest =>
      match comment_end line with
      | Some behind => Some (behind, rest)
      | None => close_comment rest
      end
  end.

(** The text behind the block comment that opens the file: what is left
    of the line on which the comment ends, and the lines after it. *)
Definition behind_header (lines : list string)
  : option (string * list string) :=
  match lines with
  | String "/" (String "*" first) :: rest => close_comment (first :: rest)
  | _ => None
  end.

(** The tokens this needs of the JavaScript lexer. *)
Inductive Token := TNumber | TName | TStar | TSlash | TOther.

Definition is_digit (c : ascii) : bool :=
  (48 <=? nat_of_ascii c)%nat && (nat_of_ascii c <=? 57)%nat.

Definition is_letter (c : ascii) : bool :=
  ((65 <=? nat_of_ascii c)%nat && (nat_of_ascii c <=? 90)%nat)
  || ((97 <=? nat_of_ascii c)%nat && (nat_of_ascii c <=? 122)%nat)
  || (c =? "_")%char || (c =? "$")%char.

(** One token per run of digits and per run of name characters; blanks
    separate tokens. *)
Fixpoint tokens (in_number in_name : bool) (s : string) : list Token :=
  match s with
  | EmptyString => []
  | String c rest =>
      if is_digit c then
        if in_number || in_name then tokens in_number in_name rest
        else TNumber :: tokens true false rest
      else if is_letter c then
        if in_name then tokens false true rest
        else TName :: tokens false true rest
      else if (c =? " ")%char then tokens false false rest
      else (if (c =? "*")%char then TStar
            else if (c =? "/")%char then TSlash else TOther)
           :: tokens false false rest
  end.

(** The operator [*] wants an operand to its right, and no operand begins
    with [*]: two [*] tokens in a row are a SyntaxError. *)
Fixpoint star_without_operand (l : list Token) : bool :=
  match l with
  | TStar :: (TStar :: _) as rest => true
  | _ :: rest => star_without_operand rest
  | [] => false
  end.

Inductive ScriptResult :=
| SyntaxError
| Ran (logged : option nat).

(** [node scripts/updateMissedAppointments.js]: the sweep runs when the
    text behind the header parses. *)
Definition run_script (env : Env) (db : DB) : DB * ScriptResult :=
  match behind_header script_header with
  | Some (behind, _) =>
      if star_without_operand (tokens false false behind)
      then (db, SyntaxError)
      else let (db', logged) := updateMissedAppointments env db in
           (db', Ran logged)
  | None => (db, SyntaxError)
  end.

(** ** Notions the properties are stated with *)

(** The store after [appointment.save()] of [updateTreatmentOutcome]. *)
Definition after_treatment (env : Env) (req : OutcomeReq.t)
    (a : Appointment.t) (db : DB) : DB :=
  with_appointments
    (replace_by
       (fun x => Appointment._id x
                 =? Appointment._id (treated_appointment env req a))%nat
       (treated_appointment env req a) (appointments db)) db.

Definition stored_appointment (i : ObjectId) (db : DB)
  : option Appointment.t :=
  find (fun a => Appointment._id a =? i)%nat (appointments db).

Definition stored_patient (i : ObjectId) (db : DB) : option Patient.t :=
  find (fun p => Patient._id p =? i)%nat (patients db).

(** The store after the [findByIdAndUpdate] of [updateAppointmentStatus]. *)
Definition after_status_update (req : StatusReq.t) (st : AppointmentStatus)
    (a : Appointment.t) (db : DB) : DB :=
  with_appointments
    (replace_by
       (fun x => Appointment._id x
                 =? Appointment._id (apply_updateData req st a))%nat
       (apply_updateData req st a) (appointments db)) db.

(** The roles the [actorRole] enum of the audit schema admits. *)
Definition audit_role (u : User.t) : bool :=
  mem_str (or_else (User.role u) "user") ["staff"; "doctor"; "admin"].



(** The appointments one run of the sweep marks: matched by its query and
    more than thirty minutes past their scheduled time. *)
Definition missed (env : Env) (a : Appointment.t) : bool :=
  sweep_query (format_date env (now env)) a && past_threshold env a.

(** *** Slots *)

Definition live (a : Appointment.t) : bool :=
  negb (status_eqb (Appointment.status a) cancelled).

(** The slots held by the appointments that are not cancelled, one entry per
    appointment. *)
Definition live_slots (db : DB) : list (ObjectId * string * string) :=
  map Appointment.slot (filter live (appointments db)).

(** No double booking: no slot is held by two appointments that are not
    cancelled. *)
Definition no_double_booking (db : DB) : Prop := NoDup (live_slots db).

(** The slot a booking request asks for. *)
Definition requested_slot (req : BookReq.t)
  : option (ObjectId * string * string) :=
  match BookReq.doctorId req with
  | Some d =>
      if truthy (BookReq.date req) && truthy (BookReq.time req)
      then Some (d, or_else (BookReq.date req) "",
                 or_else (BookReq.time req) "")
      else None
  | None => None
  end.

Definition slot_occupied (s : ObjectId * string * string) (db : DB) : bool :=
  existsb (slot_taken_by (fst (fst s)) (snd (fst s)) (snd s))
          (appointments db).

(** *** What lets a booking reach the slot check and, on a free slot,
    complete: the required fields, a bookable doctor, a patient store that
    answers and accepts the patient document. *)

Definition fields_ok (req : BookReq.t) : bool :=
  match BookReq.doctorId req, BookReq.hospitalId req,
        BookReq.patientDetails req with
  | Some _, Some _, Some pd =>
      truthy (BookReq.date req) && truthy (BookReq.time req)
      && truthy (PatientDetails.name pd) && truthy (PatientDetails.email pd)
  | _, _, _ => false
  end.

Definition doctor_bookable (req : BookReq.t) (db : DB) : bool :=
  match BookReq.doctorId req with
  | Some d =>
      match find (fun x => Doctor._id x =? d)%nat (doctors db) with
      | Some doc =>
          doctor_available
            (find (fun u => User._id u =? Doctor.userId doc)%nat (users db))
      | None => false
      end
  | None => false
  end.

Definition patient_ready (env : Env) (req : BookReq.t) (db : DB) : bool :=
  negb (patient_lookup_fails env) && negb (patient_save_fails env)
  && match BookReq.patientDetails req with
     | Some pd =>
         match find (fun p => Patient.email p
                              =? or_else (PatientDetails.email pd) "")
                    (patients db) with
         | None =>
             mem_str (or_else (PatientDetails.gender pd) "not_specified")
                     ["male"; "female"; "other"; "not_specified"]
         | Some p => Patient.validate p
         end
     | None => false
     end
  && match Date_parse env (or_else (BookReq.date req) "") with
     | Some _ => true
     | None => false
     end.

Definition ready_to_book (env : Env) (req : BookReq.t) (db : DB) : bool :=
  fields_ok req && doctor_bookable req db && patient_ready env req db.

(** The store after [Appointment.create] of a booking. *)
Definition with_booking (a : Appointment.t) (db : DB) : DB :=
  with_appointments (appointments db ++ [a])
                    (with_next_id (S (next_id db)) db).

(** What the activation rule may or may not touch of a patient. *)
Definition status_view (p : Patient.t)
  : ObjectId * PatientStatus * option Z :=
  (Patient._id p, Patient.status p, Patient.lastStatusChangeDate p).

(** Pairwise distinct ids, as the [_id] index of a collection keeps them. *)
Fixpoint distinct (l : list nat) : bool :=
  match l with
  | [] => true
  | x :: l' => negb (existsb (Nat.eqb x) l') && distinct l'
  end.

(** ** A small clinic, used by the examples below *)

(** 2024-06-01T00:00:00Z in milliseconds. *)
Definition june1 : Z := 1717200000000.

Definition hour : Z := 3600000.

Definition ex_Date_parse (s : string) : option Z :=
  if s =? "2024-06-01" then Some june1
  else if s =? "2024-06-08" then Some (june1 + 7 * ms_per_day)%Z
  else None.

Definition ex_parseISO (s : string) : option Z :=
  if s =? "2024-06-01T09:00" then Some (june1 + 9 * hour)%Z
  else if s =? "2024-06-01T10:00" then Some (june1 + 10 * hour)%Z
  else if s =? "2024-06-01T11:00" then Some (june1 + 11 * hour)%Z
  else if s =? "2024-06-08T00:00" then Some (june1 + 7 * ms_per_day)%Z
  else None.

Definition ex_format_date (t : Z) : string :=
  if (t <? june1 + 3 * ms_per_day)%Z then "2024-06-01" else "2024-06-04".

(** The environment of a request served at [t]; the two flags make the
    patient store fail. *)
Definition ex_env (t : Z) (lookup_fails save_fails : bool) : Env :=
  mkEnv t ex_Date_parse ex_parseISO ex_format_date lookup_fails save_fails.

(** Three days after the first of June, at noon. *)
Definition june4_noon : Z := (june1 + 3 * ms_per_day + 12 * hour)%Z.

Definition staff : User.t := User.mk 100 (Some "Sam") (Some "staff") "active".

Definition dr_user : User.t := User.mk 101 (Some "Dee") (Some "doctor") "active".

Definition ann : Patient.t :=
  Patient.mk 1 "Ann" "ann@x.com" "female" (Some 3) active 4 (Some june1)
    [PatientAppointment.mk (Some 7) (Some june1) "scheduled"].

Definition bob : Patient.t :=
  Patient.mk 2 "Bob" "bob@x.com" "male" (Some 3) inactive 10
    (Some (june1 - 30 * ms_per_day)%Z) [].

Definition ex_appointment (i patient : ObjectId) (date time : string)
    (st : AppointmentStatus) (o : option TreatmentOutcome) (followUp : bool)
  : Appointment.t :=
  Appointment.mk i patient 7 3 date time "consultation" st "" (Some "")
    (Some "flu") None o None followUp followUp None None.

(** Ann's pending nine o'clock, Bob's confirmed ten o'clock, a cancelled
    eleven o'clock, and a follow-up waiting at the placeholder time. *)
Definition ex_db : DB :=
  mkDB [ann; bob]
       [ex_appointment 10 1 "2024-06-01" "09:00" pending (Some successful)
                       false;
        ex_appointment 11 2 "2024-06-01" "10:00" confirmed (Some ongoing)
                       false;
        ex_appointment 12 1 "2024-06-01" "11:00" cancelled (Some ongoing)
                       false;
        ex_appointment 13 1 "2024-06-08" "00:00" pending (Some ongoing) true]
       [] [Doctor.mk 7 101] [staff; dr_user] [] 1000.

Definition ex_booking (email : string) (time : string) : BookReq.t :=
  BookReq.mk None (Some 7)
    (Some (PatientDetails.mk (Some "Cyd") (Some email) None)) (Some 3)
    (Some "2024-06-01") (Some time) None None.

Definition ex_status_update (i : ObjectId) (status : string) : StatusReq.t :=
  StatusReq.mk staff i status None.

Definition ex_outcome (i : ObjectId) (o : option string) : OutcomeReq.t :=
  OutcomeReq.mk staff i None None o None.

Definition ex_report : ReportReq.t :=
  ReportReq.mk staff (Some 10) (Some 1) (Some 7) (Some 3) None None None
    (Some "2024-06-08") (Some "lab") None (Some "REP-20240604-0001").

Definition ex_create : CreateReq.t :=
  CreateReq.mk staff (Some 2) (Some 7) (Some 3) (Some "2024-06-01")
    (Some "09:00") (Some "consultation") None None.

(** * Further handlers of [appointmentController.js] and
      [reportController.js] *)

(** ** [getDoctorAvailability] and [getAvailableSlots]
       (appointmentController.js, lines 214-291) *)

(** What a read-only handler answers: a JSON body with its status, or the
    error that reaches the client. *)
Inductive Reply (A : Type) :=
| Json (code : nat) (body : A)
| Failed (code : nat) (message : string).
Arguments Json {A} code body.
Arguments Failed {A} code message.

(** [allSlots] (lines 240-243) and [allTimeSlots] (lines 274-277): the same
    twelve times. *)
Definition allSlots : list string :=
  ["09:00"; "09:30"; "10:00"; "10:30"; "11:00"; "11:30";
   "14:00"; "14:30"; "15:00"; "15:30"; "16:00"; "16:30"].

(** [Appointment.find({ doctorId, date, status: { $ne: 'cancelled' } })]
    mapped to the times. *)
Definition bookedSlots (doctorId : ObjectId) (date : string) (db : DB)
  : list string :=
  map Appointment.time
      (filter (fun a => (Appointment.doctorId a =? doctorId)%nat
                        && (Appointment.date a =? date) && live a)
              (appointments db)).

(** [allSlots.filter(slot => !bookedSlots.includes(slot))] *)
Definition availableSlots (doctorId : ObjectId) (date : string) (db : DB)
  : list string :=
  filter (fun slot => negb (mem_str slot (bookedSlots doctorId date db)))
         allSlots.

(** The errors are thrown outside any [try], so the status set before the
    throw is the one the error middleware sends. *)
Definition getDoctorAvailability (doctorId : option ObjectId)
    (date : option string) (db : DB) : Reply (list string) :=
  match doctorId with
  | Some d =>
      if negb (truthy date)
      then Failed 400 "Please provide doctor ID and date"
      else
        match find (fun x => Doctor._id x =? d)%nat (doctors db) with
        | None => Failed 404 "Doctor not found"
        | Some _ => Json 200 (availableSlots d (or_else date "") db)
        end
  | None => Failed 400 "Please provide doctor ID and date"
  end.

(** The same computation without the lookup of the doctor; the answer also
    lists the booked times. *)
Definition getAvailableSlots (doctorId : option ObjectId)
    (date : option string) (db : DB) : Reply (list string * list string) :=
  match doctorId with
  | Some d =>
      if negb (truthy date)
      then Failed 400 "Please provide doctor ID and date"
      else Json 200 (availableSlots d (or_else date "") db,
                     bookedSlots d (or_else date "") db)
  | None => Failed 400 "Please provide doctor ID and date"
  end.

(** ** [checkInPatient] (PATCH /api/appointments/:id/check-in,
       lines 1670-1728) *)

Module CheckInReq.
Record t := mk {
  user : option User.t;
  id : ObjectId;
  checkInTime : option string
}.
End CheckInReq.

(** Lines 1690-1693, on the document [findById] built. *)
Definition checked_in (a : Appointment.t) : Appointment.t :=
  match Appointment.status a with
  | pending => Appointment.set_status confirmed a
  | _ => a
  end.

(** Lines 1701-1717.  [toISOString] is the JavaScript method, taken as a
    parameter; [checkInTime] is set on the in-memory document only, the
    schema has no such path. *)
Definition check_in_activity (toISOString : Z -> string) (env : Env)
    (req : CheckInReq.t) (a : Appointment.t) : Activity.t :=
  activity_doc (user_id (CheckInReq.user req))
    (Some (Appointment.hospitalId a)) (user_id (CheckInReq.user req))
    (Some (or_else (user_name (CheckInReq.user req)) "Staff"))
    (Some (or_else (user_role (CheckInReq.user req)) "staff"))
    (Some (Appointment.patientId a)) "patient_checked_in" "appointment"
    (Some (Appointment._id a)) (Some "Patient checked in for appointment")
    None
    [("appointmentDate", MStr (Appointment.date a));
     ("appointmentTime", MStr (Appointment.time a));
     ("checkInTime",
      MStr (or_else (CheckInReq.checkInTime req) (toISOString (now env))))].

(** The handler has no [try] of its own around lookup and save: the 404 set
    before the throw reaches the client, and an error of the save reaches
    the error middleware of [server.js], which turns the pending 200 into
    500.  Ids are [ObjectId]s, so the 400 of line 1675 for a malformed id
    has no request here.  The patient is looked up inside the [try] of the
    audit entry, and a failing lookup skips the entry. *)
Definition checkInPatient (toISOString : Z -> string) (env : Env)
    (req : CheckInReq.t) (db : DB) : DB * Response :=
  match Appointment_findById (CheckInReq.id req) db with
  | (_, Ok (Some appointment)) =>
      let a := checked_in (Appointment_hydrate appointment) in
      match (Appointment_save_validated a ;;
             try_catch
               (_patient <- Patient_findById env (Appointment.patientId a) ;;
                logActivity (check_in_activity toISOString env req a))
               (fun _ => ret tt)) db with
      | (db', Ok _) => (db', mkRes 200 None (Some a) None)
      | (db', Throw e) => (db', error_response 500 e)
      end
  | (_, _) => (db, error_response 404 "Appointment not found")
  end.

(** ** [cancelAppointment] (lines 854-898) *)

Module CancelReq.
Record t := mk {
  user : User.t;
  id : ObjectId
}.
End CancelReq.

(** Lines 864-867: admins, and the caller whose own id equals the
    appointment's [patientId]. *)
Definition may_cancel (req : CancelReq.t) (a : Appointment.t) : bool :=
  (or_else (User.role (CancelReq.user req)) "" =? "admin")
  || (Appointment.patientId a =? User._id (CancelReq.user req))%nat.

Definition cancel_activity (req : CancelReq.t) (a : Appointment.t)
  : Activity.t :=
  activity_doc (Some (User._id (CancelReq.user req)))
    (Some (Appointment.hospitalId a)) (Some (User._id (CancelReq.user req)))
    (Some (or_else (User.name (CancelReq.user req)) "User"))
    (Some (or_else (User.role (CancelReq.user req)) "user"))
    (Some (Appointment.patientId a)) "appointment_cancelled" "appointment"
    (Some (Appointment._id a))
    (Some ("Appointment cancelled by "
           ++ or_else (User.name (CancelReq.user req)) "User"))
    None [].

Definition cancelAppointment (req : CancelReq.t) (db : DB) : DB * Response :=
  match Appointment_findById (CancelReq.id req) db with
  | (_, Ok (Some appointment)) =>
      if may_cancel req appointment then
        let a := Appointment.set_status cancelled
                   (Appointment_hydrate appointment) in
        match (Appointment_save_validated a ;;
               logActivity (cancel_activity req a)) db with
        | (db', Ok _) => (db', mkRes 200 None (Some a) None)
        | (db', Throw _) =>
            (db', error_response 500 "Error cancelling appointment")
        end
      else (db, error_response 403 "Not authorized to cancel this appointment")
  | (_, _) => (db, error_response 404 "Appointment not found")
  end.

(** ** [confirmAppointment] (lines 741-813) *)

Module ConfirmReq.
Record t := mk {
  user : User.t;
  id : ObjectId
}.
End ConfirmReq.

Definition confirm_activity (req : ConfirmReq.t) (a : Appointment.t)
    (patientStatusChanged : bool) : Activity.t :=
  activity_doc (Some (User._id (ConfirmReq.user req)))
    (Some (Appointment.hospitalId a)) (Some (User._id (ConfirmReq.user req)))
    (Some (or_else (User.name (ConfirmReq.user req)) "User"))
    (Some (or_else (User.role (ConfirmReq.user req)) "user"))
    (Some (Appointment.patientId a)) "appointment_confirmed" "appointment"
    (Some (Appointment._id a))
    (Some ("Appointment confirmed by "
           ++ or_else (User.name (ConfirmReq.user req)) "User"))
    None [("patientStatusChanged", MBool patientStatusChanged)].

(** Lines 752-786: as in [createAppointment] the flag is assigned after the
    save; the audit entry of the reactivation is submitted in between. *)
Definition activate_on_confirm (env : Env) (req : ConfirmReq.t)
    (a : Appointment.t) : M bool :=
  try_catch
    (found <- Patient_findById env (Appointment.patientId a) ;;
     match found with
     | Some patient =>
         match Patient.status patient with
         | inactive =>
             Patient_save env
               (Patient.set_lastStatusChangeDate (Some (now env))
                  (Patient.set_status active patient)) ;;
             logActivity
               (activity_doc (Some (User._id (ConfirmReq.user req))) None None
                  None None None "update_patient_status" "patient"
                  (Some (Patient._id patient)) None
                  (Some "Patient status changed to active due to confirmed appointment")
                  [("appointmentId", MId (Appointment._id a));
                   ("previousStatus", MStr "inactive");
                   ("newStatus", MStr "active")]) ;;
             ret true
         | active => ret false
         end
     | None => ret false
     end)
    (fun _ => ret false).

(** [findByIdAndUpdate] answers [null] for an unknown id; the handler goes
    on: the patient step is skipped, reading [appointment.hospitalId] for
    the audit entry throws inside the [try] of that entry, and the client
    receives [null] with status 200. *)
Definition confirmAppointment (env : Env) (req : ConfirmReq.t) (db : DB)
  : DB * Response :=
  match Appointment_findById (ConfirmReq.id req) db with
  | (_, Ok (Some stored)) =>
      let appointment := Appointment.set_status confirmed stored in
      match (Appointment_save appointment ;;
             patientStatusChanged <- activate_on_confirm env req appointment ;;
             logActivity
               (confirm_activity req appointment patientStatusChanged)) db with
      | (db', Ok _) => (db', mkRes 200 None (Some appointment) None)
      | (db', Throw e) => (db', error_response 400 e)
      end
  | (_, _) => (db, mkRes 200 None None None)
  end.

(** ** Notions the further properties are stated with *)

(** The slots held by the live appointments of a list. *)
Definition slots_of (l : list Appointment.t)
  : list (ObjectId * string * string) :=
  map Appointment.slot (filter live l).

(** ** Names for the documents the handlers build *)

(** The document [createAppointment] saves (line 617) and the audit entry
    it logs (lines 694-709). *)
Definition created_appointment (req : CreateReq.t) (patientId doctorId
    hospitalId : ObjectId) (st : AppointmentStatus) (i : ObjectId)
  : Appointment.t :=
  Appointment.mk i patientId doctorId hospitalId
    (or_else (CreateReq.date req) "") (or_else (CreateReq.time req) "")
    (or_else (CreateReq.type req) "") st "" (CreateReq.notes req)
    None None (Some ongoing) None false false None None.

Definition creation_activity (req : CreateReq.t) (patientId doctorId
    hospitalId i : ObjectId) : Activity.t :=
  activity_doc (Some (User._id (CreateReq.user req)))
    (Some hospitalId) (Some (User._id (CreateReq.user req)))
    (Some (or_else (User.name (CreateReq.user req)) "User"))
    (Some (or_else (User.role (CreateReq.user req)) "user"))
    (Some patientId) "appointment_created" "appointment"
    (Some i) (Some "Appointment created for patient") None
    [("appointmentDate", meta_opt (CreateReq.date req));
     ("doctorId", MId doctorId);
     ("type", meta_opt (CreateReq.type req))].

(** The status [new Appointment(req.body)] gets: the default, or the
    request's when the enum has it. *)
Definition creation_status (req : CreateReq.t) : option AppointmentStatus :=
  match CreateReq.status req with
  | None => Some pending
  | Some s => parse_status s
  end.

(** The report [createReport] saves (reportController.js, lines 87-103). *)
Definition created_report (env : Env) (req : ReportReq.t) (appointmentId
    patientId doctorId hospitalId i : ObjectId) : Report.t :=
  Report.mk i appointmentId patientId doctorId hospitalId
    (or_else (ReportReq.type req) "")
    (or_else (ReportReq.status req) "completed")
    (or_else (ReportReq.reportNumber req) "")
    (ReportReq.diagnosis req) (ReportReq.prescription req)
    (ReportReq.notes req)
    (if truthy (ReportReq.followUpDate req)
     then Date_parse env (or_else (ReportReq.followUpDate req) "")
     else None)
    None.

(** [Appointment.findByIdAndUpdate(i, { status: 'completed' })] on a
    collection. *)
Definition completed_at (i : ObjectId) (l : list Appointment.t)
  : list Appointment.t :=
  map (fun a => if (Appointment._id a =? i)%nat
                then Appointment.set_status completed a else a) l.

(** [Report.findById(i)]. *)
Definition stored_report (i : ObjectId) (db : DB) : option Report.t :=
  find (fun r => Report._id r =? i)%nat (reports db).

(** The activation rule on the patient collection, as [createAppointment]
    (lines 626-638) and [confirmAppointment] (lines 752-786) apply it: an
    inactive patient found under the id is saved active with the instant of
    the request; a failing store leaves the collection as it was. *)
Definition activation_rule (env : Env) (patientId : ObjectId)
    (l : list Patient.t) : list Patient.t :=
  if patient_lookup_fails env then l
  else match find (fun p => Patient._id p =? patientId)%nat l with
       | Some patient =>
           match Patient.status patient with
           | inactive =>
               if patient_save_fails env then l
               else if Patient.validate patient then
                 replace_by
                   (fun x => Patient._id x =? Patient._id patient)%nat
                   (Patient.set_lastStatusChangeDate (Some (now env))
                      (Patient.set_status active patient)) l
               else l
           | active => l
           end
       | None => l
       end.

(** ** [updateFollowUpAppointment] (PUT /api/appointments/:id/follow-up,
       lines 1273-1354) *)

Module FollowUpReq.
(** [timeSlotConfirmed] and [reminderSent] of the body are copied to the
    two flags of the same name, which nothing modelled here reads and the
    [Appointment] record leaves out. *)
Record t := mk {
  user : User.t;
  id : ObjectId;
  time : option string
}.
End FollowUpReq.

(** [updateData] (lines 1295-1300) applied to the stored document. *)
Definition follow_up_update (req : FollowUpReq.t) (a : Appointment.t)
  : Appointment.t :=
  if truthy (FollowUpReq.time req) then
    Appointment.mk (Appointment._id a) (Appointment.patientId a)
      (Appointment.doctorId a) (Appointment.hospitalId a)
      (Appointment.date a) (or_else (FollowUpReq.time req) "")
      (Appointment.type a) (Appointment.status a)
      (Appointment.noShowReason a) (Appointment.notes a)
      (Appointment.diagnosis a) (Appointment.disease a)
      (Appointment.treatmentOutcome a) (Appointment.treatmentEndDate a)
      (Appointment.isFollowUp a) false
      (Appointment.originalAppointmentId a) (Appointment.relatedReportId a)
  else a.

(** Lines 1327-1346; of the metadata the key [time] is kept (the other two
    keys read the two flags). *)
Definition follow_up_activity (req : FollowUpReq.t) (a : Appointment.t)
  : Activity.t :=
  activity_doc (Some (User._id (FollowUpReq.user req)))
    (Some (Appointment.hospitalId a)) (Some (User._id (FollowUpReq.user req)))
    (Some (or_else (User.name (FollowUpReq.user req)) "User"))
    (Some (or_else (User.role (FollowUpReq.user req)) "user"))
    (Some (Appointment.patientId a)) "followup_updated" "appointment"
    (Some (Appointment._id a))
    (Some ("Follow-up appointment updated by "
           ++ or_else (User.name (FollowUpReq.user req)) "User"))
    None
    [("time", MStr (or_else (FollowUpReq.time req) (Appointment.time a)))].

(** The update is a [findByIdAndUpdate] without validators; no lookup of
    the slot precedes it. *)
Definition updateFollowUpAppointment (req : FollowUpReq.t) (db : DB)
  : DB * Response :=
  match Appointment_findById (FollowUpReq.id req) db with
  | (_, Ok (Some appointment)) =>
      if negb (Appointment.isFollowUp appointment)
      then (db, error_response 400 "This is not a follow-up appointment")
      else
        let updatedAppointment := follow_up_update req appointment in
        match (Appointment_save updatedAppointment ;;
               logActivity (follow_up_activity req appointment)) db with
        | (db', Ok _) => (db', mkRes 200 None (Some updatedAppointment) None)
        | (db', Throw _) =>
            (db', error_response 500
                    "Server error while updating follow-up appointment")
        end
  | (_, _) => (db, error_response 404 "Appointment not found")
  end.

(** ** [deleteReport] (reportController.js, lines 1633-1710) *)

Module DeleteReq.
(** [hospital] is the path of that name of [req.user]. *)
Record t := mk {
  user : User.t;
  hospital : option ObjectId;
  id : ObjectId
}.
End DeleteReq.

(** [Report.findByIdAndDelete(id)]: the first document under the id goes. *)
Fixpoint delete_first {A} (same : A -> bool) (l : list A) : list A :=
  match l with
  | [] => []
  | x :: rest => if same x then rest else x :: delete_first same rest
  end.

Definition Report_findByIdAndDelete (i : ObjectId) : M unit :=
  fun db =>
    (with_reports
       (delete_first (fun r => Report._id r =? i)%nat (reports db)) db,
     Ok tt).

(** Lines 1681-1693; [show] prints an [ObjectId] in a template string. *)
Definition delete_activity (show : ObjectId -> string) (req : DeleteReq.t)
    (report : Report.t) : Activity.t :=
  activity_doc (Some (User._id (DeleteReq.user req)))
    (Some (Report.hospitalId report)) (Some (User._id (DeleteReq.user req)))
    (User.name (DeleteReq.user req)) (User.role (DeleteReq.user req))
    (Some (Report.patientId report)) "delete" "report"
    (Some (Report._id report))
    (Some ("Report #" ++ Report.reportNumber report ++ " deleted"))
    (Some (match User.name (DeleteReq.user req) with
           | Some n => n
           | None => "undefined"
           end ++ " deleted a report for patient ID: "
           ++ show (Report.patientId report)))
    [].

(** Lines 1655-1672: admins pass; every other caller needs a hospital, and
    the report's. *)
Definition deleteReport (show : ObjectId -> string) (req : DeleteReq.t)
    (db : DB) : DB * Response :=
  match find (fun r => Report._id r =? DeleteReq.id req)%nat (reports db) with
  | None => (db, error_response 404 "Report not found")
  | Some report =>
      let delete :=
        match (Report_findByIdAndDelete (DeleteReq.id req) ;;
               logActivity (delete_activity show req report)) db with
        | (db', Ok _) =>
            (db', mkRes 200 (Some "Report deleted successfully") None None)
        | (db', Throw _) => (db', error_response 500 "Error deleting report")
        end in
      if negb (or_else (User.role (DeleteReq.user req)) "" =? "admin") then
        match DeleteReq.hospital req with
        | None =>
            (db, error_response 403
                   "No hospital association found for the user")
        | Some userHospital =>
            if negb (Report.hospitalId report =? userHospital)%nat
            then (db, error_response 403
                        "Not authorized to delete this report")
            else delete
        end
      else delete
  end.

(** The callers the checks of [deleteReport] let pass. *)
Definition may_delete (req : DeleteReq.t) (report : Report.t) : bool :=
  (or_else (User.role (DeleteReq.user req)) "" =? "admin")
  || match DeleteReq.hospital req with
     | Some userHospital => (Report.hospitalId report =? userHospital)%nat
     | None => false
     end.

(** A booking that fails: the answer carries an error status and no
    appointment. *)
Definition refused (r : Response) : Prop :=
  400 <= res_status r /\ res_appointment r = None.




(** A clinic whose first appointment was stored without [type]: it and
    Bob's ten o'clock are confirmed and long past. *)
Definition ex_db_untyped : DB :=
  with_appointments
    [Appointment.mk 20 1 7 3 "2024-06-01" "09:00" "" confirmed "" (Some "")
                    (Some "flu") None (Some ongoing) None false false None
                    None;
     ex_appointment 11 2 "2024-06-01" "10:00" confirmed (Some ongoing) false]
    ex_db.
(** * Properties *)

(** ** Lists as collections *)

Lemma find_id_eq {A} (key : A -> nat) (i : nat) (l : list A) (x : A) :
  find (fun y => key y =? i)%nat l = Some x -> key x = i.
Proof.
  intros H. apply find_some in H. destruct H as [_ H].
  now apply Nat.eqb_eq in H.
Qed.

Lemma find_replace_by_id {A} (key : A -> nat) (i : nat) (l : list A)
    (x x' : A) :
  find (fun y => key y =? i)%nat l = Some x ->
  key x' = i ->
  find (fun y => key y =? i)%nat
       (replace_by (fun y => key y =? i)%nat x' l) = Some x'.
Proof.
  intros Hf Hk. subst i. unfold replace_by.
  induction l as [|y l IH]; simpl in *; [discriminate|].
  destruct (key y =? key x')%nat eqn:E.
  - now rewrite Nat.eqb_refl.
  - rewrite E. now apply IH.
Qed.

Lemma replace_by_absent {A} (same : A -> bool) (x : A) (l : list A) :
  (forall y, In y l -> same y = false) -> replace_by same x l = l.
Proof.
  intros H. unfold replace_by.
  induction l as [|y l IH]; simpl; [reflexivity|].
  rewrite (H y (or_introl eq_refl)). f_equal.
  apply IH. intros z Hz. apply H. now right.
Qed.

Lemma map_replace_by {A B} (g : A -> B) (same : A -> bool) (x : A)
    (l : list A) :
  (forall y, In y l -> same y = true -> g x = g y) ->
  map g (replace_by same x l) = map g l.
Proof.
  intros H. unfold replace_by. rewrite map_map.
  apply map_ext_in. intros y Hy.
  destruct (same y) eqn:E; [now apply H | reflexivity].
Qed.

(** ** Documents as a lookup builds them *)

Lemma Patient_hydrate_id env p :
  Patient._id (Patient_hydrate env p) = Patient._id p.
Proof.
  unfold Patient_hydrate. now destruct (Patient.lastStatusChangeDate p).
Qed.

Lemma Patient_hydrate_status env p :
  Patient.status (Patient_hydrate env p) = Patient.status p.
Proof.
  unfold Patient_hydrate. now destruct (Patient.lastStatusChangeDate p).
Qed.

Lemma Patient_hydrate_validate env p :
  Patient.validate (Patient_hydrate env p) = Patient.validate p.
Proof.
  unfold Patient_hydrate. now destruct (Patient.lastStatusChangeDate p).
Qed.

Lemma Patient_hydrate_treatmentDays env p :
  Patient.treatmentDays (Patient_hydrate env p) = Patient.treatmentDays p.
Proof.
  unfold Patient_hydrate. now destruct (Patient.lastStatusChangeDate p).
Qed.

Lemma Patient_hydrate_appointments env p :
  Patient.appointments (Patient_hydrate env p) = Patient.appointments p.
Proof.
  unfold Patient_hydrate. now destruct (Patient.lastStatusChangeDate p).
Qed.

Lemma Patient_hydrate_hospital env p :
  Patient.hospital (Patient_hydrate env p) = Patient.hospital p.
Proof.
  unfold Patient_hydrate. now destruct (Patient.lastStatusChangeDate p).
Qed.



(** An assignment to [lastStatusChangeDate] hides what the lookup filled. *)
Lemma set_last_hydrate env t p :
  Patient.set_lastStatusChangeDate t (Patient_hydrate env p)
  = Patient.set_lastStatusChangeDate t p.
Proof.
  unfold Patient_hydrate. now destruct (Patient.lastStatusChangeDate p).
Qed.

Lemma set_active_hydrate env t p :
  Patient.set_lastStatusChangeDate t
    (Patient.set_status active (Patient_hydrate env p))
  = Patient.set_lastStatusChangeDate t (Patient.set_status active p).
Proof.
  unfold Patient_hydrate. now destruct (Patient.lastStatusChangeDate p).
Qed.

(** A patient without date is built with the instant of the request, so
    no day elapses before its deactivation. *)
Lemma deactivate_hydrate env p :
  deactivate env (Patient_hydrate env p) = deactivate env p.
Proof.
  unfold deactivate, Patient_hydrate.
  destruct p as [i n e g h st td [t|] apps]; [reflexivity|].
  destruct st; cbn; [|reflexivity].
  unfold daysDifference. now rewrite Z.sub_diag, Zdiv_0_l, Z.add_0_r.
Qed.

Lemma Appointment_hydrate_id a :
  Appointment._id (Appointment_hydrate a) = Appointment._id a.
Proof.
  unfold Appointment_hydrate. now destruct (Appointment.treatmentOutcome a).
Qed.


Lemma Appointment_hydrate_slot a :
  Appointment.slot (Appointment_hydrate a) = Appointment.slot a.
Proof.
  unfold Appointment_hydrate. now destruct (Appointment.treatmentOutcome a).
Qed.

Lemma Appointment_hydrate_patientId a :
  Appointment.patientId (Appointment_hydrate a) = Appointment.patientId a.
Proof.
  unfold Appointment_hydrate. now destruct (Appointment.treatmentOutcome a).
Qed.

Lemma Appointment_hydrate_validate a :
  Appointment_validate (Appointment_hydrate a) = Appointment_validate a.
Proof.
  unfold Appointment_hydrate. now destruct (Appointment.treatmentOutcome a).
Qed.


(** ** The audit log refuses what its schema does not list *)

Lemma logActivity_rejected (a : Activity.t) (db : DB) :
  Activity.validate a = false -> logActivity a db = (db, Ok tt).
Proof.
  intros H. unfold logActivity, try_catch, Activity_save. now rewrite H.
Qed.

Lemma logActivity_accepted (a : Activity.t) (db : DB) :
  Activity.validate a = true ->
  logActivity a db = (with_activities (activities db ++ [a]) db, Ok tt).
Proof.
  intros H. unfold logActivity, try_catch, Activity_save. now rewrite H.
Qed.

Lemma logActivity_frame (a : Activity.t) (db : DB) :
  patients (fst (logActivity a db)) = patients db
  /\ appointments (fst (logActivity a db)) = appointments db
  /\ snd (logActivity a db) = Ok tt.
Proof.
  unfold logActivity, try_catch, Activity_save.
  destruct (Activity.validate a); simpl; auto.
Qed.

(** ['update_patient_status'] is no member of the [action] enum, and
    ['update_treatment'] none of the [type] enum. *)
Lemma patient_status_activity_rejected req a p d prev new :
  Activity.validate (patient_status_activity req a p d prev new) = false.
Proof. reflexivity. Qed.

Lemma treatment_activity_rejected req a :
  Activity.validate (treatment_activity req a) = false.
Proof. reflexivity. Qed.

Lemma missed_activity_accepted a :
  Activity.validate (missed_activity a) = true.
Proof. reflexivity. Qed.

(** ** [updateTreatmentOutcome]: what a call does to the store *)

Lemma outcome_permission_pure req a db :
  exists v, outcome_permission req a db = (db, Ok v)
            /\ forall r, v = Some r -> res_status r <> 200.
Proof.
  unfold outcome_permission, bind, Doctor_findOne_userId, ret.
  repeat match goal with
         | |- context [if ?b then _ else _] => destruct b
         | |- context [match find ?f ?l with _ => _ end] => destruct (find f l)
         end;
    eexists; (split; [reflexivity|]); intros r [=]; subst; simpl; lia.
Qed.

(** The patient synchronisation never throws, and leaves appointments and
    audit log alone: its own audit entry is refused by the schema. *)
Lemma sync_outcome_frame env req a db :
  exists r, snd (sync_patient_on_outcome env req a db) = Ok r
  /\ appointments (fst (sync_patient_on_outcome env req a db)) = appointments db
  /\ activities (fst (sync_patient_on_outcome env req a db)) = activities db.
Proof.
  unfold sync_patient_on_outcome, try_catch, bind, Patient_findById,
    Patient_save, throw, ret.
  repeat match goal with
         | |- context [logActivity ?x ?d] =>
             rewrite (logActivity_rejected x d)
               by apply patient_status_activity_rejected
         | |- context [if ?b then _ else _] => destruct b; simpl
         | |- context [option_map _ (find ?f ?l)] =>
             destruct (find f l); simpl
         | |- context [match Patient.status ?p with _ => _ end] =>
             destruct (Patient.status p); simpl
         end; eauto.
Qed.

(** Every call either answers with an error status and leaves the store as
    it was, or saves the treated appointment and hands over to the patient
    synchronisation. *)
Lemma updateTreatmentOutcome_trace env req db :
  (fst (updateTreatmentOutcome env req db) = db
   /\ res_status (snd (updateTreatmentOutcome env req db)) <> 200)
  \/ exists a early,
      stored_appointment (OutcomeReq.id req) db = Some a
      /\ treatment_castable env req = true
      /\ snd (sync_patient_on_outcome env req (treated_appointment env req a)
               (after_treatment env req a db)) = Ok early
      /\ fst (updateTreatmentOutcome env req db)
         = fst (sync_patient_on_outcome env req (treated_appointment env req a)
                  (after_treatment env req a db))
      /\ snd (updateTreatmentOutcome env req db)
         = match early with
           | Some r => r
           | None => outcome_response "Treatment outcome updated successfully"
                       (treated_appointment env req a) None
           end.
Proof.
  remember (updateTreatmentOutcome env req db) as R eqn:HR.
  unfold updateTreatmentOutcome, updateTreatmentOutcome_body in HR.
  unfold bind at 1 in HR. unfold Appointment_findById at 1 in HR.
  unfold stored_appointment.
  destruct (find _ (appointments db)) as [a|] eqn:Hf; simpl in HR;
    [|subst R; left; split; [reflexivity|discriminate]].
  unfold bind at 1 in HR.
  destruct (outcome_permission_pure req a db) as [v [Hp Hv]].
  rewrite Hp in HR.
  destruct v as [r|]; simpl in HR.
  { subst R. left. split; [reflexivity|]. now apply Hv. }
  destruct (truthy (OutcomeReq.treatmentOutcome req) && _) eqn:Hvalid;
    simpl in HR; [subst R; left; split; [reflexivity|discriminate]|].
  unfold bind at 1 in HR. unfold apply_treatment in HR.
  destruct (treatment_castable env req) eqn:Hc; simpl in HR;
    [|subst R; left; split; [reflexivity|discriminate]].
  unfold bind at 1 in HR. unfold Appointment_save_validated in HR.
  destruct (Appointment_validate (treated_appointment env req a)) eqn:Hva;
    simpl in HR; [|subst R; left; split; [reflexivity|discriminate]].
  unfold bind at 1 in HR.
  fold (after_treatment env req a db) in HR.
  right. exists a.
  destruct (sync_outcome_frame env req (treated_appointment env req a)
              (after_treatment env req a db)) as [early [He _]].
  destruct (sync_patient_on_outcome env req (treated_appointment env req a)
              (after_treatment env req a db)) as [db2 res] eqn:Hs.
  simpl in He. subst res.
  exists early. split; [reflexivity|]. split; [reflexivity|].
  split; [reflexivity|].
  destruct early as [r|].
  - subst R. split; reflexivity.
  - unfold bind in HR.
    rewrite logActivity_rejected in HR by apply treatment_activity_rejected.
    subst R. split; reflexivity.
Qed.

Lemma treated_appointment_id env req a :
  Appointment._id (treated_appointment env req a) = Appointment._id a.
Proof.
  unfold treated_appointment.
  destruct (truthy _ && _); reflexivity.
Qed.

Lemma stored_after_treatment env req a db :
  stored_appointment (OutcomeReq.id req) db = Some a ->
  stored_appointment (OutcomeReq.id req) (after_treatment env req a db)
  = Some (treated_appointment env req a).
Proof.
  intros H. unfold stored_appointment, after_treatment. simpl.
  rewrite treated_appointment_id.
  rewrite (find_id_eq Appointment._id _ _ _ H).
  apply (find_replace_by_id Appointment._id _ _ a); [exact H|].
  rewrite treated_appointment_id.
  now apply (find_id_eq Appointment._id) in H.
Qed.

(** A call answered with status 200 has saved the treated appointment. *)
Lemma updateTreatmentOutcome_200 env req db :
  res_status (snd (updateTreatmentOutcome env req db)) = 200 ->
  exists a early,
    stored_appointment (OutcomeReq.id req) db = Some a
    /\ snd (sync_patient_on_outcome env req (treated_appointment env req a)
             (after_treatment env req a db)) = Ok early
    /\ fst (updateTreatmentOutcome env req db)
       = fst (sync_patient_on_outcome env req (treated_appointment env req a)
                (after_treatment env req a db))
    /\ snd (updateTreatmentOutcome env req db)
       = match early with
         | Some r => r
         | None => outcome_response "Treatment outcome updated successfully"
                     (treated_appointment env req a) None
         end
    /\ stored_appointment (OutcomeReq.id req)
         (fst (updateTreatmentOutcome env req db))
       = Some (treated_appointment env req a).
Proof.
  intros H.
  destruct (updateTreatmentOutcome_trace env req db)
    as [[_ Hn]|(a & early & Hf & _ & He & Hfst & Hsnd)]; [contradiction|].
  exists a, early. repeat split; try assumption.
  rewrite Hfst. unfold stored_appointment.
  destruct (sync_outcome_frame env req (treated_appointment env req a)
              (after_treatment env req a db)) as (_ & _ & -> & _).
  now apply stored_after_treatment.
Qed.

(** No outcome recording leaves an audit entry: both entries the handler
    submits are refused by the audit schema. *)
Lemma outcome_recording_appends_no_audit env req db :
  activities (fst (updateTreatmentOutcome env req db)) = activities db.
Proof.
  destruct (updateTreatmentOutcome_trace env req db)
    as [[-> _]|(a & early & _ & _ & _ & -> & _)]; [reflexivity|].
  now destruct (sync_outcome_frame env req (treated_appointment env req a)
                  (after_treatment env req a db)) as (_ & _ & _ & ->).
Qed.

Lemma sync_outcome_idle env req a db :
  (forall o, OutcomeReq.treatmentOutcome req = Some o ->
             o <> "successful" /\ o <> "unsuccessful" /\ o <> "ongoing") ->
  sync_patient_on_outcome env req a db = (db, Ok None).
Proof.
  intros H. unfold sync_patient_on_outcome.
  destruct (OutcomeReq.treatmentOutcome req) as [o|]; [|reflexivity].
  destruct (H o eq_refl) as (H1 & H2 & H3).
  unfold or_else.
  destruct (o =? "") eqn:E0; [reflexivity|].
  apply String.eqb_neq in H1, H2, H3. now rewrite H1, H2, H3.
Qed.

(** An outcome that is neither terminal nor ['ongoing'], or no outcome at
    all, never reaches the patient store. *)
Lemma idle_outcome_leaves_patients (env : Env) (req : OutcomeReq.t) (db : DB) :
  (forall o, OutcomeReq.treatmentOutcome req = Some o ->
             o <> "successful" /\ o <> "unsuccessful" /\ o <> "ongoing") ->
  patients (fst (updateTreatmentOutcome env req db)) = patients db.
Proof.
  intros Ho.
  destruct (updateTreatmentOutcome_trace env req db)
    as [[-> _]|(a & early & _ & _ & _ & -> & _)]; [reflexivity|].
  now rewrite sync_outcome_idle.
Qed.

(** C8.  Recording the outcome ['partial'] leaves the whole patient
    collection as it was, whatever the caller, the appointment and the state
    of the patient store: no patient's status, lastStatusChangeDate or
    treatmentDays changes. *)
Theorem partial_outcome_leaves_patients (env : Env) (req : OutcomeReq.t)
    (db : DB) :
  OutcomeReq.treatmentOutcome req = Some "partial" ->
  patients (fst (updateTreatmentOutcome env req db)) = patients db.
Proof.
  intros Ho. apply idle_outcome_leaves_patients.
  intros o Ho'. rewrite Ho in Ho'. injection Ho' as <-.
  repeat split; discriminate.
Qed.

Lemma treated_status_terminal env req a o :
  OutcomeReq.treatmentOutcome req = Some o ->
  In o ["successful"; "partial"; "unsuccessful"] ->
  Appointment.status (treated_appointment env req a) = completed.
Proof.
  intros Ho Hin. unfold treated_appointment. rewrite Ho.
  simpl in Hin.
  destruct Hin as [<-|[<-|[<-|[]]]]; reflexivity.
Qed.

Lemma treated_status_kept env req a :
  OutcomeReq.treatmentOutcome req = Some "ongoing"
  \/ OutcomeReq.treatmentOutcome req = None ->
  Appointment.status (treated_appointment env req a) = Appointment.status a.
Proof.
  intros [Ho|Ho]; unfold treated_appointment; rewrite Ho; reflexivity.
Qed.

(** C3.  A call of [updateTreatmentOutcome] answered with status 200 whose
    outcome is successful, partial or unsuccessful leaves the appointment
    stored with status completed, whatever its status was; with outcome
    ongoing the stored status is the one the appointment had. *)
Theorem outcome_forces_completion (env : Env) (req : OutcomeReq.t) (db : DB)
    (o : string) :
  OutcomeReq.treatmentOutcome req = Some o ->
  res_status (snd (updateTreatmentOutcome env req db)) = 200 ->
  exists a a',
    stored_appointment (OutcomeReq.id req) db = Some a
    /\ stored_appointment (OutcomeReq.id req)
         (fst (updateTreatmentOutcome env req db)) = Some a'
    /\ (In o ["successful"; "partial"; "unsuccessful"] ->
        Appointment.status a' = completed)
    /\ (o = "ongoing" -> Appointment.status a' = Appointment.status a).
Proof.
  intros Ho H200.
  destruct (updateTreatmentOutcome_200 env req db H200)
    as (a & early & Hf & _ & _ & _ & Hst).
  exists a, (treated_appointment env req a).
  repeat split; try assumption.
  - intros Hin. now apply (treated_status_terminal env req a o).
  - intros ->. apply treated_status_kept. now left.
Qed.

(** C10.  When the payload carries no treatmentOutcome and the call is
    answered with status 200, the stored treatmentOutcome is overwritten
    with the absent value whatever it was, an omitted diagnosis or disease
    keeps its stored value, the appointment keeps its status, no patient is
    touched and no warning is returned. *)
Theorem omitted_outcome_is_overwritten (env : Env) (req : OutcomeReq.t)
    (db : DB) :
  OutcomeReq.treatmentOutcome req = None ->
  res_status (snd (updateTreatmentOutcome env req db)) = 200 ->
  exists a a',
    stored_appointment (OutcomeReq.id req) db = Some a
    /\ stored_appointment (OutcomeReq.id req)
         (fst (updateTreatmentOutcome env req db)) = Some a'
    /\ Appointment.treatmentOutcome a' = None
    /\ (OutcomeReq.diagnosis req = None ->
        Appointment.diagnosis a' = Appointment.diagnosis a)
    /\ (OutcomeReq.disease req = None ->
        Appointment.disease a' = Appointment.disease a)
    /\ Appointment.status a' = Appointment.status a
    /\ patients (fst (updateTreatmentOutcome env req db)) = patients db
    /\ res_warning (snd (updateTreatmentOutcome env req db)) = None.
Proof.
  intros Ho H200.
  destruct (updateTreatmentOutcome_200 env req db H200)
    as (a & early & Hf & He & Hfst & Hsnd & Hst).
  rewrite sync_outcome_idle in He, Hfst
    by (intros o Ho'; rewrite Ho in Ho'; discriminate).
  simpl in He. injection He as <-.
  exists a, (treated_appointment env req a).
  split; [assumption|]. split; [assumption|].
  unfold treated_appointment. rewrite Ho. simpl.
  repeat split.
  - intros ->. reflexivity.
  - intros ->. reflexivity.
  - rewrite Hfst. reflexivity.
  - now rewrite Hsnd.
Qed.

Lemma deactivate_validate env p :
  Patient.validate (deactivate env p) = Patient.validate p.
Proof.
  unfold deactivate.
  destruct (Patient.status p), (Patient.lastStatusChangeDate p); reflexivity.
Qed.

Lemma deactivate_id env p : Patient._id (deactivate env p) = Patient._id p.
Proof.
  unfold deactivate.
  destruct (Patient.status p), (Patient.lastStatusChangeDate p); reflexivity.
Qed.

(** The deactivation branch, case by case. *)
Lemma sync_outcome_terminal env req a db o :
  OutcomeReq.treatmentOutcome req = Some o ->
  o = "successful" \/ o = "unsuccessful" ->
  sync_patient_on_outcome env req a db =
    if patient_lookup_fails env
    then (db, Ok (Some (patient_failed_response a "patient lookup failed")))
    else match stored_patient (Appointment.patientId a) db with
         | None => (db, Ok (Some (patient_not_found_response a)))
         | Some p =>
             if patient_save_fails env
             then (db, Ok (Some (patient_failed_response a
                                   "patient save failed")))
             else if Patient.validate p
             then (with_patients
                     (replace_by
                        (fun x => Patient._id x =? Patient._id p)%nat
                        (deactivate env p)
                        (patients db)) db,
                   Ok None)
             else (db, Ok (Some (patient_failed_response a
                                   "Patient validation failed")))
         end.
Proof.
  intros Ho Hin.
  unfold sync_patient_on_outcome, stored_patient. rewrite Ho.
  assert (Hb : (or_else (Some o) "" =? "successful")
               || (or_else (Some o) "" =? "unsuccessful") = true)
    by (destruct Hin as [->| ->]; reflexivity).
  rewrite Hb.
  unfold try_catch, bind, Patient_findById, Patient_save, throw, ret.
  destruct (patient_lookup_fails env); [reflexivity|].
  destruct (find _ (patients db)) as [p|]; cbn [option_map]; [|reflexivity].
  destruct (patient_save_fails env); [reflexivity|].
  rewrite deactivate_hydrate, deactivate_validate, deactivate_id.
  destruct (Patient.validate p); cbn [negb]; [|reflexivity].
  rewrite logActivity_rejected by apply patient_status_activity_rejected.
  reflexivity.
Qed.

Lemma days_of_whole_days (T n r : Z) :
  (0 <= r < ms_per_day)%Z ->
  daysDifference (T + n * ms_per_day + r) T = n.
Proof.
  intros Hr. unfold daysDifference.
  replace (T + n * ms_per_day + r - T)%Z with (r + n * ms_per_day)%Z by lia.
  rewrite Z.div_add by (unfold ms_per_day; lia).
  rewrite Z.div_small by exact Hr. lia.
Qed.

(** C2.  Let a call of [updateTreatmentOutcome] with outcome successful or
    unsuccessful be answered with status 200 and no warning, let the
    appointment's patient be active since [T] with [D] treatment days, and
    let the call be served at [T] plus [n] days plus less than one more day.
    Then the patient is stored with [D + n] treatment days, status inactive
    and lastStatusChangeDate the time of the call. *)
Theorem deactivation_accrues_days (env : Env) (req : OutcomeReq.t) (db : DB)
    (o : string) (a : Appointment.t) (p : Patient.t) (T D n r : Z) :
  OutcomeReq.treatmentOutcome req = Some o ->
  o = "successful" \/ o = "unsuccessful" ->
  res_status (snd (updateTreatmentOutcome env req db)) = 200 ->
  res_warning (snd (updateTreatmentOutcome env req db)) = None ->
  stored_appointment (OutcomeReq.id req) db = Some a ->
  stored_patient (Appointment.patientId a) db = Some p ->
  Patient.status p = active ->
  Patient.lastStatusChangeDate p = Some T ->
  Patient.treatmentDays p = D ->
  now env = (T + n * ms_per_day + r)%Z ->
  (0 <= r < ms_per_day)%Z ->
  exists p',
    stored_patient (Patient._id p) (fst (updateTreatmentOutcome env req db))
      = Some p'
    /\ Patient.treatmentDays p' = (D + n)%Z
    /\ Patient.status p' = inactive
    /\ Patient.lastStatusChangeDate p' = Some (now env).
Proof.
  intros Ho Hin H200 Hw Hfa Hfp Hact Hlast HD Hnow Hr.
  destruct (updateTreatmentOutcome_200 env req db H200)
    as (a0 & early & Hf & He & Hfst & Hsnd & _).
  rewrite Hfa in Hf. injection Hf as <-.
  assert (Hpid : Appointment.patientId (treated_appointment env req a)
                 = Appointment.patientId a).
  { unfold treated_appointment. destruct (truthy _ && _); reflexivity. }
  rewrite (sync_outcome_terminal env req _ _ o Ho Hin) in He, Hfst.
  rewrite Hpid in He, Hfst.
  assert (Hfp' : stored_patient (Appointment.patientId a)
                   (after_treatment env req a db) = Some p) by exact Hfp.
  rewrite Hfp' in He, Hfst.
  rewrite Hsnd in Hw.
  destruct (patient_lookup_fails env);
    [simpl in He; injection He as <-; discriminate|].
  destruct (patient_save_fails env);
    [simpl in He; injection He as <-; discriminate|].
  destruct (Patient.validate p);
    [|simpl in He; injection He as <-; discriminate].
  exists (deactivate env p).
  rewrite Hfst. simpl. split.
  - unfold stored_patient. simpl.
    apply (find_replace_by_id Patient._id _ _ p); [|apply deactivate_id].
    rewrite <- (find_id_eq Patient._id _ _ _ Hfp) in Hfp. exact Hfp.
  - unfold deactivate. rewrite Hact, Hlast. simpl.
    rewrite Hnow, days_of_whole_days by exact Hr.
    rewrite HD. repeat split.
Qed.

(** ** [updateAppointmentStatus]: what a call does to the store *)

Lemma parse_status_name s st : parse_status s = Some st -> status_name st = s.
Proof.
  unfold parse_status.
  repeat match goal with
         | |- context [if ?x =? ?y then _ else _] =>
             destruct (String.eqb_spec x y)
         end; intros [=]; subst; reflexivity.
Qed.

Lemma sync_status_frame env req u db :
  exists flag,
    snd (sync_patient_on_status env req u db) = Ok flag
    /\ appointments (fst (sync_patient_on_status env req u db))
       = appointments db
    /\ activities (fst (sync_patient_on_status env req u db))
       = activities db.
Proof.
  unfold sync_patient_on_status, try_catch, bind, Patient_findById,
    Patient_save, throw, ret.
  destruct (patient_lookup_fails env); simpl; [eauto|].
  destruct (find _ (patients db)) as [p0|]; simpl; [|eauto].
  set (p := Patient_hydrate env p0).
  destruct (patient_save_fails env); simpl; [eauto|].
  match goal with
  | |- context [negb (Patient.validate ?x)] => destruct (Patient.validate x)
  end; simpl; [|eauto].
  destruct ((StatusReq.status req =? "confirmed") && _); simpl; [|eauto].
  unfold logActivity, try_catch, Activity_save. simpl. eauto.
Qed.

Lemma apply_updateData_id req st a :
  Appointment._id (apply_updateData req st a) = Appointment._id a.
Proof. unfold apply_updateData. destruct (_ && _); reflexivity. Qed.

Lemma apply_updateData_status req st a :
  Appointment.status (apply_updateData req st a) = st.
Proof. unfold apply_updateData. destruct (_ && _); reflexivity. Qed.

(** An update of a stored appointment to a status of the enum is accepted:
    the appointment is saved, the patient synchronisation runs and cannot
    fail the call, one audit entry is submitted, and the answer is the
    updated appointment with status 200. *)
Lemma updateAppointmentStatus_run env req db a st :
  stored_appointment (StatusReq.id req) db = Some a ->
  parse_status (StatusReq.status req) = Some st ->
  exists flag,
    snd (sync_patient_on_status env req (apply_updateData req st a)
           (after_status_update req st a db)) = Ok flag
    /\ updateAppointmentStatus env req db
       = (fst (logActivity
                 (status_activity req (apply_updateData req st a) flag)
                 (fst (sync_patient_on_status env req
                         (apply_updateData req st a)
                         (after_status_update req st a db)))),
          mkRes 200 None (Some (apply_updateData req st a)) None).
Proof.
  intros Hf Hp.
  destruct (sync_status_frame env req (apply_updateData req st a)
              (after_status_update req st a db)) as (flag & Hflag & _).
  exists flag. split; [exact Hflag|].
  unfold updateAppointmentStatus, updateAppointmentStatus_body.
  unfold bind at 1. unfold Appointment_findById at 1.
  unfold stored_appointment in Hf. rewrite Hf, Hp.
  unfold bind at 1. unfold Appointment_save at 1.
  fold (after_status_update req st a db).
  unfold bind at 1.
  destruct (sync_patient_on_status env req (apply_updateData req st a)
              (after_status_update req st a db)) as [db2 res].
  simpl in Hflag. subst res. simpl.
  unfold bind.
  destruct (logActivity_frame
              (status_activity req (apply_updateData req st a) flag) db2)
    as (_ & _ & Hok).
  destruct (logActivity _ db2) as [db3 r3]. simpl in Hok. subst r3.
  reflexivity.
Qed.

Lemma status_activity_validate req u flag st :
  parse_status (StatusReq.status req) = Some st ->
  Activity.validate (status_activity req u flag)
  = audit_role (StatusReq.user req).
Proof.
  intros Hp. apply parse_status_name in Hp.
  unfold status_activity, activity_doc, Activity.validate, audit_role.
  cbn [Activity.user Activity.actorRole Activity.action Activity.subject
       Activity.subjectId Activity.type Activity.status].
  rewrite <- Hp.
  destruct st; cbn; now rewrite ?andb_true_r.
Qed.

(** C9.  For every accepted status update by a staff member, doctor or
    admin, the call appends exactly one audit entry, and the entry's
    previousStatus field holds the NEW status, the same value as its
    newStatus field: it is read from the document returned by
    [findByIdAndUpdate] with [new: true], not from the appointment as it
    was before the transition. *)
Theorem status_audit_previous_is_new (env : Env) (req : StatusReq.t)
    (db : DB) (a : Appointment.t) (st : AppointmentStatus) :
  stored_appointment (StatusReq.id req) db = Some a ->
  parse_status (StatusReq.status req) = Some st ->
  audit_role (StatusReq.user req) = true ->
  exists e,
    activities (fst (updateAppointmentStatus env req db))
      = (activities db ++ [e])%list
    /\ Activity.lookup "previousStatus" (Activity.metadata e)
       = Some (MStr (status_name st))
    /\ Activity.lookup "newStatus" (Activity.metadata e)
       = Some (MStr (status_name st)).
Proof.
  intros Hf Hp Hrole.
  destruct (updateAppointmentStatus_run env req db a st Hf Hp)
    as (flag & Hflag & ->).
  destruct (sync_status_frame env req (apply_updateData req st a)
              (after_status_update req st a db)) as (_ & _ & _ & Hact).
  exists (status_activity req (apply_updateData req st a) flag).
  rewrite logActivity_accepted
    by (rewrite (status_activity_validate _ _ _ st Hp); exact Hrole).
  simpl. rewrite Hact. simpl.
  rewrite apply_updateData_status, (parse_status_name _ _ Hp).
  repeat split.
Qed.

Lemma set_active_validate t p :
  Patient.validate (Patient.set_lastStatusChangeDate t
                      (Patient.set_status active p))
  = Patient.validate p.
Proof. reflexivity. Qed.

(** The reactivation branch of an ['ongoing'] outcome, case by case. *)
Lemma sync_outcome_ongoing env req a db :
  OutcomeReq.treatmentOutcome req = Some "ongoing" ->
  sync_patient_on_outcome env req a db =
    if patient_lookup_fails env
    then (db, Ok (Some (patient_failed_response a "patient lookup failed")))
    else match stored_patient (Appointment.patientId a) db with
         | None => (db, Ok (Some (patient_not_found_response a)))
         | Some p =>
             match Patient.status p with
             | active => (db, Ok None)
             | inactive =>
                 if patient_save_fails env
                 then (db, Ok (Some (patient_failed_response a
                                       "patient save failed")))
                 else if Patient.validate p
                 then (with_patients
                         (replace_by
                            (fun x => Patient._id x =? Patient._id p)%nat
                            (Patient.set_lastStatusChangeDate (Some (now env))
                               (Patient.set_status active p))
                            (patients db)) db,
                       Ok None)
                 else (db, Ok (Some (patient_failed_response a
                                       "Patient validation failed")))
             end
         end.
Proof.
  intros Ho.
  unfold sync_patient_on_outcome, stored_patient. rewrite Ho.
  cbn [or_else String.eqb Ascii.eqb Bool.eqb orb].
  unfold try_catch, bind, Patient_findById, Patient_save, throw, ret.
  destruct (patient_lookup_fails env); [reflexivity|].
  destruct (find _ (patients db)) as [p|]; cbn [option_map]; [|reflexivity].
  rewrite Patient_hydrate_status.
  destruct (Patient.status p); [reflexivity|].
  destruct (patient_save_fails env); [reflexivity|].
  rewrite set_active_hydrate, set_active_validate.
  destruct (Patient.validate p); cbn [negb]; [|reflexivity].
  rewrite logActivity_rejected by apply patient_status_activity_rejected.
  reflexivity.
Qed.



Lemma treated_appointment_patientId env req a :
  Appointment.patientId (treated_appointment env req a)
  = Appointment.patientId a.
Proof. unfold treated_appointment. destruct (truthy _ && _); reflexivity. Qed.



(** ** The no-show sweep *)

Lemma replace_by_unique {A} (key : A -> nat) (pre post : list A) (x x' : A) :
  NoDup (map key (pre ++ x :: post)) ->
  replace_by (fun y => key y =? key x)%nat x' (pre ++ x :: post)
  = (pre ++ x' :: post)%list.
Proof.
  intros Hnd. unfold replace_by.
  rewrite map_app. simpl. rewrite Nat.eqb_refl.
  rewrite map_app in Hnd. simpl in Hnd.
  pose proof (NoDup_remove_2 _ _ _ Hnd) as Hnot.
  f_equal; [|f_equal].
  - apply (replace_by_absent (fun y => key y =? key x)%nat x').
    intros y Hy. apply Nat.eqb_neq. intros E. apply Hnot.
    apply in_or_app. left. rewrite <- E. now apply in_map.
  - apply (replace_by_absent (fun y => key y =? key x)%nat x').
    intros y Hy. apply Nat.eqb_neq. intros E. apply Hnot.
    apply in_or_app. right. rewrite <- E. now apply in_map.
Qed.

(** The text behind the header of the script begins with the cron line:
    the [*/] of [*/15] has closed the block comment. *)
Lemma header_closes_early :
  behind_header script_header
  = Some ("15 * * * * node /path/to/backend/scripts/updateMissedAppointments.js",
          [" */"]).
Proof. reflexivity. Qed.

(** C6.  The script that holds the sweep does not parse: the cron line of
    its header closes the block comment, and the text behind it, [15 * *],
    is a SyntaxError.  So no run of the script marks anything: whatever the
    store and the clock, the store is left as it was, and an appointment
    that is confirmed and more than thirty minutes past its time is still
    stored confirmed, with no audit entry about it. *)
Theorem shipped_sweep_marks_nothing (env : Env) (db : DB) :
  run_script env db = (db, SyntaxError)
  /\ (forall a, In a (appointments db) -> missed env a = true ->
        In a (appointments (fst (run_script env db)))
        /\ Appointment.status a = confirmed
        /\ activities (fst (run_script env db)) = activities db).
Proof.
  assert (Hrun : run_script env db = (db, SyntaxError)) by reflexivity.
  split; [exact Hrun|].
  intros a Hin Hm. rewrite Hrun. cbn [fst].
  split; [exact Hin|]. split; [|reflexivity].
  unfold missed, sweep_query in Hm.
  apply andb_prop in Hm. destruct Hm as [Hm _].
  apply andb_prop in Hm. destruct Hm as [Hm _].
  now destruct (Appointment.status a).
Qed.

(** The function of the script, were it run: the save that refuses a
    document ends the run through the [catch] around the loop.  At a clinic
    whose first missed appointment was stored without [type], nothing is
    marked and nothing is logged, Bob's missed ten o'clock included. *)
Lemma sweep_stops_at_refused_save :
  let env := ex_env june4_noon false false in
  forallb (missed env) (appointments ex_db_untyped) = true
  /\ updateMissedAppointments env ex_db_untyped = (ex_db_untyped, None).
Proof. vm_compute. split; reflexivity. Qed.

(** ** [bookAppointment]: what a call does to the store *)

Lemma booking_activity_rejected req p a d h date c :
  Activity.validate (booking_activity req p a d h date c) = false.
Proof.
  unfold booking_activity, activity_doc, Activity.validate. cbn.
  now rewrite andb_false_r.
Qed.

Lemma reactivation_activity_rejected req p a h :
  Activity.validate (reactivation_activity req p a h) = false.
Proof.
  unfold reactivation_activity, activity_doc, Activity.validate. cbn.
  now rewrite andb_false_r.
Qed.

Lemma truthy_or_else o : truthy o = true -> or_else o "" <> "".
Proof.
  destruct o as [s|]; simpl; [|discriminate].
  destruct (String.eqb_spec s ""); [discriminate|auto].
Qed.

Lemma or_else_default_nonempty o d : d <> "" -> or_else o d <> "".
Proof.
  intros Hd. destruct o as [s|]; simpl; [|exact Hd].
  destruct (String.eqb_spec s ""); auto.
Qed.

(** The patient step writes to the patient collection only. *)
Lemma find_or_create_patient_frame env name email gender h db :
  appointments (fst (find_or_create_patient env name email gender h db))
    = appointments db
  /\ activities (fst (find_or_create_patient env name email gender h db))
     = activities db.
Proof.
  unfold find_or_create_patient, bind, Patient_findOne_email, Patient_create,
    Patient_save, fresh_id, throw, ret, bind.
  destruct (patient_lookup_fails env); simpl; [auto|].
  destruct (find _ (patients db)) as [p0|]; cbn [option_map].
  - generalize (Patient_hydrate env p0). intros p.
    destruct (Patient.status p); simpl; [auto|].
    destruct (patient_save_fails env); simpl; [auto|].
    match goal with
    | |- context [negb (Patient.validate ?x)] => destruct (Patient.validate x)
    end; simpl; auto.
  - simpl. destruct (patient_save_fails env); simpl; [auto|].
    match goal with
    | |- context [negb (Patient.validate ?x)] => destruct (Patient.validate x)
    end; simpl; auto.
Qed.

(** The slot check and what follows it. *)
Lemma book_slot_occupied env req d h date time pc db x :
  find (slot_taken_by d date time) (appointments db) = Some x ->
  book_slot env req d h date time pc db
  = (db, Throw "This time slot is already booked").
Proof.
  intros H. unfold book_slot, bind, Appointment_findOne_slot. now rewrite H.
Qed.

Lemma book_slot_free env req d h date time pc db :
  find (slot_taken_by d date time) (appointments db) = None ->
  date <> "" -> time <> "" ->
  let a := booked_appointment req (fst pc) d h date time (next_id db) in
  book_slot env req d h date time pc db
  = match Patient_save env (patient_with_booking env (fst pc) d date)
            (with_booking a db) with
    | (db3, Ok _) => (db3, Ok (mkRes 201 None (Some a) None))
    | (db3, Throw e) => (db3, Throw e)
    end.
Proof.
  intros Hfree Hd Ht a.
  unfold book_slot. unfold bind at 1. unfold Appointment_findOne_slot at 1.
  rewrite Hfree.
  unfold bind at 1. unfold Appointment_create, bind at 1, fresh_id.
  fold a.
  assert (Hv : Appointment_validate a = true).
  { unfold Appointment_validate, a, booked_appointment. simpl.
    apply String.eqb_neq in Hd, Ht. rewrite Hd, Ht. simpl.
    assert (Hty : or_else (BookReq.type req) "consultation" <> "")
      by (apply or_else_default_nonempty; discriminate).
    apply String.eqb_neq in Hty. now rewrite Hty. }
  rewrite Hv. cbn [with_next_id next_id appointments].
  fold (with_booking a db).
  unfold bind at 1.
  destruct (Patient_save env _ (with_booking a db)) as [db3 [[]|e]];
    [|reflexivity].
  unfold bind at 1.
  rewrite logActivity_rejected by apply booking_activity_rejected.
  unfold bind at 1.
  destruct (snd pc).
  - rewrite logActivity_rejected by apply reactivation_activity_rejected.
    reflexivity.
  - reflexivity.
Qed.

(** A request is either turned away before anything is written, or it goes
    through the patient step and then the slot check. *)
Lemma bookAppointment_cases env req db :
  (fst (bookAppointment env req db) = db
   /\ res_status (snd (bookAppointment env req db)) = 500
   /\ fields_ok req && doctor_bookable req db = false)
  \/ exists d h pd,
      BookReq.doctorId req = Some d
      /\ BookReq.hospitalId req = Some h
      /\ BookReq.patientDetails req = Some pd
      /\ fields_ok req = true
      /\ doctor_bookable req db = true
      /\ bookAppointment env req db
         = match bind (find_or_create_patient env
                         (or_else (PatientDetails.name pd) "")
                         (or_else (PatientDetails.email pd) "")
                         (PatientDetails.gender pd) h)
                      (book_slot env req d h (or_else (BookReq.date req) "")
                                 (or_else (BookReq.time req) "")) db with
           | (db', Ok r) => (db', r)
           | (db', Throw e) =>
               (db', error_response 500
                       (or_else (Some e) "Error booking appointment"))
           end.
Proof.
  remember (bookAppointment env req db) as R eqn:HR.
  unfold bookAppointment, bookAppointment_body in HR.
  unfold fields_ok, doctor_bookable.
  destruct (BookReq.doctorId req) as [d|]; [|subst R; left; auto].
  destruct (BookReq.hospitalId req) as [h|]; [|subst R; left; auto].
  destruct (BookReq.patientDetails req) as [pd|]; [|subst R; left; auto].
  destruct (truthy (BookReq.date req)); [|subst R; left; auto].
  destruct (truthy (BookReq.time req)); [|subst R; left; auto].
  destruct (truthy (PatientDetails.name pd)); [|subst R; left; auto].
  destruct (truthy (PatientDetails.email pd)); [|subst R; left; auto].
  cbn [negb orb andb] in *.
  unfold bind at 1 in HR. unfold Doctor_findById at 1 in HR.
  destruct (find _ (doctors db)) as [doc|]; [|subst R; left; auto].
  unfold bind at 1 in HR. unfold User_findById at 1 in HR.
  destruct (doctor_available _); [|subst R; left; auto].
  cbn [negb] in HR.
  right. exists d, h, pd. subst R. repeat split; reflexivity.
Qed.

Lemma Patient_save_frame env p db :
  appointments (fst (Patient_save env p db)) = appointments db
  /\ activities (fst (Patient_save env p db)) = activities db.
Proof.
  unfold Patient_save, throw.
  destruct (patient_save_fails env); [auto|].
  destruct (Patient.validate p); simpl; auto.
Qed.

Lemma fields_ok_slot req d :
  BookReq.doctorId req = Some d -> fields_ok req = true ->
  requested_slot req
  = Some (d, or_else (BookReq.date req) "", or_else (BookReq.time req) "")
  /\ or_else (BookReq.date req) "" <> ""
  /\ or_else (BookReq.time req) "" <> "".
Proof.
  unfold fields_ok, requested_slot. intros ->.
  destruct (BookReq.hospitalId req); [|discriminate].
  destruct (BookReq.patientDetails req); [|discriminate].
  destruct (truthy (BookReq.date req)) eqn:Hd; [|discriminate].
  destruct (truthy (BookReq.time req)) eqn:Ht; [|discriminate].
  intros _. repeat split; now apply truthy_or_else.
Qed.

(** What a booking does to the appointment collection: nothing, and the
    call fails; or it appends one pending appointment at the requested slot,
    which no live appointment held. *)
(** A booking is answered 201, or with an error that carries no
    appointment. *)
Lemma bookAppointment_answer env req db :
  res_status (snd (bookAppointment env req db)) = 201
  \/ exists msg, snd (bookAppointment env req db) = error_response 500 msg.
Proof.
  destruct (bookAppointment_cases env req db)
    as [(_ & _ & Hno)|(d & h & pd & Hd & Hh & Hpd & Hok & _ & ->)].
  - right. unfold bookAppointment.
    destruct (bookAppointment_body env req db) as [db' [r|e]] eqn:Hb;
      [|eexists; reflexivity].
    exfalso. unfold bookAppointment_body, fields_ok, doctor_bookable in *.
    destruct (BookReq.doctorId req) as [d|]; [|discriminate].
    destruct (BookReq.hospitalId req) as [h|]; [|discriminate].
    destruct (BookReq.patientDetails req) as [pd|]; [|discriminate].
    destruct (truthy (BookReq.date req)); [|discriminate].
    destruct (truthy (BookReq.time req)); [|discriminate].
    destruct (truthy (PatientDetails.name pd)); [|discriminate].
    destruct (truthy (PatientDetails.email pd)); [|discriminate].
    cbn [negb orb andb] in *.
    unfold bind at 1 in Hb. unfold Doctor_findById at 1 in Hb.
    destruct (find _ (doctors db)) as [doc|]; [|discriminate].
    unfold bind at 1 in Hb. unfold User_findById at 1 in Hb.
    destruct (doctor_available _); discriminate.
  - destruct (fields_ok_slot req d Hd Hok) as (_ & Hdate & Htime).
    unfold bind.
    destruct (find_or_create_patient _ _ _ _ _ db) as [db1 [pc|e]];
      [|right; eexists; reflexivity].
    destruct (find (slot_taken_by d (or_else (BookReq.date req) "")
                      (or_else (BookReq.time req) "")) (appointments db1))
      as [x|] eqn:Hfind.
    + rewrite (book_slot_occupied _ _ _ _ _ _ _ _ x Hfind).
      right. eexists. reflexivity.
    + rewrite (book_slot_free _ _ _ _ _ _ _ _ Hfind Hdate Htime).
      destruct (Patient_save env _ _) as [db3 [[]|e]];
        [left; reflexivity|right; eexists; reflexivity].
Qed.

Lemma bookAppointment_appointments env req db :
  (appointments (fst (bookAppointment env req db)) = appointments db
   /\ res_status (snd (bookAppointment env req db)) = 500)
  \/ exists d date time a,
      requested_slot req = Some (d, date, time)
      /\ find (slot_taken_by d date time) (appointments db) = None
      /\ appointments (fst (bookAppointment env req db))
         = (appointments db ++ [a])%list
      /\ Appointment.slot a = (d, date, time)
      /\ Appointment.status a = pending.
Proof.
  destruct (bookAppointment_cases env req db)
    as [(-> & H500 & _)|(d & h & pd & Hd & Hh & Hpd & Hok & _ & ->)];
    [left; auto|].
  destruct (fields_ok_slot req d Hd Hok) as (Hslot & Hdate & Htime).
  unfold bind.
  destruct (find_or_create_patient_frame env
              (or_else (PatientDetails.name pd) "")
              (or_else (PatientDetails.email pd) "")
              (PatientDetails.gender pd) h db) as [Happ _].
  destruct (find_or_create_patient _ _ _ _ _ db) as [db1 [pc|e]];
    simpl in Happ; [|left; auto].
  destruct (find (slot_taken_by d (or_else (BookReq.date req) "")
                    (or_else (BookReq.time req) "")) (appointments db1))
    as [x|] eqn:Hfind.
  - rewrite (book_slot_occupied _ _ _ _ _ _ _ _ x Hfind). left. auto.
  - rewrite (book_slot_free _ _ _ _ _ _ _ _ Hfind Hdate Htime).
    right.
    exists d, (or_else (BookReq.date req) ""), (or_else (BookReq.time req) ""),
      (booked_appointment req (fst pc) d h (or_else (BookReq.date req) "")
         (or_else (BookReq.time req) "") (next_id db1)).
    split; [exact Hslot|]. split; [now rewrite <- Happ|].
    split; [|split; reflexivity].
    match goal with
    | |- context [Patient_save env ?p ?s] =>
        destruct (Patient_save_frame env p s) as [Hs _];
        destruct (Patient_save env p s) as [db3 [[]|e]]
    end; simpl in Hs |- *; rewrite Hs; simpl; now rewrite Happ.
Qed.

Lemma slot_taken_by_spec d date time a :
  slot_taken_by d date time a = true
  <-> Appointment.slot a = (d, date, time) /\ live a = true.
Proof.
  unfold slot_taken_by, Appointment.slot, live.
  rewrite !andb_true_iff, Nat.eqb_eq, !String.eqb_eq.
  split.
  - intros [[[-> ->] ->] H]. auto.
  - intros [[= -> -> ->] H]. auto.
Qed.

Lemma free_slot_not_live d date time db :
  find (slot_taken_by d date time) (appointments db) = None ->
  ~ In (d, date, time) (live_slots db).
Proof.
  intros Hfree Hin. unfold live_slots in Hin.
  apply in_map_iff in Hin. destruct Hin as (a & Hs & Ha).
  apply filter_In in Ha. destruct Ha as [Ha Hl].
  pose proof (find_none _ _ Hfree a Ha) as Hn.
  assert (slot_taken_by d date time a = true)
    by (apply slot_taken_by_spec; auto).
  congruence.
Qed.

Lemma NoDup_snoc {A} (l : list A) (x : A) :
  NoDup l -> ~ In x l -> NoDup (l ++ [x]).
Proof.
  intros Hl Hx. induction Hl as [|y l Hy Hl IH]; simpl.
  - constructor; [auto|constructor].
  - constructor.
    + intros Hin. apply in_app_or in Hin. destruct Hin as [Hin|[->|[]]].
      * contradiction.
      * apply Hx. now left.
    + apply IH. intros Hin. apply Hx. now right.
Qed.

Lemma bookAppointment_keeps_slots_unique env req db :
  no_double_booking db -> no_double_booking (fst (bookAppointment env req db)).
Proof.
  intros Hnd. unfold no_double_booking, live_slots in *.
  destruct (bookAppointment_appointments env req db)
    as [[-> _]|(d & date & time & a & _ & Hfree & -> & Hs & Hst)];
    [exact Hnd|].
  rewrite filter_app, map_app. simpl.
  unfold live at 2. rewrite Hst. simpl. rewrite Hs.
  apply NoDup_snoc; [exact Hnd|].
  now apply free_slot_not_live.
Qed.

Lemma find_or_create_patient_ready env name email gender h db :
  patient_lookup_fails env = false ->
  patient_save_fails env = false ->
  name <> "" -> email <> "" ->
  match find (fun p => Patient.email p =? email) (patients db) with
  | None => mem_str (or_else gender "not_specified")
                    ["male"; "female"; "other"; "not_specified"] = true
  | Some p => Patient.validate p = true
  end ->
  exists db1 pc,
    find_or_create_patient env name email gender h db = (db1, Ok pc)
    /\ Patient.validate (fst pc) = true.
Proof.
  intros Hl Hs Hn He Hp.
  unfold find_or_create_patient, bind, Patient_findOne_email, Patient_create,
    Patient_save, fresh_id, throw, ret, bind.
  rewrite Hl.
  destruct (find _ (patients db)) as [p0|]; cbn [option_map].
  - rewrite <- (Patient_hydrate_validate env p0) in Hp.
    generalize dependent (Patient_hydrate env p0). intros p Hp.
    destruct (Patient.status p) eqn:Hst.
    + eexists _, _. split; [reflexivity|exact Hp].
    + rewrite Hs. cbv zeta.
      cbn [Patient.hospital Patient.set_lastStatusChangeDate
           Patient.set_status].
      destruct (Patient.hospital p);
        match goal with
        | |- context [negb (Patient.validate ?x)] =>
            change (Patient.validate x) with (Patient.validate p)
        end; rewrite Hp; cbn [negb];
        eexists _, _; (split; [reflexivity|exact Hp]).
  - rewrite Hs.
    assert (Hv : Patient.validate
                   (Patient.mk (next_id db) name email
                      (or_else gender "not_specified") (Some h) active 0
                      (Some (now env)) []) = true).
    { unfold Patient.validate. cbn [Patient.name Patient.email Patient.gender
                                    Patient.appointments forallb].
      apply String.eqb_neq in Hn, He. rewrite Hn, He, Hp. reflexivity. }
    cbv zeta. rewrite Hv. simpl.
    eexists _, _. split; [reflexivity|exact Hv].
Qed.

Lemma patient_with_booking_validate env p d date t :
  Patient.validate p = true -> Date_parse env date = Some t ->
  Patient.validate (patient_with_booking env p d date) = true.
Proof.
  unfold Patient.validate, patient_with_booking.
  cbn [Patient.name Patient.email Patient.gender Patient.appointments
       Patient.set_appointments].
  intros Hv Hd. rewrite forallb_app.
  apply andb_prop in Hv. destruct Hv as [Hv ->].
  rewrite Hv. simpl. unfold PatientAppointment.validate. simpl.
  now rewrite Hd.
Qed.

(** A ready booking gets as far as the slot check: on an occupied slot the
    answer is the slot error, on a free one the booking completes. *)
Lemma bookAppointment_ready env req db d date time :
  ready_to_book env req db = true ->
  requested_slot req = Some (d, date, time) ->
  match find (slot_taken_by d date time) (appointments db) with
  | Some _ =>
      snd (bookAppointment env req db)
      = error_response 500 "This time slot is already booked"
  | None => res_status (snd (bookAppointment env req db)) = 201
  end.
Proof.
  intros Hready Hreq.
  unfold ready_to_book in Hready.
  apply andb_prop in Hready. destruct Hready as [Hfd Hpat].
  destruct (bookAppointment_cases env req db)
    as [(_ & _ & Hno)|(d0 & h & pd & Hd & Hh & Hpd & Hok & _ & ->)];
    [congruence|].
  destruct (fields_ok_slot req d0 Hd Hok) as (Hslot & Hdate & Htime).
  rewrite Hslot in Hreq. injection Hreq as -> <- <-.
  unfold patient_ready in Hpat. rewrite Hpd in Hpat.
  apply andb_prop in Hpat. destruct Hpat as [Hpat Hcast].
  apply andb_prop in Hpat. destruct Hpat as [Hpat Hfound].
  apply andb_prop in Hpat. destruct Hpat as [Hl Hs].
  apply negb_true_iff in Hl, Hs.
  assert (Hne : or_else (PatientDetails.name pd) "" <> ""
                /\ or_else (PatientDetails.email pd) "" <> "").
  { unfold fields_ok in Hok. rewrite Hd, Hh, Hpd in Hok.
    apply andb_prop in Hok. destruct Hok as [Hok He].
    apply andb_prop in Hok. destruct Hok as [_ Hn].
    split; now apply truthy_or_else. }
  destruct Hne as [Hn He].
  destruct (find_or_create_patient_ready env _ _ (PatientDetails.gender pd) h
              db Hl Hs Hn He) as (db1 & pc & Hfc & Hv).
  { destruct (find _ (patients db)); exact Hfound. }
  destruct (find_or_create_patient_frame env
              (or_else (PatientDetails.name pd) "")
              (or_else (PatientDetails.email pd) "")
              (PatientDetails.gender pd) h db) as [Happ _].
  unfold bind. rewrite Hfc in Happ |- *. simpl in Happ. rewrite <- Happ.
  destruct (find _ (appointments db1)) as [x|] eqn:Hfind.
  - now rewrite (book_slot_occupied _ _ _ _ _ _ _ _ x Hfind).
  - rewrite (book_slot_free _ _ _ _ _ _ _ _ Hfind Hdate Htime).
    destruct (Date_parse env (or_else (BookReq.date req) "")) as [t|] eqn:Hdp;
      [|discriminate].
    unfold Patient_save. rewrite Hs.
    rewrite (patient_with_booking_validate env (fst pc) d _ t Hv Hdp).
    reflexivity.
Qed.

Lemma find_existsb {A} (f : A -> bool) (l : list A) :
  existsb f l = true -> exists x, find f l = Some x.
Proof.
  induction l as [|y l IH]; simpl; [discriminate|].
  destruct (f y); [eauto|exact IH].
Qed.

Lemma find_none_when_cancelled d date time db :
  (forall a, In a (appointments db) ->
             Appointment.slot a = (d, date, time) ->
             Appointment.status a = cancelled) ->
  find (slot_taken_by d date time) (appointments db) = None.
Proof.
  intros H.
  destruct (find _ (appointments db)) as [x|] eqn:Hf; [|reflexivity].
  apply find_some in Hf. destruct Hf as [Hin Ht].
  apply slot_taken_by_spec in Ht. destruct Ht as [Hs Hl].
  unfold live in Hl. now rewrite (H x Hin Hs) in Hl.
Qed.

(** ** [createReport]: the follow-up appointment *)

Lemma create_follow_up_shape req ai pi di hi date num rep staff db f :
  snd (create_follow_up req ai pi di hi date num rep staff db) = Ok (Some f) ->
  Appointment.slot f = (di, date, "00:00")
  /\ Appointment.status f = pending
  /\ Appointment.needsTimeSlot f = true
  /\ Appointment.isFollowUp f = true
  /\ appointments (fst (create_follow_up req ai pi di hi date num rep staff db))
     = (appointments db ++ [f])%list.
Proof.
  remember (create_follow_up req ai pi di hi date num rep staff db) as R eqn:HR.
  unfold create_follow_up, try_catch in HR.
  unfold bind at 1 in HR. unfold Appointment_findById at 1 in HR.
  unfold bind at 1 in HR. unfold Appointment_create, bind at 1, fresh_id in HR.
  destruct (Appointment_validate _) in HR;
    [|subst R; simpl; discriminate].
  cbn [with_next_id next_id appointments] in HR.
  unfold bind at 1 in HR. unfold Report_save at 1 in HR.
  unfold bind in HR.
  match type of HR with
  | context [logActivity ?x ?d] =>
      destruct (logActivity_frame x d) as (_ & Happ & Hok);
      destruct (logActivity x d) as [db3 r3]
  end.
  cbn [fst snd] in Hok, Happ. subst r3.
  unfold ret in HR. subst R. cbn [fst snd].
  intros [= <-]. rewrite Happ. repeat split.
Qed.

(** Whenever [createReport] answers with a follow-up appointment, that
    appointment was appended at the placeholder time of its doctor and day,
    pending and flagged as needing a time slot; the slot was not looked
    up. *)
Lemma createReport_follow_up env req db f :
  res_appointment (snd (createReport env req db)) = Some f ->
  exists di ai,
    ReportReq.doctorId req = Some di
    /\ ReportReq.appointmentId req = Some ai
    /\ Appointment.slot f
       = (di, or_else (ReportReq.followUpDate req) "", "00:00")
    /\ Appointment.status f = pending
    /\ Appointment.needsTimeSlot f = true
    /\ Appointment.isFollowUp f = true
    /\ appointments (fst (createReport env req db))
       = (map (fun a => if (Appointment._id a =? ai)%nat
                        then Appointment.set_status completed a else a)
              (appointments db) ++ [f])%list.
Proof.
  remember (createReport env req db) as R eqn:HR.
  unfold createReport, createReport_body in HR.
  destruct (ReportReq.appointmentId req) as [ai|]; [|subst R; discriminate].
  destruct (ReportReq.patientId req) as [pi|]; [|subst R; discriminate].
  destruct (ReportReq.doctorId req) as [di|]; [|subst R; discriminate].
  destruct (ReportReq.hospitalId req) as [hi|]; [|subst R; discriminate].
  destruct (negb (truthy (ReportReq.type req)) || _);
    [subst R; discriminate|].
  unfold bind at 1 in HR. unfold Report_findOne_number at 1 in HR.
  destruct (find _ (reports db)); [subst R; discriminate|].
  destruct ((_ =? "diagnosis") && _); [subst R; discriminate|].
  destruct ((_ =? "prescription") && _); [subst R; discriminate|].
  destruct (truthy (ReportReq.followUpDate req) && _);
    [subst R; discriminate|].
  unfold bind at 1 in HR. unfold Report_create, bind at 1, fresh_id in HR.
  destruct (Report.validate _); [|subst R; discriminate].
  cbn [with_next_id next_id reports] in HR.
  unfold bind at 1 in HR. unfold Appointment_complete at 1 in HR.
  unfold bind at 1 in HR. unfold User_findById at 1 in HR.
  unfold bind at 1 in HR.
  destruct (truthy (ReportReq.followUpDate req)).
  2:{ unfold ret at 1 in HR. unfold bind, try_catch in HR.
      destruct (Activity_save _ _) as [dba [[]|ea]] in HR;
        [destruct (logActivity _ dba) as [dbb [[]|eb]] in HR|];
        subst R; discriminate. }
  match type of HR with
  | context [create_follow_up ?r ?a ?p ?d ?h ?dt ?n ?rep ?st ?s] =>
      pose proof (create_follow_up_shape r a p d h dt n rep st s) as Hshape;
      destruct (create_follow_up r a p d h dt n rep st s) as [db2 [fo|e2]]
  end; [|subst R; discriminate].
  cbn [fst snd] in Hshape.
  assert (Hframe : appointments (fst R) = appointments db2
                   /\ res_appointment (snd R) = fo).
  { unfold bind, try_catch in HR.
    match type of HR with
    | context [Activity_save ?x ?d] =>
        assert (Hrej : Activity_save x d = (d, Throw "Activity validation failed"))
          by reflexivity;
        rewrite Hrej in HR
    end.
    subst R. split; reflexivity. }
  destruct Hframe as [Hfa Hfr]. rewrite Hfr. intros ->.
  destruct (Hshape f eq_refl) as (Hs & Hst & Hn & Hi & Happ).
  exists di, ai. repeat split; try assumption.
  rewrite Hfa, Happ. reflexivity.
Qed.

(** C1, as the code has it.  (1) [bookAppointment] preserves the absence of
    double bookings.  (2) A booking for a slot held by an appointment that
    is not cancelled fails (the answer is an error without appointment) and
    creates no appointment; when the request was ready to be booked, the
    error is the validation error of the slot.  (3) A ready booking
    for a slot whose appointments are all cancelled succeeds and appends one
    pending appointment at that slot.  (4) The follow-up that
    [createReport] spawns is appended at the placeholder time ["00:00"] of
    its doctor and day, pending and flagged [needsTimeSlot], whatever the
    store holds at that slot. *)
Theorem booking_respects_slots :
  (forall env req db,
      no_double_booking db ->
      no_double_booking (fst (bookAppointment env req db)))
  /\ (forall env req db s,
      requested_slot req = Some s ->
      slot_occupied s db = true ->
      appointments (fst (bookAppointment env req db)) = appointments db
      /\ refused (snd (bookAppointment env req db))
      /\ (ready_to_book env req db = true ->
          res_message (snd (bookAppointment env req db))
          = Some "This time slot is already booked"))
  /\ (forall env req db s,
      requested_slot req = Some s ->
      (forall a, In a (appointments db) -> Appointment.slot a = s ->
                 Appointment.status a = cancelled) ->
      ready_to_book env req db = true ->
      res_status (snd (bookAppointment env req db)) = 201
      /\ exists a,
          appointments (fst (bookAppointment env req db))
          = (appointments db ++ [a])%list
          /\ Appointment.slot a = s
          /\ Appointment.status a = pending)
  /\ (forall env req db f,
      res_appointment (snd (createReport env req db)) = Some f ->
      Appointment.time f = "00:00"
      /\ Appointment.status f = pending
      /\ Appointment.needsTimeSlot f = true
      /\ exists l, appointments (fst (createReport env req db))
                   = (l ++ [f])%list).
Proof.
  split; [|split; [|split]].
  - intros env req db. apply bookAppointment_keeps_slots_unique.
  - intros env req db [[d date] time] Hreq Hocc.
    unfold slot_occupied in Hocc. simpl in Hocc.
    apply find_existsb in Hocc. destruct Hocc as [x Hx].
    destruct (bookAppointment_appointments env req db)
      as [[Ha Hs]|(d' & date' & time' & a & Hreq' & Hfree & _)].
    + split; [exact Ha|]. split.
      { destruct (bookAppointment_answer env req db) as [H201|[msg Hmsg]];
          [congruence|].
        rewrite Hmsg. unfold refused. cbn. split; [lia|reflexivity]. }
      intros Hready.
      pose proof (bookAppointment_ready env req db d date time Hready Hreq)
        as Hr.
      rewrite Hx in Hr. now rewrite Hr.
    + rewrite Hreq in Hreq'. injection Hreq' as <- <- <-. congruence.
  - intros env req db [[d date] time] Hreq Hcancelled Hready.
    pose proof (bookAppointment_ready env req db d date time Hready Hreq)
      as Hr.
    rewrite (find_none_when_cancelled d date time db Hcancelled) in Hr.
    split; [exact Hr|].
    destruct (bookAppointment_appointments env req db)
      as [[_ Hs]|(d' & date' & time' & a & Hreq' & _ & Ha & Hsl & Hst)];
      [congruence|].
    rewrite Hreq in Hreq'. injection Hreq' as <- <- <-.
    exists a. auto.
  - intros env req db f Hf.
    destruct (createReport_follow_up env req db f Hf)
      as (di & ai & _ & _ & Hs & Hst & Hn & _ & Happ).
    split; [now injection Hs|]. split; [exact Hst|]. split; [exact Hn|].
    eauto.
Qed.

(** ** The activation rule *)



Lemma find_In {A} (f : A -> bool) (l : list A) (x : A) :
  find f l = Some x -> In x l.
Proof. intros H. now apply find_some in H. Qed.

Lemma In_find_key {A} (key : A -> nat) (l : list A) (x : A) :
  In x l -> exists y, find (fun z => key z =? key x)%nat l = Some y.
Proof.
  intros Hin. destruct (find _ l) as [y|] eqn:Hf; [eauto|].
  pose proof (find_none _ _ Hf x Hin) as Hn. simpl in Hn.
  now rewrite Nat.eqb_refl in Hn.
Qed.















Example ex_no_double_booking : no_double_booking ex_db.
Proof.
  unfold no_double_booking. vm_compute.
  repeat constructor; simpl; intuition discriminate.
Qed.

(** [createAppointment] applies the same rule: it writes to the patient
    store only to reactivate an inactive patient. *)
Lemma createAppointment_active_unchanged env req db pid p :
  CreateReq.patientId req = Some pid ->
  stored_patient pid db = Some p ->
  Patient.status p = active ->
  patients (fst (createAppointment env req db)) = patients db.
Proof.
  intros Hpid Hfp Hact.
  unfold createAppointment, createAppointment_body. rewrite Hpid.
  destruct (CreateReq.doctorId req) as [d|]; [|reflexivity].
  destruct (CreateReq.hospitalId req) as [h|]; [|reflexivity].
  destruct (match CreateReq.status req with
            | Some s => parse_status s
            | None => Some pending
            end) as [st|]; [|reflexivity].
  unfold bind at 1. unfold Appointment_create, bind at 1, fresh_id.
  destruct (Appointment_validate _); [|reflexivity].
  cbn [with_next_id next_id appointments].
  unfold bind at 1. unfold activate_on_create, try_catch, bind at 1.
  unfold Patient_findById.
  destruct (patient_lookup_fails env).
  - unfold throw, ret, bind.
    match goal with
    | |- context [logActivity ?x ?s] =>
        destruct (logActivity_frame x s) as (Hp & _ & Hok);
        destruct (logActivity x s) as [db3 r3]
    end.
    cbn [fst snd] in Hp, Hok. subst r3. exact Hp.
  - change (find (fun p0 => (Patient._id p0 =? pid)%nat)
                 (patients (with_appointments _ _)))
      with (stored_patient pid db).
    rewrite Hfp. cbn [option_map]. rewrite Patient_hydrate_status, Hact.
    unfold ret, bind.
    match goal with
    | |- context [logActivity ?x ?s] =>
        destruct (logActivity_frame x s) as (Hp & _ & Hok);
        destruct (logActivity x s) as [db3 r3]
    end.
    cbn [fst snd] in Hp, Hok. subst r3. exact Hp.
Qed.



(** C4.  A booking rejected because the slot is taken has already written
    to the patient store: the patient step of [bookAppointment] runs before
    the slot is looked up.  At the occupied nine o'clock slot of the example
    clinic, a request with an unknown e-mail is answered with the slot error
    and leaves a new patient behind, and a request with Bob's e-mail is
    answered with the slot error and leaves Bob active with
    lastStatusChangeDate reset; neither creates an appointment. *)
Theorem rejected_booking_writes_patients :
  let env := ex_env june4_noon false false in
  let r1 := bookAppointment env (ex_booking "cyd@x.com" "09:00") ex_db in
  let r2 := bookAppointment env (ex_booking "bob@x.com" "09:00") ex_db in
  slot_occupied (7, "2024-06-01", "09:00") ex_db = true
  /\ snd r1 = error_response 500 "This time slot is already booked"
  /\ appointments (fst r1) = appointments ex_db
  /\ patients (fst r1)
     = (patients ex_db
        ++ [Patient.mk 1000 "Cyd" "cyd@x.com" "not_specified" (Some 3) active
                       0 (Some june4_noon) []])%list
  /\ snd r2 = error_response 500 "This time slot is already booked"
  /\ appointments (fst r2) = appointments ex_db
  /\ map status_view (patients ex_db)
     = [(1, active, Some june1);
        (2, inactive, Some (june1 - 30 * ms_per_day)%Z)]
  /\ map status_view (patients (fst r2))
     = [(1, active, Some june1); (2, active, Some june4_noon)].
Proof. vm_compute. repeat split. Qed.

(** A booking turned away for its fields or its doctor writes nothing. *)
Lemma invalid_booking_writes_nothing env req db :
  fields_ok req && doctor_bookable req db = false ->
  bookAppointment env req db
  = (db, snd (bookAppointment env req db))
  /\ res_status (snd (bookAppointment env req db)) = 500.
Proof.
  intros Hno.
  destruct (bookAppointment_cases env req db)
    as [(Hdb & H500 & _)|(d & h & pd & _ & _ & _ & Hok & Hdoc & _)].
  - split; [|exact H500].
    rewrite (surjective_pairing (bookAppointment env req db)) at 1.
    now rewrite Hdb.
  - rewrite Hok, Hdoc in Hno. discriminate.
Qed.

(** [createAppointment] saves the appointment the request describes without
    looking up its slot: at the example clinic it books Ann's live nine
    o'clock slot a second time. *)
Lemma createAppointment_double_books :
  let r := createAppointment (ex_env june4_noon false false) ex_create ex_db in
  res_status (snd r) = 201
  /\ no_double_booking ex_db
  /\ ~ no_double_booking (fst r).
Proof.
  split; [reflexivity|]. split; [exact ex_no_double_booking|].
  unfold no_double_booking. vm_compute. intros H.
  inversion H as [|? ? Hnot _]. apply Hnot. simpl. auto 6.
Qed.

(** ** The properties at the example clinic *)

Lemma distinct_NoDup (l : list nat) : distinct l = true -> NoDup l.
Proof.
  induction l as [|x l IH]; simpl; intros H; [constructor|].
  apply andb_prop in H. destruct H as [Hx Hl].
  constructor; [|now apply IH].
  intros Hin. apply negb_true_iff in Hx.
  assert (existsb (Nat.eqb x) l = true)
    by (apply existsb_exists; exists x; split; [exact Hin|apply Nat.eqb_refl]).
  congruence.
Qed.

(** The cancelled eleven o'clock slot can be booked, the pending nine
    o'clock slot cannot. *)
Lemma booking_respects_slots_witness :
  let env := ex_env june4_noon false false in
  no_double_booking
    (fst (bookAppointment env (ex_booking "cyd@x.com" "11:00") ex_db))
  /\ res_status
       (snd (bookAppointment env (ex_booking "cyd@x.com" "11:00") ex_db))
     = 201
  /\ res_message
       (snd (bookAppointment env (ex_booking "cyd@x.com" "09:00") ex_db))
     = Some "This time slot is already booked".
Proof.
  intros env.
  destruct booking_respects_slots as (H1 & H2 & H3 & _).
  split; [apply H1; exact ex_no_double_booking|]. split.
  - apply (H3 env (ex_booking "cyd@x.com" "11:00") ex_db
              (7, "2024-06-01", "11:00")); [reflexivity| |reflexivity].
    intros a Hin Hs. simpl in Hin.
    destruct Hin as [<-|[<-|[<-|[<-|[]]]]];
      try discriminate; reflexivity.
  - apply (H2 env (ex_booking "cyd@x.com" "09:00") ex_db
              (7, "2024-06-01", "09:00")); reflexivity.
Defined.

(** C1, as stated, fails for the follow-up of a report: the example clinic
    has no double booking, and after [createReport] with a follow-up date on
    which the doctor's placeholder slot is already held, two pending
    appointments hold that slot. *)
Lemma follow_up_double_books :
  let r := createReport (ex_env june4_noon false false) ex_report ex_db in
  res_status (snd r) = 201
  /\ no_double_booking ex_db
  /\ ~ no_double_booking (fst r).
Proof.
  split; [reflexivity|]. split; [exact ex_no_double_booking|].
  unfold no_double_booking. vm_compute. intros H.
  inversion H as [|? ? _ Hb]. inversion Hb as [|? ? _ Hc].
  inversion Hc as [|? ? Hnot _]. apply Hnot. simpl. auto.
Qed.

(** Ann, active since the first of June with four treatment days, is
    stored with seven when her outcome is recorded three and a half days
    later. *)
Lemma deactivation_accrues_days_witness :
  exists p',
    stored_patient 1
      (fst (updateTreatmentOutcome (ex_env june4_noon false false)
              (ex_outcome 10 (Some "successful")) ex_db)) = Some p'
    /\ Patient.treatmentDays p' = (4 + 3)%Z
    /\ Patient.status p' = inactive
    /\ Patient.lastStatusChangeDate p' = Some june4_noon.
Proof.
  apply (deactivation_accrues_days (ex_env june4_noon false false)
           (ex_outcome 10 (Some "successful")) ex_db "successful"
           (ex_appointment 10 1 "2024-06-01" "09:00" pending
                           (Some successful) false)
           ann june1 4 3 (12 * hour)%Z); try reflexivity.
  - left; reflexivity.
  - unfold hour, ms_per_day. lia.
Defined.

(** Bob's confirmed appointment is completed by a partial outcome. *)
Lemma outcome_forces_completion_witness :
  exists a a',
    stored_appointment 11 ex_db = Some a
    /\ stored_appointment 11
         (fst (updateTreatmentOutcome (ex_env june4_noon false false)
                 (ex_outcome 11 (Some "partial")) ex_db)) = Some a'
    /\ (In "partial" ["successful"; "partial"; "unsuccessful"] ->
        Appointment.status a' = completed)
    /\ ("partial" = "ongoing" -> Appointment.status a' = Appointment.status a).
Proof.
  apply (outcome_forces_completion (ex_env june4_noon false false)
           (ex_outcome 11 (Some "partial")) ex_db "partial");
    reflexivity.
Defined.



(** Bob's confirmed ten o'clock of the first of June is missed on the
    fourth, and a run of the script leaves it confirmed. *)
Lemma shipped_sweep_marks_nothing_witness :
  let env := ex_env june4_noon false false in
  let a := ex_appointment 11 2 "2024-06-01" "10:00" confirmed (Some ongoing)
             false in
  missed env a = true
  /\ In a (appointments (fst (run_script env ex_db)))
  /\ Appointment.status a = confirmed
  /\ activities (fst (run_script env ex_db)) = activities ex_db.
Proof.
  intros env a.
  destruct (shipped_sweep_marks_nothing env ex_db) as [_ H].
  split; [reflexivity|].
  apply (H a); [simpl; auto|reflexivity].
Defined.

(** A partial outcome on Ann's appointment leaves Ann and Bob as stored. *)
Lemma partial_outcome_leaves_patients_witness :
  patients (fst (updateTreatmentOutcome (ex_env june4_noon false false)
                   (ex_outcome 10 (Some "partial")) ex_db))
  = [ann; bob].
Proof.
  apply (partial_outcome_leaves_patients (ex_env june4_noon false false)
           (ex_outcome 10 (Some "partial")) ex_db).
  reflexivity.
Defined.

(** The failing input of C9: Ann's appointment is pending, a staff member
    confirms it, and the one audit entry appended records "confirmed" as
    the previous status. *)
Lemma status_audit_previous_is_new_witness :
  option_map Appointment.status (stored_appointment 10 ex_db) = Some pending
  /\ exists e,
      activities (fst (updateAppointmentStatus
                         (ex_env june4_noon false false)
                         (ex_status_update 10 "confirmed") ex_db))
        = (activities ex_db ++ [e])%list
      /\ Activity.lookup "previousStatus" (Activity.metadata e)
         = Some (MStr "confirmed")
      /\ Activity.lookup "newStatus" (Activity.metadata e)
         = Some (MStr "confirmed").
Proof.
  split; [reflexivity|].
  apply (status_audit_previous_is_new (ex_env june4_noon false false)
           (ex_status_update 10 "confirmed") ex_db
           (ex_appointment 10 1 "2024-06-01" "09:00" pending
                           (Some successful) false)
           confirmed); reflexivity.
Defined.

(** Ann's appointment is stored with outcome successful; a payload without
    treatmentOutcome leaves it stored without one. *)
Lemma omitted_outcome_is_overwritten_witness :
  option_map Appointment.treatmentOutcome (stored_appointment 10 ex_db)
  = Some (Some successful)
  /\ exists a a',
      stored_appointment 10 ex_db = Some a
      /\ stored_appointment 10
           (fst (updateTreatmentOutcome (ex_env june4_noon false false)
                   (ex_outcome 10 None) ex_db)) = Some a'
      /\ Appointment.treatmentOutcome a' = None
      /\ (OutcomeReq.diagnosis (ex_outcome 10 None) = None ->
          Appointment.diagnosis a' = Appointment.diagnosis a)
      /\ (OutcomeReq.disease (ex_outcome 10 None) = None ->
          Appointment.disease a' = Appointment.disease a)
      /\ Appointment.status a' = Appointment.status a
      /\ patients (fst (updateTreatmentOutcome (ex_env june4_noon false false)
                          (ex_outcome 10 None) ex_db)) = patients ex_db
      /\ res_warning (snd (updateTreatmentOutcome
                             (ex_env june4_noon false false)
                             (ex_outcome 10 None) ex_db)) = None.
Proof.
  split; [reflexivity|].
  apply (omitted_outcome_is_overwritten (ex_env june4_noon false false)
           (ex_outcome 10 None) ex_db); reflexivity.
Defined.

(** * Further properties of the handlers *)

(** ** What the audit log never receives *)

(** X1.  No call of [bookAppointment] leaves an audit entry: the action
    ['appointment_booked'] it submits is no member of the audit schema's
    enum, and neither is ['update_patient_status']. *)
Theorem booking_is_never_audited (env : Env) (req : BookReq.t) (db : DB) :
  activities (fst (bookAppointment env req db)) = activities db.
Proof.
  destruct (bookAppointment_cases env req db)
    as [(-> & _)|(d & h & pd & Hd & Hh & Hpd & Hok & _ & ->)];
    [reflexivity|].
  destruct (fields_ok_slot req d Hd Hok) as (_ & Hdate & Htime).
  unfold bind.
  destruct (find_or_create_patient_frame env
              (or_else (PatientDetails.name pd) "")
              (or_else (PatientDetails.email pd) "")
              (PatientDetails.gender pd) h db) as [_ Hact].
  destruct (find_or_create_patient _ _ _ _ _ db) as [db1 [pc|e]];
    simpl in Hact; [|exact Hact].
  destruct (find (slot_taken_by d (or_else (BookReq.date req) "")
                    (or_else (BookReq.time req) "")) (appointments db1))
    as [x|] eqn:Hfind.
  - now rewrite (book_slot_occupied _ _ _ _ _ _ _ _ x Hfind).
  - rewrite (book_slot_free _ _ _ _ _ _ _ _ Hfind Hdate Htime).
    match goal with
    | |- context [Patient_save env ?p ?s] =>
        destruct (Patient_save_frame env p s) as [_ Hs];
        destruct (Patient_save env p s) as [db3 [[]|e]]
    end; simpl in Hs |- *; rewrite Hs; exact Hact.
Qed.

(** X2.  A status update that names no stored appointment, or a status
    outside the enum, is answered with status 500 and leaves the store as it
    was. *)
Theorem rejected_status_update_writes_nothing (env : Env) (req : StatusReq.t)
    (db : DB) :
  stored_appointment (StatusReq.id req) db = None
  \/ parse_status (StatusReq.status req) = None ->
  fst (updateAppointmentStatus env req db) = db
  /\ res_status (snd (updateAppointmentStatus env req db)) = 500
  /\ res_appointment (snd (updateAppointmentStatus env req db)) = None.
Proof.
  intros H.
  assert (Hv : exists msg,
             updateAppointmentStatus env req db = (db, error_response 500 msg)).
  { unfold updateAppointmentStatus, updateAppointmentStatus_body,
      stored_appointment in *.
    unfold bind at 1. unfold Appointment_findById at 1.
    destruct H as [H|H].
    - rewrite H. eexists. reflexivity.
    - destruct (find _ (appointments db)); [|eexists; reflexivity].
      rewrite H. eexists. reflexivity. }
  destruct Hv as [msg ->]. repeat split.
Qed.

Lemma rejected_status_update_writes_nothing_witness :
  fst (updateAppointmentStatus (ex_env june4_noon false false)
         (ex_status_update 10 "done") ex_db) = ex_db
  /\ res_status (snd (updateAppointmentStatus (ex_env june4_noon false false)
                        (ex_status_update 10 "done") ex_db)) = 500
  /\ res_appointment (snd (updateAppointmentStatus
                             (ex_env june4_noon false false)
                             (ex_status_update 10 "done") ex_db)) = None.
Proof.
  apply (rejected_status_update_writes_nothing
           (ex_env june4_noon false false) (ex_status_update 10 "done") ex_db).
  right. reflexivity.
Defined.

(** ** Status updates *)

Lemma stored_after_status_update env req db a st :
  stored_appointment (StatusReq.id req) db = Some a ->
  parse_status (StatusReq.status req) = Some st ->
  stored_appointment (StatusReq.id req)
    (fst (updateAppointmentStatus env req db))
  = Some (apply_updateData req st a)
  /\ appointments (fst (updateAppointmentStatus env req db))
     = replace_by (fun x => Appointment._id x =? Appointment._id a)%nat
                  (apply_updateData req st a) (appointments db).
Proof.
  intros Hf Hp.
  destruct (updateAppointmentStatus_run env req db a st Hf Hp)
    as (flag & _ & ->).
  cbn [fst]. unfold stored_appointment.
  match goal with
  | |- context [logActivity ?x ?d] =>
      destruct (logActivity_frame x d) as (_ & -> & _)
  end.
  destruct (sync_status_frame env req (apply_updateData req st a)
              (after_status_update req st a db)) as (_ & _ & -> & _).
  unfold after_status_update. simpl.
  rewrite apply_updateData_id. split; [|reflexivity].
  rewrite (find_id_eq Appointment._id _ _ _ Hf).
  apply (find_replace_by_id Appointment._id _ _ a); [exact Hf|].
  rewrite apply_updateData_id.
  exact (find_id_eq Appointment._id _ _ _ Hf).
Qed.

(** X3.  An accepted status update stores a no-show reason only together
    with the status ['not_appeared'] and only when the reason is a non-empty
    string; in every other case the stored reason is kept, also when the
    request carries one.  The slot, the patient and the treatment outcome of
    the appointment are never changed. *)
Theorem no_show_reason_needs_no_show (env : Env) (req : StatusReq.t)
    (db : DB) (a : Appointment.t) (st : AppointmentStatus) :
  stored_appointment (StatusReq.id req) db = Some a ->
  parse_status (StatusReq.status req) = Some st ->
  exists a',
    stored_appointment (StatusReq.id req)
      (fst (updateAppointmentStatus env req db)) = Some a'
    /\ (st = not_appeared -> truthy (StatusReq.noShowReason req) = true ->
        Some (Appointment.noShowReason a') = StatusReq.noShowReason req)
    /\ (st <> not_appeared
        \/ truthy (StatusReq.noShowReason req) = false ->
        Appointment.noShowReason a' = Appointment.noShowReason a)
    /\ Appointment.slot a' = Appointment.slot a
    /\ Appointment.patientId a' = Appointment.patientId a
    /\ Appointment.treatmentOutcome a' = Appointment.treatmentOutcome a.
Proof.
  intros Hf Hp.
  destruct (stored_after_status_update env req db a st Hf Hp) as [Hst _].
  exists (apply_updateData req st a). split; [exact Hst|].
  pose proof (parse_status_name _ _ Hp) as Hname.
  unfold apply_updateData.
  destruct (StatusReq.noShowReason req) as [r|] eqn:Hr; simpl.
  - destruct (String.eqb_spec r "") as [->|Hne].
    + rewrite andb_false_r. simpl. repeat split; try discriminate.
    + destruct (String.eqb_spec (StatusReq.status req) "not_appeared")
        as [He|Hn]; simpl.
      * repeat split. intros [Hn|Hn]; [|discriminate].
        exfalso. apply Hn. rewrite <- Hname in He.
        destruct st; try discriminate He. reflexivity.
      * repeat split. intros ->. simpl in Hname. congruence.
  - rewrite andb_false_r. simpl. repeat split; discriminate.
Qed.

Lemma no_show_reason_needs_no_show_witness :
  exists a',
    stored_appointment 11
      (fst (updateAppointmentStatus (ex_env june4_noon false false)
              (StatusReq.mk staff 11 "cancelled" (Some "overslept")) ex_db))
    = Some a'
    /\ Appointment.noShowReason a' = ""
    /\ Appointment.status a' = cancelled.
Proof.
  destruct (no_show_reason_needs_no_show (ex_env june4_noon false false)
              (StatusReq.mk staff 11 "cancelled" (Some "overslept")) ex_db
              (ex_appointment 11 2 "2024-06-01" "10:00" confirmed
                              (Some ongoing) false)
              cancelled eq_refl eq_refl)
    as (a' & Hst & _ & Hkeep & _).
  exists a'. split; [exact Hst|]. split.
  - apply Hkeep. left. discriminate.
  - vm_compute in Hst. injection Hst as <-. reflexivity.
Defined.

Lemma slots_of_split (l1 l2 : list Appointment.t) (x : Appointment.t) :
  slots_of (l1 ++ x :: l2)
  = (slots_of l1 ++ (if live x then [Appointment.slot x] else [])
     ++ slots_of l2)%list.
Proof.
  unfold slots_of. rewrite filter_app, map_app. simpl.
  destruct (live x); reflexivity.
Qed.

Lemma status_update_appointments env req db a st l1 l2 :
  NoDup (map Appointment._id (appointments db)) ->
  stored_appointment (StatusReq.id req) db = Some a ->
  parse_status (StatusReq.status req) = Some st ->
  appointments db = (l1 ++ a :: l2)%list ->
  appointments (fst (updateAppointmentStatus env req db))
  = (l1 ++ apply_updateData req st a :: l2)%list.
Proof.
  intros Hnd Hf Hp Hsplit.
  destruct (stored_after_status_update env req db a st Hf Hp) as [_ ->].
  rewrite Hsplit in Hnd |- *.
  now apply replace_by_unique.
Qed.

Lemma apply_updateData_slot req st a :
  Appointment.slot (apply_updateData req st a) = Appointment.slot a.
Proof. unfold apply_updateData. destruct (_ && _); reflexivity. Qed.

Lemma apply_updateData_live req st a :
  live (apply_updateData req st a) = negb (status_eqb st cancelled).
Proof.
  unfold live. now rewrite apply_updateData_status.
Qed.

(** X4.  On a store whose appointments have distinct ids, an accepted
    status update keeps the store free of double bookings when the
    appointment was not cancelled or the new status is ['cancelled'].
    Nothing guards the remaining case: when a cancelled appointment is
    given any other status while a live appointment holds its slot, the
    store has a double booking afterwards. *)
Theorem status_update_and_slots (env : Env) (req : StatusReq.t) (db : DB)
    (a : Appointment.t) (st : AppointmentStatus) :
  NoDup (map Appointment._id (appointments db)) ->
  stored_appointment (StatusReq.id req) db = Some a ->
  parse_status (StatusReq.status req) = Some st ->
  (Appointment.status a <> cancelled \/ st = cancelled ->
   no_double_booking db ->
   no_double_booking (fst (updateAppointmentStatus env req db)))
  /\ (Appointment.status a = cancelled -> st <> cancelled ->
      (exists b, In b (appointments db) /\ live b = true
                 /\ Appointment.slot b = Appointment.slot a) ->
      ~ no_double_booking (fst (updateAppointmentStatus env req db))).
Proof.
  intros Hnd Hf Hp.
  destruct (in_split a (appointments db) (find_In _ _ _ Hf))
    as (l1 & l2 & Hsplit).
  pose proof (status_update_appointments env req db a st l1 l2 Hnd Hf Hp
                Hsplit) as Happ.
  unfold no_double_booking, live_slots. rewrite Happ, Hsplit.
  fold (slots_of (l1 ++ a :: l2)).
  fold (slots_of (l1 ++ apply_updateData req st a :: l2)).
  rewrite !slots_of_split, apply_updateData_slot, apply_updateData_live.
  split.
  - intros Hcase Hbefore.
    destruct (status_eqb st cancelled) eqn:Hst; simpl.
    + destruct (live a); [|exact Hbefore].
      now apply NoDup_remove_1 in Hbefore.
    + destruct (live a) eqn:Hla; [exact Hbefore|].
      exfalso. destruct Hcase as [Hne| ->]; [|discriminate].
      apply Hne. unfold live in Hla.
      destruct (Appointment.status a); try discriminate. reflexivity.
  - intros Hca Hne (b & Hb & Hlb & Hsb) Hafter.
    assert (Hst : status_eqb st cancelled = false)
      by (destruct st; try reflexivity; contradiction).
    rewrite Hst in Hafter. simpl in Hafter.
    apply NoDup_remove_2 in Hafter. apply Hafter.
    apply in_app_or in Hb.
    apply in_or_app. rewrite <- Hsb.
    destruct Hb as [Hb|[Hb|Hb]].
    + left. unfold slots_of. apply in_map. apply filter_In. auto.
    + subst b. unfold live in Hlb. rewrite Hca in Hlb. discriminate.
    + right. unfold slots_of. apply in_map. apply filter_In. auto.
Qed.

Lemma status_update_and_slots_witness :
  let env := ex_env june4_noon false false in
  let rebooked := fst (bookAppointment env (ex_booking "cyd@x.com" "11:00")
                         ex_db) in
  no_double_booking
    (fst (updateAppointmentStatus env (ex_status_update 10 "confirmed") ex_db))
  /\ ~ no_double_booking
         (fst (updateAppointmentStatus env (ex_status_update 12 "pending")
                 rebooked)).
Proof.
  intros env rebooked. split.
  - destruct (status_update_and_slots env (ex_status_update 10 "confirmed")
                ex_db
                (ex_appointment 10 1 "2024-06-01" "09:00" pending
                                (Some successful) false) confirmed)
      as [Hkeep _]; try reflexivity.
    + apply distinct_NoDup. reflexivity.
    + apply Hkeep; [left; discriminate|exact ex_no_double_booking].
  - destruct (status_update_and_slots env (ex_status_update 12 "pending")
                rebooked
                (ex_appointment 12 1 "2024-06-01" "11:00" cancelled
                                (Some ongoing) false) pending)
      as [_ Hbreak]; try reflexivity.
    + apply distinct_NoDup. reflexivity.
    + apply Hbreak; [reflexivity|discriminate|].
      exists (booked_appointment (ex_booking "cyd@x.com" "11:00")
                (Patient.mk 1000 "Cyd" "cyd@x.com" "not_specified" (Some 3)
                            active 0 (Some june4_noon) [])
                7 3 "2024-06-01" "11:00" 1001).
      split; [|split; reflexivity].
      vm_compute. auto 6.
Defined.

(** ** Outcome recordings *)

Lemma sync_outcome_early_200 env req a db r :
  snd (sync_patient_on_outcome env req a db) = Ok (Some r) ->
  res_status r = 200.
Proof.
  unfold sync_patient_on_outcome, try_catch, bind, Patient_findById,
    Patient_save, throw, ret.
  repeat match goal with
         | |- context [logActivity ?x ?d] =>
             rewrite (logActivity_rejected x d)
               by apply patient_status_activity_rejected
         | |- context [if ?b then _ else _] => destruct b; simpl
         | |- context [option_map _ (find ?f ?l)] =>
             destruct (find f l); simpl
         | |- context [match find ?f ?l with _ => _ end] =>
             destruct (find f l); simpl
         | |- context [match Patient.status ?p with _ => _ end] =>
             destruct (Patient.status p); simpl
         end; intros [= <-]; reflexivity.
Qed.

(** X5.  An outcome recording that is not answered with status 200 has
    written nothing: unknown appointment, refused caller, invalid outcome
    and a document the store cannot cast all leave the store as it was. *)
Theorem refused_outcome_writes_nothing (env : Env) (req : OutcomeReq.t)
    (db : DB) :
  res_status (snd (updateTreatmentOutcome env req db)) <> 200 ->
  fst (updateTreatmentOutcome env req db) = db.
Proof.
  intros Hn.
  destruct (updateTreatmentOutcome_trace env req db)
    as [[Hdb _]|(a & early & _ & _ & He & _ & Hsnd)]; [exact Hdb|].
  exfalso. apply Hn. rewrite Hsnd.
  destruct early as [r|]; [|reflexivity].
  now apply (sync_outcome_early_200 env req _ _ r He).
Qed.

Lemma refused_outcome_writes_nothing_witness :
  fst (updateTreatmentOutcome (ex_env june4_noon false false)
         (ex_outcome 10 (Some "cured")) ex_db) = ex_db.
Proof.
  apply (refused_outcome_writes_nothing (ex_env june4_noon false false)
           (ex_outcome 10 (Some "cured")) ex_db).
  vm_compute. discriminate.
Defined.

Lemma outcome_denied env req db a r :
  stored_appointment (OutcomeReq.id req) db = Some a ->
  outcome_permission req a db = (db, Ok (Some r)) ->
  updateTreatmentOutcome env req db = (db, r).
Proof.
  intros Hf Hp.
  unfold updateTreatmentOutcome, updateTreatmentOutcome_body.
  unfold bind at 1. unfold Appointment_findById at 1.
  unfold stored_appointment in Hf. rewrite Hf.
  unfold bind at 1. rewrite Hp. reflexivity.
Qed.

(** X6.  Only doctors, staff and admins record outcomes, and a doctor only
    on appointments of the own doctor profile: any other role is answered
    403, a doctor whose profile is not the appointment's doctor is answered
    403, a caller with role doctor and no doctor profile 404; in each case
    the store is left as it was. *)
Theorem outcome_permission_is_enforced (env : Env) (req : OutcomeReq.t)
    (db : DB) (a : Appointment.t) :
  stored_appointment (OutcomeReq.id req) db = Some a ->
  let role := or_else (User.role (OutcomeReq.user req)) "" in
  let profile := find (fun d => Doctor.userId d
                                =? User._id (OutcomeReq.user req))%nat
                      (doctors db) in
  (role <> "doctor" -> role <> "staff" -> role <> "admin" ->
   updateTreatmentOutcome env req db
   = (db, error_response 403
            "Only doctors, staff, or admins can update treatment outcomes"))
  /\ (role = "doctor" -> profile = None ->
      updateTreatmentOutcome env req db
      = (db, error_response 404 "Doctor not found"))
  /\ (forall d, role = "doctor" -> profile = Some d ->
      Appointment.doctorId a <> Doctor._id d ->
      updateTreatmentOutcome env req db
      = (db, error_response 403
               "You are not authorized to update this appointment")).
Proof.
  intros Hf role profile.
  split; [|split].
  - intros H1 H2 H3. apply (outcome_denied env req db a _ Hf).
    unfold outcome_permission. fold role.
    apply String.eqb_neq in H1, H2, H3. now rewrite H1, H2, H3.
  - intros H1 H2. apply (outcome_denied env req db a _ Hf).
    unfold outcome_permission. fold role. rewrite H1, String.eqb_refl.
    unfold bind, Doctor_findOne_userId. unfold profile in H2.
    now rewrite H2.
  - intros d H1 H2 H3. apply (outcome_denied env req db a _ Hf).
    unfold outcome_permission. fold role. rewrite H1, String.eqb_refl.
    unfold bind, Doctor_findOne_userId. unfold profile in H2. rewrite H2.
    apply Nat.eqb_neq in H3. now rewrite H3.
Qed.

Lemma outcome_permission_is_enforced_witness :
  updateTreatmentOutcome (ex_env june4_noon false false)
    (OutcomeReq.mk (User.mk 102 (Some "Pat") (Some "patient") "active") 10
       None None (Some "successful") None) ex_db
  = (ex_db, error_response 403
              "Only doctors, staff, or admins can update treatment outcomes").
Proof.
  apply (outcome_permission_is_enforced (ex_env june4_noon false false)
           (OutcomeReq.mk (User.mk 102 (Some "Pat") (Some "patient") "active")
              10 None None (Some "successful") None) ex_db
           (ex_appointment 10 1 "2024-06-01" "09:00" pending
                           (Some successful) false));
    [reflexivity|discriminate..].
Defined.

(** What a recording answered 200 without warning has done to the patient
    collection, by outcome. *)
Lemma outcome_sync_done env req db a p :
  res_status (snd (updateTreatmentOutcome env req db)) = 200 ->
  res_warning (snd (updateTreatmentOutcome env req db)) = None ->
  stored_appointment (OutcomeReq.id req) db = Some a ->
  stored_patient (Appointment.patientId a) db = Some p ->
  (forall o, OutcomeReq.treatmentOutcome req = Some o ->
     o = "successful" \/ o = "unsuccessful" ->
     patients (fst (updateTreatmentOutcome env req db))
     = replace_by (fun x => Patient._id x =? Patient._id p)%nat
                  (deactivate env p) (patients db))
  /\ (OutcomeReq.treatmentOutcome req = Some "ongoing" ->
      patients (fst (updateTreatmentOutcome env req db))
      = match Patient.status p with
        | active => patients db
        | inactive =>
            replace_by (fun x => Patient._id x =? Patient._id p)%nat
              (Patient.set_lastStatusChangeDate (Some (now env))
                 (Patient.set_status active p)) (patients db)
        end).
Proof.
  intros H200 Hw Hfa Hfp.
  destruct (updateTreatmentOutcome_200 env req db H200)
    as (a0 & early & Hf & He & Hfst & Hsnd & _).
  rewrite Hfa in Hf. injection Hf as <-.
  rewrite Hsnd in Hw. rewrite Hfst. clear Hfst Hsnd H200.
  assert (Hfp' : stored_patient
                   (Appointment.patientId (treated_appointment env req a))
                   (after_treatment env req a db) = Some p).
  { rewrite treated_appointment_patientId. exact Hfp. }
  split.
  - intros o Ho Hin.
    rewrite (sync_outcome_terminal env req _ _ o Ho Hin) in He |- *.
    rewrite Hfp' in He |- *.
    destruct (patient_lookup_fails env);
      [simpl in He; injection He as <-; discriminate|].
    destruct (patient_save_fails env);
      [simpl in He; injection He as <-; discriminate|].
    destruct (Patient.validate p);
      [|simpl in He; injection He as <-; discriminate].
    reflexivity.
  - intros Ho.
    rewrite (sync_outcome_ongoing env req _ _ Ho) in He |- *.
    rewrite Hfp' in He |- *.
    destruct (patient_lookup_fails env);
      [simpl in He; injection He as <-; discriminate|].
    destruct (Patient.status p); [reflexivity|].
    destruct (patient_save_fails env);
      [simpl in He; injection He as <-; discriminate|].
    destruct (Patient.validate p);
      [|simpl in He; injection He as <-; discriminate].
    reflexivity.
Qed.

(** X7.  Recording 'ongoing', answered 200 without warning: an inactive
    patient is stored active with lastStatusChangeDate = now and the
    treatmentDays it had (no day is accrued for the inactive period); for a
    patient who is already active the patient collection is left as it
    was, so lastStatusChangeDate is not reset. *)
Theorem ongoing_outcome_reactivates (env : Env) (req : OutcomeReq.t)
    (db : DB) (a : Appointment.t) (p : Patient.t) :
  OutcomeReq.treatmentOutcome req = Some "ongoing" ->
  res_status (snd (updateTreatmentOutcome env req db)) = 200 ->
  res_warning (snd (updateTreatmentOutcome env req db)) = None ->
  stored_appointment (OutcomeReq.id req) db = Some a ->
  stored_patient (Appointment.patientId a) db = Some p ->
  (Patient.status p = active ->
   patients (fst (updateTreatmentOutcome env req db)) = patients db)
  /\ (Patient.status p = inactive ->
      exists p',
        stored_patient (Patient._id p)
          (fst (updateTreatmentOutcome env req db)) = Some p'
        /\ Patient.status p' = active
        /\ Patient.lastStatusChangeDate p' = Some (now env)
        /\ Patient.treatmentDays p' = Patient.treatmentDays p).
Proof.
  intros Ho H200 Hw Hfa Hfp.
  destruct (outcome_sync_done env req db a p H200 Hw Hfa Hfp) as [_ Hon].
  specialize (Hon Ho). split; intros Hs; rewrite Hs in Hon.
  - exact Hon.
  - exists (Patient.set_lastStatusChangeDate (Some (now env))
              (Patient.set_status active p)).
    split; [|repeat split].
    unfold stored_patient in *. rewrite Hon.
    pose proof (find_id_eq Patient._id _ _ _ Hfp) as Hid.
    rewrite Hid.
    apply (find_replace_by_id Patient._id _ _ p); [exact Hfp|exact Hid].
Qed.

Lemma ongoing_outcome_reactivates_witness :
  exists p',
    stored_patient 2
      (fst (updateTreatmentOutcome (ex_env june4_noon false false)
              (ex_outcome 11 (Some "ongoing")) ex_db)) = Some p'
    /\ Patient.status p' = active
    /\ Patient.lastStatusChangeDate p' = Some june4_noon
    /\ Patient.treatmentDays p' = 10%Z.
Proof.
  destruct (ongoing_outcome_reactivates (ex_env june4_noon false false)
              (ex_outcome 11 (Some "ongoing")) ex_db
              (ex_appointment 11 2 "2024-06-01" "10:00" confirmed
                              (Some ongoing) false) bob)
    as [_ H]; try reflexivity.
  exact (H eq_refl).
Defined.

(** X8.  Recording 'successful' or 'unsuccessful', answered 200 without
    warning, for a patient who is already inactive or has no
    lastStatusChangeDate: no treatment day is added, the patient is stored
    inactive and lastStatusChangeDate is reset to now all the same. *)
Theorem terminal_outcome_on_idle_patient (env : Env) (req : OutcomeReq.t)
    (db : DB) (o : string) (a : Appointment.t) (p : Patient.t) :
  OutcomeReq.treatmentOutcome req = Some o ->
  o = "successful" \/ o = "unsuccessful" ->
  res_status (snd (updateTreatmentOutcome env req db)) = 200 ->
  res_warning (snd (updateTreatmentOutcome env req db)) = None ->
  stored_appointment (OutcomeReq.id req) db = Some a ->
  stored_patient (Appointment.patientId a) db = Some p ->
  Patient.status p = inactive \/ Patient.lastStatusChangeDate p = None ->
  exists p',
    stored_patient (Patient._id p) (fst (updateTreatmentOutcome env req db))
      = Some p'
    /\ Patient.treatmentDays p' = Patient.treatmentDays p
    /\ Patient.status p' = inactive
    /\ Patient.lastStatusChangeDate p' = Some (now env).
Proof.
  intros Ho Hin H200 Hw Hfa Hfp Hidle.
  destruct (outcome_sync_done env req db a p H200 Hw Hfa Hfp) as [Hterm _].
  specialize (Hterm o Ho Hin).
  exists (deactivate env p). split; [|split; [|split]].
  - unfold stored_patient in *. rewrite Hterm.
    pose proof (find_id_eq Patient._id _ _ _ Hfp) as Hid.
    rewrite Hid.
    apply (find_replace_by_id Patient._id _ _ p); [exact Hfp|].
    now rewrite deactivate_id.
  - unfold deactivate.
    destruct Hidle as [Hs|Hl]; [rewrite Hs|rewrite Hl];
      destruct (Patient.status p); reflexivity.
  - unfold deactivate.
    destruct (Patient.status p), (Patient.lastStatusChangeDate p);
      reflexivity.
  - unfold deactivate.
    destruct (Patient.status p), (Patient.lastStatusChangeDate p);
      reflexivity.
Qed.

Lemma terminal_outcome_on_idle_patient_witness :
  exists p',
    stored_patient 2
      (fst (updateTreatmentOutcome (ex_env june4_noon false false)
              (ex_outcome 11 (Some "unsuccessful")) ex_db)) = Some p'
    /\ Patient.treatmentDays p' = 10%Z
    /\ Patient.status p' = inactive
    /\ Patient.lastStatusChangeDate p' = Some june4_noon.
Proof.
  apply (terminal_outcome_on_idle_patient (ex_env june4_noon false false)
           (ex_outcome 11 (Some "unsuccessful")) ex_db "unsuccessful"
           (ex_appointment 11 2 "2024-06-01" "10:00" confirmed
                           (Some ongoing) false) bob);
    try reflexivity; auto.
Defined.

Lemma find_replace_by_key {A} (key : A -> nat) (i k : nat) (x : A)
    (l : list A) :
  key x = k ->
  find (fun y => key y =? i)%nat (replace_by (fun y => key y =? k)%nat x l)
  = option_map (fun y => if (key y =? k)%nat then x else y)
               (find (fun y => key y =? i)%nat l).
Proof.
  intros Hk. unfold replace_by.
  induction l as [|y l IH]; [reflexivity|]. cbn [map find].
  destruct (key y =? k)%nat eqn:Hy.
  - assert (Hxy : key x = key y) by (apply Nat.eqb_eq in Hy; congruence).
    rewrite Hxy.
    destruct (key y =? i)%nat eqn:Hi.
    + cbn [option_map]. now rewrite Hy.
    + exact IH.
  - destruct (key y =? i)%nat eqn:Hi.
    + cbn [option_map]. now rewrite Hy.
    + exact IH.
Qed.

(** The patient collection after an outcome recording: untouched, or the
    appointment's patient replaced by its deactivated or reactivated
    version. *)
Lemma outcome_patients_cases env req db :
  patients (fst (updateTreatmentOutcome env req db)) = patients db
  \/ exists a p,
      stored_appointment (OutcomeReq.id req) db = Some a
      /\ stored_patient (Appointment.patientId a) db = Some p
      /\ (patients (fst (updateTreatmentOutcome env req db))
          = replace_by (fun x => Patient._id x =? Patient._id p)%nat
                       (deactivate env p) (patients db)
          \/ patients (fst (updateTreatmentOutcome env req db))
             = replace_by (fun x => Patient._id x =? Patient._id p)%nat
                 (Patient.set_lastStatusChangeDate (Some (now env))
                    (Patient.set_status active p)) (patients db)).
Proof.
  destruct (updateTreatmentOutcome_trace env req db)
    as [[Hdb _]|(a & early & Hfa & _ & _ & Hfst & _)];
    [left; now rewrite Hdb|].
  rewrite Hfst. clear Hfst.
  assert (Hsp : stored_patient
                  (Appointment.patientId (treated_appointment env req a))
                  (after_treatment env req a db)
                = stored_patient (Appointment.patientId a) db).
  { now rewrite treated_appointment_patientId. }
  destruct (OutcomeReq.treatmentOutcome req) as [o|] eqn:Ho.
  2:{ left. rewrite sync_outcome_idle by (intros o Ho'; congruence).
      reflexivity. }
  destruct (String.eqb_spec o "ongoing") as [->|Hn1].
  { rewrite (sync_outcome_ongoing env req _ _ Ho), Hsp.
    destruct (patient_lookup_fails env); [now left|].
    destruct (stored_patient (Appointment.patientId a) db) as [p|] eqn:Hfp;
      [|now left].
    destruct (Patient.status p); [now left|].
    destruct (patient_save_fails env); [now left|].
    destruct (Patient.validate p); [|now left].
    right. exists a, p. split; [exact Hfa|]. split; [exact Hfp|].
    right. reflexivity. }
  destruct (String.eqb_spec o "successful") as [->|Hn2];
    [|destruct (String.eqb_spec o "unsuccessful") as [->|Hn3]].
  3:{ left. rewrite sync_outcome_idle; [reflexivity|].
      intros o' Ho'. rewrite Ho in Ho'. injection Ho' as <-. auto. }
  all: rewrite (sync_outcome_terminal env req _ _ _ Ho) by auto;
    rewrite Hsp;
    (destruct (patient_lookup_fails env); [now left|]);
    (destruct (stored_patient (Appointment.patientId a) db) as [p|] eqn:Hfp;
      [|now left]);
    (destruct (patient_save_fails env); [now left|]);
    (destruct (Patient.validate p); [|now left]);
    right; exists a, p; split; [exact Hfa|]; split; [exact Hfp|];
    left; reflexivity.
Qed.

Lemma deactivate_days env p :
  (forall last, Patient.lastStatusChangeDate p = Some last ->
                (last <= now env)%Z) ->
  (Patient.treatmentDays p <= Patient.treatmentDays (deactivate env p))%Z.
Proof.
  intros Hclock. unfold deactivate.
  destruct (Patient.status p); [|cbn; lia].
  destruct (Patient.lastStatusChangeDate p) as [last|]; [|cbn; lia].
  specialize (Hclock last eq_refl). cbn. unfold daysDifference.
  assert (0 <= (now env - last) / ms_per_day)%Z;
    [apply Z.div_pos; unfold ms_per_day; lia|lia].
Qed.

(** X9.  No outcome recording, whatever it is answered, lowers a stored
    patient's treatmentDays, as long as the patient's lastStatusChangeDate
    does not lie after the instant of the request. *)
Theorem treatment_days_never_decrease (env : Env) (req : OutcomeReq.t)
    (db : DB) (i : ObjectId) (p p' : Patient.t) :
  stored_patient i db = Some p ->
  stored_patient i (fst (updateTreatmentOutcome env req db)) = Some p' ->
  (forall last, Patient.lastStatusChangeDate p = Some last ->
                (last <= now env)%Z) ->
  (Patient.treatmentDays p <= Patient.treatmentDays p')%Z.
Proof.
  intros Hp Hp' Hclock.
  unfold stored_patient in Hp'.
  destruct (outcome_patients_cases env req db)
    as [Hsame|(a & q & _ & Hq & Hrep)].
  - rewrite Hsame in Hp'. unfold stored_patient in Hp.
    rewrite Hp in Hp'. injection Hp' as <-. lia.
  - assert (Hcase : p' = p \/ (q = p /\ (p' = deactivate env p
               \/ p' = Patient.set_lastStatusChangeDate (Some (now env))
                         (Patient.set_status active p)))).
    { unfold stored_patient in Hp, Hq.
      destruct Hrep as [Hrep|Hrep]; rewrite Hrep in Hp';
        rewrite find_replace_by_key in Hp'
          by (try apply deactivate_id; reflexivity);
        rewrite Hp in Hp'; cbn [option_map] in Hp';
        (destruct (Patient._id p =? Patient._id q)%nat eqn:Hid;
         [|left; now injection Hp' as <-]);
        apply Nat.eqb_eq in Hid;
        pose proof (find_id_eq Patient._id _ _ _ Hp) as Hi;
        pose proof (find_id_eq Patient._id _ _ _ Hq) as Hk;
        rewrite <- Hk, <- Hid, Hi in Hq; rewrite Hp in Hq;
        injection Hq as <-; injection Hp' as <-; right; auto. }
    destruct Hcase as [->|[_ [->| ->]]]; [lia| |cbn; lia].
    now apply deactivate_days.
Qed.

Lemma treatment_days_never_decrease_witness :
  (Patient.treatmentDays ann
   <= Patient.treatmentDays
        (deactivate (ex_env june4_noon false false) ann))%Z.
Proof.
  apply (treatment_days_never_decrease (ex_env june4_noon false false)
           (ex_outcome 10 (Some "successful")) ex_db 1 ann
           (deactivate (ex_env june4_noon false false) ann));
    [reflexivity|reflexivity|].
  intros last [= <-]. vm_compute. discriminate.
Defined.

(** ** Creations by staff: [createAppointment] *)

Lemma activate_on_create_frame env pid db :
  exists b, snd (activate_on_create env pid db) = Ok b
  /\ appointments (fst (activate_on_create env pid db)) = appointments db
  /\ activities (fst (activate_on_create env pid db)) = activities db.
Proof.
  unfold activate_on_create, try_catch, bind, Patient_findById, Patient_save,
    throw, ret.
  destruct (patient_lookup_fails env); cbn; [eexists; repeat split|].
  destruct (find _ (patients db)) as [p|]; cbn; [|eexists; repeat split].
  destruct (Patient.status (Patient_hydrate env p)); cbn;
    [eexists; repeat split|].
  destruct (patient_save_fails env); cbn; [eexists; repeat split|].
  match goal with
  | |- context [negb (Patient.validate ?x)] => destruct (Patient.validate x)
  end; cbn; eexists; repeat split.
Qed.

(** The two ways a creation ends. *)
Lemma createAppointment_cases env req db :
  (res_status (snd (createAppointment env req db)) = 400
   /\ appointments (fst (createAppointment env req db)) = appointments db
   /\ patients (fst (createAppointment env req db)) = patients db
   /\ activities (fst (createAppointment env req db)) = activities db
   /\ (CreateReq.patientId req = None \/ CreateReq.doctorId req = None
       \/ CreateReq.hospitalId req = None \/ creation_status req = None
       \/ or_else (CreateReq.date req) "" = ""
       \/ or_else (CreateReq.time req) "" = ""
       \/ or_else (CreateReq.type req) "" = ""))
  \/ exists pid did hid st,
      CreateReq.patientId req = Some pid
      /\ CreateReq.doctorId req = Some did
      /\ CreateReq.hospitalId req = Some hid
      /\ creation_status req = Some st
      /\ Appointment_validate
           (created_appointment req pid did hid st (next_id db)) = true
      /\ res_status (snd (createAppointment env req db)) = 201
      /\ res_appointment (snd (createAppointment env req db))
         = Some (created_appointment req pid did hid st (next_id db))
      /\ appointments (fst (createAppointment env req db))
         = (appointments db
            ++ [created_appointment req pid did hid st (next_id db)])%list
      /\ activities (fst (createAppointment env req db))
         = if Activity.validate
                (creation_activity req pid did hid (next_id db))
           then (activities db
                 ++ [creation_activity req pid did hid (next_id db)])%list
           else activities db.
Proof.
  remember (createAppointment env req db) as R eqn:HR.
  unfold createAppointment, createAppointment_body in HR.
  fold (creation_status req) in HR.
  destruct (CreateReq.patientId req) as [pid|];
    [|left; subst R; cbn; auto 10].
  destruct (CreateReq.doctorId req) as [did|];
    [|left; subst R; cbn; auto 10].
  destruct (CreateReq.hospitalId req) as [hid|];
    [|left; subst R; cbn; auto 10].
  destruct (creation_status req) as [st|];
    [|left; subst R; cbn; auto 10].
  unfold bind at 1 in HR. unfold Appointment_create, bind at 1, fresh_id in HR.
  fold (created_appointment req pid did hid st (next_id db)) in HR.
  destruct (Appointment_validate _) eqn:Hv in HR.
  2:{ left. subst R. cbn.
      repeat split; auto. right. right. right. right.
      unfold Appointment_validate, created_appointment in Hv. cbn in Hv.
      destruct (String.eqb_spec (or_else (CreateReq.date req) "") "");
        [auto|].
      destruct (String.eqb_spec (or_else (CreateReq.time req) "") "");
        [auto|].
      destruct (String.eqb_spec (or_else (CreateReq.type req) "") "");
        [auto|discriminate]. }
  right. exists pid, did, hid, st.
  cbn [with_next_id next_id appointments] in HR.
  unfold bind at 1 in HR.
  match type of HR with
  | context [activate_on_create env pid ?s] =>
      destruct (activate_on_create_frame env pid s) as (b & Hb & Happ & Hact);
      destruct (activate_on_create env pid s) as [db2 r2]
  end.
  cbn [fst snd] in Hb, Happ, Hact. subst r2.
  unfold bind at 1 in HR.
  fold (creation_activity req pid did hid (next_id db)) in HR.
  destruct (Activity.validate (creation_activity req pid did hid (next_id db)))
    eqn:Hav.
  - rewrite (logActivity_accepted _ _ Hav) in HR. subst R. cbn.
    rewrite Happ, Hact. repeat split; auto.
  - rewrite (logActivity_rejected _ _ Hav) in HR. subst R. cbn.
    rewrite Happ, Hact. repeat split; auto.
Qed.

(** X10.  A creation that is not answered 201 is answered 400 and has stored
    no appointment, no patient change and no audit entry. *)
Theorem rejected_creation_writes_nothing (env : Env) (req : CreateReq.t)
    (db : DB) :
  res_status (snd (createAppointment env req db)) <> 201 ->
  res_status (snd (createAppointment env req db)) = 400
  /\ appointments (fst (createAppointment env req db)) = appointments db
  /\ patients (fst (createAppointment env req db)) = patients db
  /\ activities (fst (createAppointment env req db)) = activities db.
Proof.
  intros Hn.
  destruct (createAppointment_cases env req db)
    as [(H400 & Ha & Hp & Hact & _)
       |(? & ? & ? & ? & _ & _ & _ & _ & _ & H & _)];
    [auto|contradiction].
Qed.

Lemma rejected_creation_writes_nothing_witness :
  let r := createAppointment (ex_env june4_noon false false)
             (CreateReq.mk staff (Some 2) (Some 7) (Some 3) None
                (Some "09:00") (Some "consultation") None None) ex_db in
  res_status (snd r) = 400
  /\ appointments (fst r) = appointments ex_db
  /\ patients (fst r) = patients ex_db
  /\ activities (fst r) = activities ex_db.
Proof.
  apply (rejected_creation_writes_nothing (ex_env june4_noon false false)
           (CreateReq.mk staff (Some 2) (Some 7) (Some 3) None
              (Some "09:00") (Some "consultation") None None) ex_db).
  vm_compute. discriminate.
Defined.

Lemma creation_activity_validate req pid did hid i :
  Activity.validate (creation_activity req pid did hid i)
  = mem_str (or_else (User.role (CreateReq.user req)) "user")
            ["staff"; "doctor"; "admin"].
Proof.
  unfold Activity.validate, creation_activity, activity_doc.
  cbn [Activity.user Activity.actorRole Activity.action Activity.subject
       Activity.subjectId Activity.type Activity.status].
  destruct (mem_str (or_else _ _) _); reflexivity.
Qed.

(** X11.  A creation answered 201 by a caller whose role is staff, doctor
    or admin appends exactly one audit entry, 'appointment_created', about
    the created appointment and in the caller's name; for a caller of any
    other role (a patient, or a user without role) the creation is answered
    201 all the same but no audit entry is stored. *)
Theorem creation_audit_depends_on_role (env : Env) (req : CreateReq.t)
    (db : DB) :
  res_status (snd (createAppointment env req db)) = 201 ->
  let role := or_else (User.role (CreateReq.user req)) "user" in
  (mem_str role ["staff"; "doctor"; "admin"] = true ->
   exists a e,
     res_appointment (snd (createAppointment env req db)) = Some a
     /\ activities (fst (createAppointment env req db))
        = (activities db ++ [e])%list
     /\ Activity.action e = "appointment_created"
     /\ Activity.subjectId e = Some (Appointment._id a)
     /\ Activity.user e = Some (User._id (CreateReq.user req))
     /\ Activity.actorRole e = Some role)
  /\ (mem_str role ["staff"; "doctor"; "admin"] = false ->
      activities (fst (createAppointment env req db)) = activities db).
Proof.
  intros H201 role.
  destruct (createAppointment_cases env req db)
    as [(H400 & _)
       |(pid & did & hid & st & _ & _ & _ & _ & _ & _ & Hres & _ & Hact)];
    [congruence|].
  rewrite creation_activity_validate in Hact. fold role in Hact.
  split; intros Hrole; rewrite Hrole in Hact; [|exact Hact].
  exists (created_appointment req pid did hid st (next_id db)),
    (creation_activity req pid did hid (next_id db)).
  repeat split; assumption.
Qed.

Lemma creation_audit_depends_on_role_witness :
  (exists a e,
     res_appointment (snd (createAppointment (ex_env june4_noon false false)
                             ex_create ex_db)) = Some a
     /\ activities (fst (createAppointment (ex_env june4_noon false false)
                           ex_create ex_db)) = ([] ++ [e])%list
     /\ Activity.action e = "appointment_created"
     /\ Activity.subjectId e = Some (Appointment._id a)
     /\ Activity.user e = Some 100
     /\ Activity.actorRole e = Some "staff")
  /\ activities
       (fst (createAppointment (ex_env june4_noon false false)
               (CreateReq.mk
                  (User.mk 102 (Some "Pat") (Some "patient") "active")
                  (Some 2) (Some 7) (Some 3) (Some "2024-06-01")
                  (Some "09:00") (Some "consultation") None None) ex_db))
     = [].
Proof.
  split.
  - destruct (creation_audit_depends_on_role (ex_env june4_noon false false)
                ex_create ex_db) as [H _]; [reflexivity|].
    exact (H eq_refl).
  - destruct (creation_audit_depends_on_role (ex_env june4_noon false false)
                (CreateReq.mk
                   (User.mk 102 (Some "Pat") (Some "patient") "active")
                   (Some 2) (Some 7) (Some 3) (Some "2024-06-01")
                   (Some "09:00") (Some "consultation") None None) ex_db)
      as [_ H]; [reflexivity|].
    exact (H eq_refl).
Defined.

Lemma or_else_some_empty s : or_else (Some s) "" = s.
Proof. simpl. now destruct (String.eqb_spec s "") as [->|]. Qed.

Lemma not_NoDup_snoc {A} (l : list A) (x : A) :
  In x l -> ~ NoDup (l ++ [x]).
Proof.
  intros Hin Hnd. apply NoDup_remove_2 with (l' := []) in Hnd.
  apply Hnd. now rewrite app_nil_r.
Qed.

Lemma live_slots_snoc db l a :
  appointments db = (l ++ [a])%list ->
  live a = true ->
  live_slots db = (slots_of l ++ [Appointment.slot a])%list.
Proof.
  intros Happ Hl. unfold live_slots, slots_of.
  rewrite Happ, filter_app, map_app. cbn [filter]. now rewrite Hl.
Qed.

(** X12.  [createAppointment] looks up no slot: a request that names the
    doctor, date and time of a stored appointment that is not cancelled,
    carries the required fields and a status other than 'cancelled', is
    answered 201, and the store then holds two live appointments at that
    slot. *)
Theorem creation_skips_the_slot_check (env : Env) (req : CreateReq.t)
    (db : DB) (b : Appointment.t) (pid hid : ObjectId)
    (st : AppointmentStatus) :
  In b (appointments db) ->
  live b = true ->
  Appointment_validate b = true ->
  CreateReq.patientId req = Some pid ->
  CreateReq.hospitalId req = Some hid ->
  CreateReq.doctorId req = Some (Appointment.doctorId b) ->
  CreateReq.date req = Some (Appointment.date b) ->
  CreateReq.time req = Some (Appointment.time b) ->
  truthy (CreateReq.type req) = true ->
  creation_status req = Some st ->
  st <> cancelled ->
  res_status (snd (createAppointment env req db)) = 201
  /\ ~ no_double_booking (fst (createAppointment env req db)).
Proof.
  intros Hin Hlive Hvb Hpid Hhid Hdid Hdate Htime Hty Hst Hnc.
  unfold Appointment_validate in Hvb.
  apply andb_prop in Hvb. destruct Hvb as [Hvb _].
  apply andb_prop in Hvb. destruct Hvb as [Hd Ht].
  apply negb_true_iff in Hd, Ht. apply String.eqb_neq in Hd, Ht.
  destruct (createAppointment_cases env req db)
    as [(_ & _ & _ & _ & Hbad)
       |(pid' & did & hid' & st' & Hp & Hdd & Hh & Hs & _ & H201 & _ & Happ
         & _)].
  - exfalso. rewrite Hdate, Htime, !or_else_some_empty in Hbad.
    destruct Hbad as [H|[H|[H|[H|[H|[H|H]]]]]]; try congruence.
    now apply (truthy_or_else _ Hty).
  - split; [exact H201|].
    rewrite Hpid in Hp. rewrite Hdid in Hdd. rewrite Hhid in Hh.
    rewrite Hst in Hs.
    injection Hp as <-. injection Hdd as <-. injection Hh as <-.
    injection Hs as <-.
    unfold no_double_booking.
    rewrite (live_slots_snoc _ _ _ Happ)
      by (unfold live, created_appointment; cbn; now destruct st).
    replace (Appointment.slot
               (created_appointment req pid (Appointment.doctorId b) hid st
                  (next_id db)))
      with (Appointment.slot b)
      by (unfold created_appointment, Appointment.slot; cbn;
          now rewrite Hdate, Htime, !or_else_some_empty).
    apply not_NoDup_snoc. unfold slots_of.
    apply in_map_iff. exists b. split; [reflexivity|].
    apply filter_In. auto.
Qed.

Lemma creation_skips_the_slot_check_witness :
  res_status (snd (createAppointment (ex_env june4_noon false false)
                     ex_create ex_db)) = 201
  /\ ~ no_double_booking
         (fst (createAppointment (ex_env june4_noon false false)
                 ex_create ex_db)).
Proof.
  apply (creation_skips_the_slot_check (ex_env june4_noon false false)
           ex_create ex_db
           (ex_appointment 10 1 "2024-06-01" "09:00" pending
                           (Some successful) false) 2 3 pending);
    try reflexivity; [simpl; auto|discriminate].
Defined.

(** ** Reports: [createReport] *)

(** A follow-up with a date is always created: its document passes the
    appointment schema, the report is saved with the link, and the
    'followup_scheduled' entry is refused by the audit schema. *)
Lemma create_follow_up_run req ai pi di hi date num rep staffUser db :
  date <> "" ->
  create_follow_up req ai pi di hi date num rep staffUser db
  = (with_reports
       (replace_by (fun x => Report._id x =? Report._id rep)%nat
          (Report.set_followUpAppointmentId (Some (next_id db)) rep)
          (reports db))
       (with_appointments
          (appointments db
           ++ [follow_up_appointment req ai pi di hi date num rep
                 (next_id db)])
          (with_next_id (S (next_id db)) db)),
     Ok (Some (follow_up_appointment req ai pi di hi date num rep
                 (next_id db)))).
Proof.
  intros Hd. unfold create_follow_up, try_catch.
  unfold bind at 1. unfold Appointment_findById at 1.
  unfold bind at 1. unfold Appointment_create, bind at 1, fresh_id.
  assert (Hv : Appointment_validate
                 (follow_up_appointment req ai pi di hi date num rep
                    (next_id db)) = true).
  { unfold Appointment_validate, follow_up_appointment. cbn.
    apply String.eqb_neq in Hd. now rewrite Hd. }
  rewrite Hv. cbn [with_next_id next_id appointments].
  unfold bind at 1. unfold Report_save at 1.
  unfold bind.
  rewrite logActivity_rejected; [reflexivity|].
  unfold activity_doc, Activity.validate. cbn.
  now rewrite andb_false_r.
Qed.

(** What a report creation answered 201 has stored. *)
Lemma createReport_201 env req db :
  res_status (snd (createReport env req db)) = 201 ->
  exists ai pi di hi,
    ReportReq.appointmentId req = Some ai
    /\ ReportReq.patientId req = Some pi
    /\ ReportReq.doctorId req = Some di
    /\ ReportReq.hospitalId req = Some hi
    /\ find (fun r => Report.reportNumber r
                      =? or_else (ReportReq.reportNumber req) "")
            (reports db) = None
    /\ Report.validate (created_report env req ai pi di hi (next_id db))
       = true
    /\ patients (fst (createReport env req db)) = patients db
    /\ activities (fst (createReport env req db)) = activities db
    /\ if truthy (ReportReq.followUpDate req)
       then
         let f := follow_up_appointment req ai pi di hi
                    (or_else (ReportReq.followUpDate req) "")
                    (or_else (ReportReq.reportNumber req) "")
                    (created_report env req ai pi di hi (next_id db))
                    (S (next_id db)) in
         appointments (fst (createReport env req db))
         = (completed_at ai (appointments db) ++ [f])%list
         /\ reports (fst (createReport env req db))
            = replace_by (fun x => Report._id x =? next_id db)%nat
                (Report.set_followUpAppointmentId (Some (S (next_id db)))
                   (created_report env req ai pi di hi (next_id db)))
                (reports db
                 ++ [created_report env req ai pi di hi (next_id db)])
         /\ res_appointment (snd (createReport env req db)) = Some f
       else
         appointments (fst (createReport env req db))
         = completed_at ai (appointments db)
         /\ reports (fst (createReport env req db))
            = (reports db
               ++ [created_report env req ai pi di hi (next_id db)])%list
         /\ res_appointment (snd (createReport env req db)) = None.
Proof.
  remember (createReport env req db) as R eqn:HR.
  unfold createReport, createReport_body in HR.
  destruct (ReportReq.appointmentId req) as [ai|]; [|subst R; discriminate].
  destruct (ReportReq.patientId req) as [pi|]; [|subst R; discriminate].
  destruct (ReportReq.doctorId req) as [di|]; [|subst R; discriminate].
  destruct (ReportReq.hospitalId req) as [hi|]; [|subst R; discriminate].
  destruct (negb (truthy (ReportReq.type req)) || _);
    [subst R; discriminate|].
  unfold bind at 1 in HR. unfold Report_findOne_number at 1 in HR.
  destruct (find _ (reports db)) eqn:Hfind; [subst R; discriminate|].
  destruct ((_ =? "diagnosis") && _); [subst R; discriminate|].
  destruct ((_ =? "prescription") && _); [subst R; discriminate|].
  destruct (truthy (ReportReq.followUpDate req) && _);
    [subst R; discriminate|].
  unfold bind at 1 in HR. unfold Report_create, bind at 1, fresh_id in HR.
  fold (created_report env req ai pi di hi (next_id db)) in HR.
  destruct (Report.validate _) eqn:Hv in HR; [|subst R; discriminate].
  cbn [with_next_id next_id reports] in HR.
  unfold bind at 1 in HR. unfold Appointment_complete at 1 in HR.
  unfold bind at 1 in HR. unfold User_findById at 1 in HR.
  unfold bind at 1 in HR.
  intros _. exists ai, pi, di, hi.
  do 5 (split; [reflexivity|]). split; [exact Hv|].
  destruct (truthy (ReportReq.followUpDate req)) eqn:Hfu.
  - rewrite create_follow_up_run in HR by now apply truthy_or_else.
    unfold bind, try_catch in HR.
    match type of HR with
    | context [Activity_save ?x ?d] =>
        assert (Hrej : Activity_save x d
                       = (d, Throw "Activity validation failed"))
          by reflexivity;
        rewrite Hrej in HR
    end.
    subst R. repeat split.
  - unfold ret at 1 in HR. unfold bind, try_catch in HR.
    match type of HR with
    | context [Activity_save ?x ?d] =>
        assert (Hrej : Activity_save x d
                       = (d, Throw "Activity validation failed"))
          by reflexivity;
        rewrite Hrej in HR
    end.
    subst R. repeat split.
Qed.

(** A report creation answered otherwise has stored nothing. *)
Lemma createReport_refused env req db :
  res_status (snd (createReport env req db)) <> 201 ->
  patients (fst (createReport env req db)) = patients db
  /\ appointments (fst (createReport env req db)) = appointments db
  /\ activities (fst (createReport env req db)) = activities db
  /\ reports (fst (createReport env req db)) = reports db.
Proof.
  remember (createReport env req db) as R eqn:HR.
  unfold createReport, createReport_body in HR.
  destruct (ReportReq.appointmentId req) as [ai|]; [|subst R; auto].
  destruct (ReportReq.patientId req) as [pi|]; [|subst R; auto].
  destruct (ReportReq.doctorId req) as [di|]; [|subst R; auto].
  destruct (ReportReq.hospitalId req) as [hi|]; [|subst R; auto].
  destruct (negb (truthy (ReportReq.type req)) || _); [subst R; auto|].
  unfold bind at 1 in HR. unfold Report_findOne_number at 1 in HR.
  destruct (find _ (reports db)); [subst R; auto|].
  destruct ((_ =? "diagnosis") && _); [subst R; auto|].
  destruct ((_ =? "prescription") && _); [subst R; auto|].
  destruct (truthy (ReportReq.followUpDate req) && _); [subst R; auto|].
  unfold bind at 1 in HR. unfold Report_create, bind at 1, fresh_id in HR.
  destruct (Report.validate _) in HR; [|subst R; auto].
  cbn [with_next_id next_id reports] in HR.
  unfold bind at 1 in HR. unfold Appointment_complete at 1 in HR.
  unfold bind at 1 in HR. unfold User_findById at 1 in HR.
  unfold bind at 1 in HR.
  intros Hn. exfalso. apply Hn.
  destruct (truthy (ReportReq.followUpDate req)) eqn:Hfu.
  - rewrite create_follow_up_run in HR by now apply truthy_or_else.
    unfold bind, try_catch in HR.
    match type of HR with
    | context [Activity_save ?x ?d] =>
        assert (Hrej : Activity_save x d
                       = (d, Throw "Activity validation failed"))
          by reflexivity;
        rewrite Hrej in HR
    end.
    subst R. reflexivity.
  - unfold ret at 1 in HR. unfold bind, try_catch in HR.
    match type of HR with
    | context [Activity_save ?x ?d] =>
        assert (Hrej : Activity_save x d
                       = (d, Throw "Activity validation failed"))
          by reflexivity;
        rewrite Hrej in HR
    end.
    subst R. reflexivity.
Qed.

(** X13.  No report creation, accepted or refused, with or without
    follow-up, leaves an audit entry: the 'report_generated' record is
    created without the fields the audit schema requires, which ends the
    logging block, and 'followup_scheduled' is no action of that schema. *)
Theorem report_creation_is_never_audited (env : Env) (req : ReportReq.t)
    (db : DB) :
  activities (fst (createReport env req db)) = activities db.
Proof.
  destruct (Nat.eq_dec (res_status (snd (createReport env req db))) 201)
    as [H201|Hn].
  - destruct (createReport_201 env req db H201)
      as (ai & pi & di & hi & _ & _ & _ & _ & _ & _ & _ & Hact & _).
    exact Hact.
  - now destruct (createReport_refused env req db Hn) as (_ & _ & Hact & _).
Qed.

Lemma find_map_key {A} (key : A -> nat) (g : A -> A) (i : nat)
    (l : list A) :
  (forall y, key (g y) = key y) ->
  find (fun y => key y =? i)%nat (map g l)
  = option_map g (find (fun y => key y =? i)%nat l).
Proof.
  intros Hk. induction l as [|y l IH]; [reflexivity|].
  cbn [map find]. rewrite Hk.
  destruct (key y =? i)%nat; [reflexivity|exact IH].
Qed.

Lemma find_app_some {A} (f : A -> bool) (l1 l2 : list A) (x : A) :
  find f l1 = Some x -> find f (l1 ++ l2) = Some x.
Proof.
  induction l1 as [|y l1 IH]; [discriminate|].
  cbn [find app]. destruct (f y); auto.
Qed.

Lemma stored_in_completed ai i l :
  find (fun a => Appointment._id a =? i)%nat (completed_at ai l)
  = option_map (fun a => if (Appointment._id a =? ai)%nat
                         then Appointment.set_status completed a else a)
               (find (fun a => Appointment._id a =? i)%nat l).
Proof.
  unfold completed_at. apply find_map_key.
  intros y. now destruct (Appointment._id y =? ai)%nat.
Qed.

(** X14.  A report creation answered 201 stores the appointment it cites
    as completed whatever status it had (also cancelled or not_appeared),
    slot and outcome untouched; every other stored appointment and the
    whole patient collection are left as they were. *)
Theorem report_completes_its_appointment (env : Env) (req : ReportReq.t)
    (db : DB) :
  res_status (snd (createReport env req db)) = 201 ->
  exists ai,
    ReportReq.appointmentId req = Some ai
    /\ patients (fst (createReport env req db)) = patients db
    /\ (forall a, stored_appointment ai db = Some a ->
          stored_appointment ai (fst (createReport env req db))
          = Some (Appointment.set_status completed a))
    /\ (forall i a, i <> ai -> stored_appointment i db = Some a ->
          stored_appointment i (fst (createReport env req db)) = Some a).
Proof.
  intros H201.
  destruct (createReport_201 env req db H201)
    as (ai & pi & di & hi & Hai & _ & _ & _ & _ & _ & Hpat & _ & Hrest).
  exists ai. split; [exact Hai|]. split; [exact Hpat|].
  assert (Happ : exists tail,
             appointments (fst (createReport env req db))
             = (completed_at ai (appointments db) ++ tail)%list).
  { destruct (truthy (ReportReq.followUpDate req)).
    - destruct Hrest as (-> & _). eauto.
    - destruct Hrest as (-> & _). exists []. now rewrite app_nil_r. }
  destruct Happ as [tail Happ].
  unfold stored_appointment. rewrite Happ. split.
  - intros a Hf. apply find_app_some.
    rewrite stored_in_completed, Hf. cbn [option_map].
    now rewrite (find_id_eq Appointment._id _ _ _ Hf), Nat.eqb_refl.
  - intros i a Hne Hf. apply find_app_some.
    rewrite stored_in_completed, Hf. cbn [option_map].
    rewrite (find_id_eq Appointment._id _ _ _ Hf).
    apply Nat.eqb_neq in Hne. now rewrite Hne.
Qed.

Lemma report_completes_its_appointment_witness :
  exists ai,
    ReportReq.appointmentId ex_report = Some ai
    /\ patients (fst (createReport (ex_env june4_noon false false)
                        ex_report ex_db)) = patients ex_db
    /\ (forall a, stored_appointment ai ex_db = Some a ->
          stored_appointment ai
            (fst (createReport (ex_env june4_noon false false)
                    ex_report ex_db))
          = Some (Appointment.set_status completed a))
    /\ (forall i a, i <> ai -> stored_appointment i ex_db = Some a ->
          stored_appointment i
            (fst (createReport (ex_env june4_noon false false)
                    ex_report ex_db)) = Some a).
Proof.
  apply (report_completes_its_appointment (ex_env june4_noon false false)
           ex_report ex_db).
  reflexivity.
Defined.

Lemma find_app_none {A} (f : A -> bool) (l1 l2 : list A) :
  find f l1 = None -> find f (l1 ++ l2) = find f l2.
Proof.
  induction l1 as [|y l1 IH]; [reflexivity|].
  cbn [find app]. destruct (f y); [discriminate|exact IH].
Qed.

Lemma number_not_stored n l :
  find (fun r => Report.reportNumber r =? n) l = None ->
  ~ In n (map Report.reportNumber l).
Proof.
  intros Hf Hin. apply in_map_iff in Hin. destruct Hin as (r & <- & Hr).
  pose proof (find_none _ _ Hf r Hr) as Hn. cbn in Hn.
  now rewrite String.eqb_refl in Hn.
Qed.

(** X15.  Report numbers stay unique: on a store whose report numbers are
    pairwise distinct (and whose report ids were all issued before), the
    report numbers are pairwise distinct after any report creation,
    accepted or refused. *)
Theorem report_numbers_stay_unique (env : Env) (req : ReportReq.t)
    (db : DB) :
  NoDup (map Report.reportNumber (reports db)) ->
  (forall r, In r (reports db) -> (Report._id r < next_id db)%nat) ->
  NoDup (map Report.reportNumber (reports (fst (createReport env req db)))).
Proof.
  intros Hnd Hfresh.
  destruct (Nat.eq_dec (res_status (snd (createReport env req db))) 201)
    as [H201|Hn].
  2:{ destruct (createReport_refused env req db Hn) as (_ & _ & _ & ->).
      exact Hnd. }
  destruct (createReport_201 env req db H201)
    as (ai & pi & di & hi & _ & _ & _ & _ & Hfind & _ & _ & _ & Hrest).
  assert (Hnum : map Report.reportNumber
                   (reports (fst (createReport env req db)))
                 = (map Report.reportNumber (reports db)
                    ++ [or_else (ReportReq.reportNumber req) ""])%list).
  { destruct (truthy (ReportReq.followUpDate req)).
    - destruct Hrest as (_ & -> & _).
      rewrite map_replace_by; [now rewrite map_app|].
      intros y Hy Hsame. apply Nat.eqb_eq in Hsame.
      apply in_app_or in Hy. destruct Hy as [Hy|[<-|[]]]; [|reflexivity].
      specialize (Hfresh y Hy). lia.
    - destruct Hrest as (_ & -> & _). now rewrite map_app. }
  rewrite Hnum. apply NoDup_snoc; [exact Hnd|].
  now apply number_not_stored.
Qed.

Lemma report_numbers_stay_unique_witness :
  let env := ex_env june4_noon false false in
  NoDup (map Report.reportNumber
           (reports (fst (createReport env ex_report
                            (fst (createReport env ex_report ex_db)))))).
Proof.
  intros env.
  apply (report_numbers_stay_unique env ex_report
           (fst (createReport env ex_report ex_db))).
  - vm_compute. repeat constructor. intros [].
  - vm_compute. intros r [<-|[]]. vm_compute. lia.
Defined.

(** X16.  A report creation answered 201 for a request with a follow-up
    date always carries the follow-up appointment, and the two documents
    are stored linked to each other: the report found under the
    appointment's relatedReportId names the appointment as its
    followUpAppointmentId, and the appointment names the report's
    appointment as its originalAppointmentId. *)
Theorem follow_up_is_linked (env : Env) (req : ReportReq.t) (db : DB) :
  res_status (snd (createReport env req db)) = 201 ->
  truthy (ReportReq.followUpDate req) = true ->
  (forall a, In a (appointments db) -> (Appointment._id a < next_id db)%nat) ->
  exists f rid r,
    res_appointment (snd (createReport env req db)) = Some f
    /\ stored_appointment (Appointment._id f) (fst (createReport env req db))
       = Some f
    /\ Appointment.relatedReportId f = Some rid
    /\ stored_report rid (fst (createReport env req db)) = Some r
    /\ Report.followUpAppointmentId r = Some (Appointment._id f)
    /\ Some (Report.appointmentId r) = Appointment.originalAppointmentId f
    /\ ReportReq.appointmentId req = Some (Report.appointmentId r)
    /\ Appointment.patientId f = Report.patientId r
    /\ Appointment.doctorId f = Report.doctorId r.
Proof.
  intros H201 Hfu Hfresh.
  destruct (createReport_201 env req db H201)
    as (ai & pi & di & hi & Hai & _ & _ & _ & _ & _ & _ & _ & Hrest).
  rewrite Hfu in Hrest. destruct Hrest as (Happ & Hrep & Hres).
  eexists. exists (next_id db).
  exists (Report.set_followUpAppointmentId (Some (S (next_id db)))
            (created_report env req ai pi di hi (next_id db))).
  split; [exact Hres|].
  split; [|split; [reflexivity|split; [|repeat split; exact Hai]]].
  - unfold stored_appointment. rewrite Happ.
    rewrite find_app_none.
    + cbn. now rewrite Nat.eqb_refl.
    + rewrite stored_in_completed.
      destruct (find _ (appointments db)) as [x|] eqn:Hf; [|reflexivity].
      exfalso. pose proof (find_id_eq Appointment._id _ _ _ Hf) as Hid.
      apply find_In in Hf. specialize (Hfresh x Hf).
      cbn in Hid. lia.
  - unfold stored_report. rewrite Hrep.
    destruct (In_find_key Report._id
                (reports db
                 ++ [created_report env req ai pi di hi (next_id db)])
                (created_report env req ai pi di hi (next_id db)))
      as [y Hy]; [apply in_or_app; right; now left|].
    now apply (find_replace_by_id Report._id _ _ y).
Qed.

Lemma follow_up_is_linked_witness :
  exists f rid r,
    res_appointment (snd (createReport (ex_env june4_noon false false)
                            ex_report ex_db)) = Some f
    /\ stored_appointment (Appointment._id f)
         (fst (createReport (ex_env june4_noon false false) ex_report ex_db))
       = Some f
    /\ Appointment.relatedReportId f = Some rid
    /\ stored_report rid
         (fst (createReport (ex_env june4_noon false false) ex_report ex_db))
       = Some r
    /\ Report.followUpAppointmentId r = Some (Appointment._id f)
    /\ Some (Report.appointmentId r) = Appointment.originalAppointmentId f
    /\ ReportReq.appointmentId ex_report = Some (Report.appointmentId r)
    /\ Appointment.patientId f = Report.patientId r
    /\ Appointment.doctorId f = Report.doctorId r.
Proof.
  apply (follow_up_is_linked (ex_env june4_noon false false) ex_report ex_db);
    [reflexivity|reflexivity|].
  intros a Ha. vm_compute in Ha.
  destruct Ha as [<-|[<-|[<-|[<-|[]]]]]; vm_compute; lia.
Defined.

(** ** Availability and booking *)

Lemma mem_str_In s l : mem_str s l = true <-> In s l.
Proof.
  unfold mem_str. rewrite existsb_exists. split.
  - intros (x & Hx & He). apply String.eqb_eq in He. now subst.
  - intros H. exists s. split; [exact H|apply String.eqb_refl].
Qed.

Lemma booked_query_is_slot_check d date a :
  (Appointment.doctorId a =? d)%nat && (Appointment.date a =? date) && live a
  = slot_taken_by d date (Appointment.time a) a.
Proof.
  unfold slot_taken_by, live. rewrite String.eqb_refl.
  now rewrite andb_true_r.
Qed.

Lemma bookedSlots_iff d date t db :
  In t (bookedSlots d date db)
  <-> exists a, In a (appointments db) /\ slot_taken_by d date t a = true.
Proof.
  unfold bookedSlots. rewrite in_map_iff. split.
  - intros (a & <- & Ha). apply filter_In in Ha. destruct Ha as [Hin Hq].
    exists a. split; [exact Hin|]. now rewrite <- booked_query_is_slot_check.
  - intros (a & Hin & Hs).
    assert (Ht : Appointment.time a = t).
    { apply slot_taken_by_spec in Hs. destruct Hs as [Hs _].
      unfold Appointment.slot in Hs. congruence. }
    exists a. split; [exact Ht|]. apply filter_In. split; [exact Hin|].
    rewrite booked_query_is_slot_check. now rewrite Ht.
Qed.

(** A time is offered exactly when it is one of the twelve standard times
    and the slot lookup of [bookAppointment] finds nothing there. *)
Lemma availableSlots_iff d date t db :
  In t (availableSlots d date db)
  <-> In t allSlots
      /\ find (slot_taken_by d date t) (appointments db) = None.
Proof.
  unfold availableSlots. rewrite filter_In. split.
  - intros [Hall Hfree]. split; [exact Hall|].
    destruct (find _ (appointments db)) as [x|] eqn:Hf; [|reflexivity].
    apply find_some in Hf. apply negb_true_iff in Hfree.
    assert (mem_str t (bookedSlots d date db) = true); [|congruence].
    apply mem_str_In, bookedSlots_iff. now exists x.
  - intros [Hall Hfree]. split; [exact Hall|].
    apply negb_true_iff.
    destruct (mem_str t (bookedSlots d date db)) eqn:Hm; [|reflexivity].
    apply mem_str_In, bookedSlots_iff in Hm. destruct Hm as (a & Hin & Hs).
    pose proof (find_none _ _ Hfree a Hin). congruence.
Qed.

(** X18.  The availability answer and the booking agree: when
    [getDoctorAvailability] answers the list of free times of a doctor and
    date, a booking request for that doctor and date that passes the
    checks on fields, doctor and patient is answered 201 when its time is
    in the list, and 'This time slot is already booked' when its time is a
    standard time missing from the list. *)
Theorem offered_slot_is_bookable (env : Env) (req : BookReq.t) (db : DB)
    (d : ObjectId) (date t : string) (slots : list string) :
  getDoctorAvailability (Some d) (Some date) db = Json 200 slots ->
  requested_slot req = Some (d, date, t) ->
  ready_to_book env req db = true ->
  (In t slots -> res_status (snd (bookAppointment env req db)) = 201)
  /\ (In t allSlots -> ~ In t slots ->
      snd (bookAppointment env req db)
      = error_response 500 "This time slot is already booked").
Proof.
  intros Hav Hreq Hready.
  unfold getDoctorAvailability in Hav.
  destruct (negb (truthy (Some date))); [discriminate|].
  destruct (find _ (doctors db)); [|discriminate].
  rewrite or_else_some_empty in Hav. injection Hav as <-.
  pose proof (bookAppointment_ready env req db d date t Hready Hreq) as Hb.
  split.
  - intros Hin. apply availableSlots_iff in Hin. destruct Hin as [_ Hfree].
    now rewrite Hfree in Hb.
  - intros Hall Hnot.
    destruct (find (slot_taken_by d date t) (appointments db)) eqn:Hf;
      [exact Hb|].
    exfalso. apply Hnot. apply availableSlots_iff. auto.
Qed.

Lemma offered_slot_is_bookable_witness :
  res_status (snd (bookAppointment (ex_env june4_noon false false)
                     (ex_booking "cyd@x.com" "11:00") ex_db)) = 201
  /\ snd (bookAppointment (ex_env june4_noon false false)
            (ex_booking "cyd@x.com" "09:00") ex_db)
     = error_response 500 "This time slot is already booked".
Proof.
  split.
  - apply (offered_slot_is_bookable (ex_env june4_noon false false)
             (ex_booking "cyd@x.com" "11:00") ex_db 7 "2024-06-01" "11:00"
             (availableSlots 7 "2024-06-01" ex_db));
      try reflexivity.
    vm_compute. auto 12.
  - apply (offered_slot_is_bookable (ex_env june4_noon false false)
             (ex_booking "cyd@x.com" "09:00") ex_db 7 "2024-06-01" "09:00"
             (availableSlots 7 "2024-06-01" ex_db));
      try reflexivity.
    + vm_compute. auto 12.
    + vm_compute. intros H.
      repeat (destruct H as [H|H]; [discriminate|]). exact H.
Defined.

Lemma mem_str_snoc s l t : mem_str s (l ++ [t]) = mem_str s l || (s =? t).
Proof.
  unfold mem_str. rewrite existsb_app. cbn. now rewrite orb_false_r.
Qed.

Lemma bookedSlots_snoc d date db l a :
  appointments db = (l ++ [a])%list ->
  forall db0, appointments db0 = l ->
  bookedSlots d date db
  = (bookedSlots d date db0
     ++ if slot_taken_by d date (Appointment.time a) a
        then [Appointment.time a] else [])%list.
Proof.
  intros Happ db0 H0. unfold bookedSlots.
  rewrite Happ, H0, filter_app, map_app. cbn [filter].
  rewrite booked_query_is_slot_check.
  now destruct (slot_taken_by _ _ _ a).
Qed.

(** X19.  A booking answered 201 takes exactly its time out of the offer:
    the free times of the booked doctor and date are afterwards those of
    before without the booked time, and the free times of every other
    doctor or date are as before. *)
Theorem booking_consumes_the_offer (env : Env) (req : BookReq.t) (db : DB)
    (d : ObjectId) (date t : string) :
  res_status (snd (bookAppointment env req db)) = 201 ->
  requested_slot req = Some (d, date, t) ->
  availableSlots d date (fst (bookAppointment env req db))
  = filter (fun s => negb (s =? t)) (availableSlots d date db)
  /\ ~ In t (availableSlots d date (fst (bookAppointment env req db)))
  /\ (forall d' date', (d', date') <> (d, date) ->
        availableSlots d' date' (fst (bookAppointment env req db))
        = availableSlots d' date' db).
Proof.
  intros H201 Hreq.
  destruct (bookAppointment_appointments env req db)
    as [[_ H500]|(d0 & date0 & t0 & a & Hreq0 & _ & Happ & Hslot & Hst)];
    [congruence|].
  rewrite Hreq in Hreq0. injection Hreq0 as <- <- <-.
  assert (Hlive : live a = true) by (unfold live; now rewrite Hst).
  assert (Hbooked : forall d' date',
            bookedSlots d' date' (fst (bookAppointment env req db))
            = (bookedSlots d' date' db
               ++ if (d =? d')%nat && (date =? date') then [t] else [])%list).
  { intros d' date'.
    rewrite (bookedSlots_snoc d' date' _ _ a Happ db eq_refl).
    unfold slot_taken_by. unfold Appointment.slot in Hslot.
    injection Hslot as -> -> ->. unfold live in Hlive.
    now rewrite Hlive, String.eqb_refl, !andb_true_r. }
  assert (Hfilter : availableSlots d date (fst (bookAppointment env req db))
                    = filter (fun s => negb (s =? t))
                             (availableSlots d date db)).
  { unfold availableSlots. rewrite Hbooked, Nat.eqb_refl, String.eqb_refl.
    cbn [andb]. generalize allSlots. intros l.
    induction l as [|s l IH]; [reflexivity|].
    cbn [filter]. rewrite mem_str_snoc, negb_orb.
    destruct (mem_str s (bookedSlots d date db)); cbn [negb andb].
    - exact IH.
    - cbn [filter]. destruct (s =? t); cbn [negb]; now rewrite IH. }
  split; [exact Hfilter|]. split.
  - rewrite Hfilter. intros Hin. apply filter_In in Hin.
    destruct Hin as [_ Hin]. now rewrite String.eqb_refl in Hin.
  - intros d' date' Hne. unfold availableSlots. rewrite Hbooked.
    destruct (Nat.eqb_spec d d') as [<-|_]; [|now rewrite app_nil_r].
    destruct (String.eqb_spec date date') as [<-|_];
      [congruence|now rewrite app_nil_r].
Qed.

Lemma booking_consumes_the_offer_witness :
  let r := bookAppointment (ex_env june4_noon false false)
             (ex_booking "cyd@x.com" "11:00") ex_db in
  availableSlots 7 "2024-06-01" (fst r)
  = filter (fun s => negb (s =? "11:00")) (availableSlots 7 "2024-06-01" ex_db)
  /\ ~ In "11:00" (availableSlots 7 "2024-06-01" (fst r))
  /\ (forall d' date', (d', date') <> (7, "2024-06-01") ->
        availableSlots d' date' (fst r) = availableSlots d' date' ex_db).
Proof.
  apply (booking_consumes_the_offer (ex_env june4_noon false false)
           (ex_booking "cyd@x.com" "11:00") ex_db 7 "2024-06-01" "11:00");
    reflexivity.
Defined.

(** X20.  The two availability handlers agree.  Both answer 400 when the
    doctor id or the date is missing or empty; otherwise
    [getAvailableSlots] answers the free and the booked times, every
    standard time being in exactly one of the two lists, also for a doctor
    id without doctor document, where [getDoctorAvailability] answers 404;
    for a known doctor [getDoctorAvailability] answers the same free
    times. *)
Theorem availability_handlers_agree (doctorId : option ObjectId)
    (date : option string) (db : DB) :
  match getAvailableSlots doctorId date db with
  | Failed code _ =>
      code = 400
      /\ (doctorId = None \/ truthy date = false)
      /\ getDoctorAvailability doctorId date db
         = Failed 400 "Please provide doctor ID and date"
  | Json code (free, booked) =>
      code = 200
      /\ (forall t, In t allSlots -> (In t free <-> ~ In t booked))
      /\ (forall t, In t free -> In t allSlots)
      /\ exists d, doctorId = Some d
         /\ getDoctorAvailability doctorId date db
            = match find (fun x => Doctor._id x =? d)%nat (doctors db) with
              | Some _ => Json 200 free
              | None => Failed 404 "Doctor not found"
              end
  end.
Proof.
  unfold getAvailableSlots, getDoctorAvailability.
  destruct doctorId as [d|]; [|auto].
  destruct (truthy date); cbn [negb]; [|auto].
  split; [reflexivity|]. split; [|split].
  - intros t Hall. unfold availableSlots. rewrite filter_In.
    rewrite <- (mem_str_In t (bookedSlots d (or_else date "") db)). split.
    + intros [_ H]. apply negb_true_iff in H. congruence.
    + intros H. split; [exact Hall|].
      now destruct (mem_str t (bookedSlots d (or_else date "") db)).
  - intros t H. unfold availableSlots in H. now apply filter_In in H.
  - exists d. split; [reflexivity|].
    now destruct (find _ (doctors db)).
Qed.

(** ** Check-in *)

Lemma checked_in_validate a :
  Appointment_validate (checked_in a) = Appointment_validate a.
Proof. unfold checked_in. now destruct (Appointment.status a). Qed.

Lemma checked_in_id a : Appointment._id (checked_in a) = Appointment._id a.
Proof. unfold checked_in. now destruct (Appointment.status a). Qed.

Lemma checked_in_idem a : checked_in (checked_in a) = checked_in a.
Proof.
  unfold checked_in. destruct (Appointment.status a) eqn:E; cbn;
    now try rewrite E.
Qed.

(** The audit entry of a check-in reads nothing that the lookup fills. *)
Lemma check_in_activity_hydrate iso env req a :
  check_in_activity iso env req (checked_in (Appointment_hydrate a))
  = check_in_activity iso env req (checked_in a).
Proof.
  unfold Appointment_hydrate, checked_in.
  destruct (Appointment.treatmentOutcome a); [reflexivity|].
  cbn [Appointment.status Appointment.set_treatment].
  now destruct (Appointment.status a).
Qed.

(** What an accepted check-in does to the store: the document saved is the
    one the lookup built. *)
Lemma checkInPatient_run iso env req db a :
  stored_appointment (CheckInReq.id req) db = Some a ->
  Appointment_validate a = true ->
  exists db',
    checkInPatient iso env req db
    = (db', mkRes 200 None (Some (checked_in (Appointment_hydrate a))) None)
    /\ appointments db'
       = replace_by (fun x => Appointment._id x =? CheckInReq.id req)%nat
                    (checked_in (Appointment_hydrate a)) (appointments db)
    /\ patients db' = patients db
    /\ activities db'
       = if negb (patient_lookup_fails env)
            && Activity.validate (check_in_activity iso env req (checked_in a))
         then (activities db
               ++ [check_in_activity iso env req (checked_in a)])%list
         else activities db.
Proof.
  intros Hf Hv. unfold checkInPatient, Appointment_findById.
  unfold stored_appointment in Hf. rewrite Hf.
  unfold bind at 1. unfold Appointment_save_validated.
  rewrite checked_in_validate, Appointment_hydrate_validate, Hv.
  unfold Appointment_save.
  rewrite checked_in_id, Appointment_hydrate_id,
    (find_id_eq Appointment._id _ _ _ Hf).
  rewrite check_in_activity_hydrate.
  unfold try_catch, bind, Patient_findById.
  destruct (patient_lookup_fails env); cbn [negb andb].
  - unfold throw, ret. eexists. split; [reflexivity|]. repeat split.
  - destruct (Activity.validate (check_in_activity iso env req (checked_in a)))
      eqn:Hav.
    + rewrite (logActivity_accepted _ _ Hav).
      eexists. split; [reflexivity|]. repeat split.
    + rewrite (logActivity_rejected _ _ Hav).
      eexists. split; [reflexivity|]. repeat split.
Qed.



(** X22.  A check-in that is not answered 200 has written nothing, and the
    answer is 404 exactly when no appointment is stored under the id (the
    other refusal, 500, is the save refusing a document that lacks a
    required field). *)
Theorem refused_check_in_writes_nothing (iso : Z -> string) (env : Env)
    (req : CheckInReq.t) (db : DB) :
  res_status (snd (checkInPatient iso env req db)) <> 200 ->
  fst (checkInPatient iso env req db) = db
  /\ (stored_appointment (CheckInReq.id req) db = None ->
      snd (checkInPatient iso env req db)
      = error_response 404 "Appointment not found")
  /\ (forall a, stored_appointment (CheckInReq.id req) db = Some a ->
      Appointment_validate a = false
      /\ res_status (snd (checkInPatient iso env req db)) = 500).
Proof.
  intros Hn.
  destruct (stored_appointment (CheckInReq.id req) db) as [a|] eqn:Hf.
  - destruct (Appointment_validate a) eqn:Hv.
    + destruct (checkInPatient_run iso env req db a Hf Hv) as (db' & Hrun & _).
      rewrite Hrun in Hn. now contradiction Hn.
    + assert (Hrun : checkInPatient iso env req db
                     = (db, error_response 500
                              "Appointment validation failed")).
      { unfold checkInPatient, Appointment_findById.
        unfold stored_appointment in Hf. rewrite Hf.
        unfold bind, Appointment_save_validated.
        now rewrite checked_in_validate, Appointment_hydrate_validate, Hv. }
      rewrite Hrun. split; [reflexivity|]. split; [discriminate|].
      intros a0 [= <-]. auto.
  - assert (Hrun : checkInPatient iso env req db
                   = (db, error_response 404 "Appointment not found")).
    { unfold checkInPatient, Appointment_findById.
      unfold stored_appointment in Hf. now rewrite Hf. }
    rewrite Hrun. split; [reflexivity|]. split; [reflexivity|discriminate].
Qed.

Lemma refused_check_in_writes_nothing_witness :
  fst (checkInPatient (fun _ => "2024-06-04T12:00:00.000Z")
         (ex_env june4_noon false false)
         (CheckInReq.mk (Some staff) 99 None) ex_db) = ex_db
  /\ (stored_appointment 99 ex_db = None ->
      snd (checkInPatient (fun _ => "2024-06-04T12:00:00.000Z")
             (ex_env june4_noon false false)
             (CheckInReq.mk (Some staff) 99 None) ex_db)
      = error_response 404 "Appointment not found")
  /\ (forall a, stored_appointment 99 ex_db = Some a ->
      Appointment_validate a = false
      /\ res_status
           (snd (checkInPatient (fun _ => "2024-06-04T12:00:00.000Z")
                   (ex_env june4_noon false false)
                   (CheckInReq.mk (Some staff) 99 None) ex_db)) = 500).
Proof.
  apply (refused_check_in_writes_nothing
           (fun _ => "2024-06-04T12:00:00.000Z")
           (ex_env june4_noon false false)
           (CheckInReq.mk (Some staff) 99 None) ex_db).
  vm_compute. discriminate.
Defined.

Lemma check_in_activity_validate iso env req a :
  Activity.validate (check_in_activity iso env req a)
  = match CheckInReq.user req with Some _ => true | None => false end
    && mem_str (or_else (user_role (CheckInReq.user req)) "staff")
               ["staff"; "doctor"; "admin"].
Proof.
  unfold Activity.validate, check_in_activity, activity_doc.
  cbn [Activity.user Activity.actorRole Activity.action Activity.subject
       Activity.subjectId Activity.type Activity.status].
  unfold user_id.
  destruct (CheckInReq.user req); [|reflexivity].
  destruct (mem_str (or_else _ _) _); reflexivity.
Qed.

(** X23.  An accepted check-in appends exactly one audit entry,
    'patient_checked_in', about the appointment and with the check-in time
    of the request (or the instant of the request when it carries none),
    when the patient lookup answers and the caller's role is staff, doctor
    or admin (a caller without role counts as staff); when the patient
    lookup throws, or for a caller of another role, the check-in is
    answered 200 all the same and no entry is stored. *)
Theorem check_in_audit (iso : Z -> string) (env : Env) (req : CheckInReq.t)
    (db : DB) (a : Appointment.t) (u : User.t) :
  stored_appointment (CheckInReq.id req) db = Some a ->
  Appointment_validate a = true ->
  CheckInReq.user req = Some u ->
  let role := or_else (User.role u) "staff" in
  res_status (snd (checkInPatient iso env req db)) = 200
  /\ (patient_lookup_fails env = false ->
      mem_str role ["staff"; "doctor"; "admin"] = true ->
      exists e,
        activities (fst (checkInPatient iso env req db))
        = (activities db ++ [e])%list
        /\ Activity.action e = "patient_checked_in"
        /\ Activity.subjectId e = Some (CheckInReq.id req)
        /\ Activity.patientId e = Some (Appointment.patientId a)
        /\ Activity.user e = Some (User._id u)
        /\ Activity.lookup "checkInTime" (Activity.metadata e)
           = Some (MStr (or_else (CheckInReq.checkInTime req)
                                 (iso (now env)))))
  /\ (patient_lookup_fails env = true
      \/ mem_str role ["staff"; "doctor"; "admin"] = false ->
      activities (fst (checkInPatient iso env req db)) = activities db).
Proof.
  intros Hf Hv Hu role.
  destruct (checkInPatient_run iso env req db a Hf Hv)
    as (db' & -> & _ & _ & Hact).
  cbn [fst snd res_status]. split; [reflexivity|].
  rewrite check_in_activity_validate, Hu in Hact.
  unfold user_role in Hact. fold role in Hact. cbn [andb] in Hact.
  split.
  - intros Hl Hr. rewrite Hl, Hr in Hact. cbn [negb andb] in Hact.
    eexists. split; [exact Hact|].
    unfold check_in_activity, activity_doc. rewrite Hu.
    cbn. rewrite checked_in_id.
    repeat split.
    + f_equal. exact (find_id_eq Appointment._id _ _ _ Hf).
    + unfold checked_in. now destruct (Appointment.status a).
  - intros [Hl|Hr]; [rewrite Hl in Hact|rewrite Hr, andb_false_r in Hact];
      exact Hact.
Qed.

Lemma check_in_audit_witness :
  let iso := fun _ : Z => "2024-06-04T12:00:00.000Z" in
  let env := ex_env june4_noon true false in
  let req := CheckInReq.mk (Some staff) 10 None in
  res_status (snd (checkInPatient iso env req ex_db)) = 200
  /\ activities (fst (checkInPatient iso env req ex_db)) = activities ex_db.
Proof.
  intros iso env req.
  destruct (check_in_audit iso env req ex_db
              (ex_appointment 10 1 "2024-06-01" "09:00" pending
                              (Some successful) false) staff)
    as (H200 & _ & Hnone); try reflexivity.
  split; [exact H200|]. apply Hnone. left. reflexivity.
Defined.

(** ** Cancellation *)

(** What an accepted cancellation does to the store: the document saved
    is the one the lookup built, with its status set. *)
Lemma cancelAppointment_run req db a :
  stored_appointment (CancelReq.id req) db = Some a ->
  may_cancel req a = true ->
  Appointment_validate a = true ->
  exists db',
    cancelAppointment req db
    = (db', mkRes 200 None
              (Some (Appointment.set_status cancelled
                       (Appointment_hydrate a))) None)
    /\ appointments db'
       = replace_by (fun x => Appointment._id x =? Appointment._id a)%nat
                    (Appointment.set_status cancelled (Appointment_hydrate a))
                    (appointments db)
    /\ patients db' = patients db.
Proof.
  intros Hf Hmay Hv. unfold cancelAppointment, Appointment_findById.
  unfold stored_appointment in Hf. rewrite Hf, Hmay.
  unfold bind, Appointment_save_validated.
  change (Appointment_validate
            (Appointment.set_status cancelled (Appointment_hydrate a)))
    with (Appointment_validate (Appointment_hydrate a)).
  rewrite Appointment_hydrate_validate, Hv. unfold Appointment_save.
  change (Appointment._id
            (Appointment.set_status cancelled (Appointment_hydrate a)))
    with (Appointment._id (Appointment_hydrate a)).
  rewrite Appointment_hydrate_id.
  match goal with
  | |- context [logActivity ?x ?d] =>
      destruct (logActivity_frame x d) as (Hp & Ha & Hok);
      destruct (logActivity x d) as [db3 r3]
  end.
  cbn [fst snd] in Hp, Ha, Hok. subst r3.
  exists db3. split; [reflexivity|]. split; [exact Ha|exact Hp].
Qed.

(** X24.  Only an admin, or the caller whose own id is the appointment's
    patientId, cancels an appointment: every other caller (staff and
    doctors included) is answered 403, an unknown id 404, and in both
    cases the store is left as it was. *)
Theorem cancel_is_restricted (req : CancelReq.t) (db : DB) :
  (stored_appointment (CancelReq.id req) db = None ->
   cancelAppointment req db
   = (db, error_response 404 "Appointment not found"))
  /\ (forall a,
        stored_appointment (CancelReq.id req) db = Some a ->
        or_else (User.role (CancelReq.user req)) "" <> "admin" ->
        Appointment.patientId a <> User._id (CancelReq.user req) ->
        cancelAppointment req db
        = (db, error_response 403
                 "Not authorized to cancel this appointment"))
  /\ (res_status (snd (cancelAppointment req db)) = 200 ->
      exists a, stored_appointment (CancelReq.id req) db = Some a
                /\ may_cancel req a = true).
Proof.
  unfold cancelAppointment, Appointment_findById, stored_appointment.
  destruct (find _ (appointments db)) as [a|] eqn:Hf.
  - split; [discriminate|]. split.
    + intros a0 [= <-] Hrole Hpid. unfold may_cancel.
      apply String.eqb_neq in Hrole. apply Nat.eqb_neq in Hpid.
      now rewrite Hrole, Hpid.
    + destruct (may_cancel req a) eqn:Hmay; [|discriminate].
      intros _. exists a. auto.
  - split; [reflexivity|]. split; [discriminate|discriminate].
Qed.

(** X25.  Cancelling frees the slot: after a cancellation by a permitted
    caller of a stored appointment that the validation of the save accepts
    and that was not cancelled yet, on a store with distinct ids and no
    double booking, the appointment is stored with status cancelled at the
    slot it had, and no live appointment holds that slot any more, so a
    booking for that slot that passes the checks on fields, doctor and
    patient is answered 201; no double booking arises and the patient
    collection is untouched. *)
Theorem cancel_frees_the_slot (env : Env) (req : CancelReq.t) (db : DB)
    (a : Appointment.t) (d : ObjectId) (date time : string) :
  NoDup (map Appointment._id (appointments db)) ->
  no_double_booking db ->
  stored_appointment (CancelReq.id req) db = Some a ->
  may_cancel req a = true ->
  Appointment_validate a = true ->
  Appointment.status a <> cancelled ->
  Appointment.slot a = (d, date, time) ->
  let db' := fst (cancelAppointment req db) in
  res_status (snd (cancelAppointment req db)) = 200
  /\ (exists a',
        stored_appointment (CancelReq.id req) db' = Some a'
        /\ Appointment.status a' = cancelled
        /\ Appointment.slot a' = (d, date, time))
  /\ find (slot_taken_by d date time) (appointments db') = None
  /\ (forall booking, requested_slot booking = Some (d, date, time) ->
        ready_to_book env booking db' = true ->
        res_status (snd (bookAppointment env booking db')) = 201)
  /\ no_double_booking db'
  /\ patients db' = patients db.
Proof.
  intros Hnd Hndb Hf Hmay Hv Hlive Hslot db'.
  destruct (cancelAppointment_run req db a Hf Hmay Hv)
    as (db1 & Hrun & Happ & Hpat).
  subst db'. rewrite Hrun. cbn [fst snd res_status].
  destruct (in_split a (appointments db) (find_In _ _ _ Hf))
    as (l1 & l2 & Hsplit).
  assert (Happ' : appointments db1
                  = (l1 ++ Appointment.set_status cancelled
                             (Appointment_hydrate a) :: l2)%list).
  { rewrite Happ, Hsplit. apply replace_by_unique. now rewrite <- Hsplit. }
  assert (Hla : live a = true).
  { unfold live. destruct (Appointment.status a); try reflexivity.
    now contradiction Hlive. }
  unfold no_double_booking, live_slots in Hndb.
  rewrite Hsplit in Hndb. fold (slots_of (l1 ++ a :: l2)) in Hndb.
  rewrite slots_of_split, Hla in Hndb.
  assert (Hfree : find (slot_taken_by d date time) (appointments db1) = None).
  { rewrite Happ'.
    destruct (find _ (l1 ++ _ :: l2)) as [b|] eqn:Hb; [|reflexivity].
    exfalso. apply find_some in Hb. destruct Hb as [Hin Htaken].
    apply slot_taken_by_spec in Htaken. destruct Htaken as [Hsb Hlb].
    assert (Hother : In b l1 \/ In b l2).
    { apply in_app_or in Hin. destruct Hin as [H|[<-|H]]; auto.
      discriminate. }
    apply NoDup_remove_2 in Hndb. apply Hndb.
    rewrite Hslot, <- Hsb. apply in_or_app. unfold slots_of.
    destruct Hother as [H|H]; [left|right];
      apply in_map; apply filter_In; auto. }
  split; [reflexivity|]. split; [|split; [exact Hfree|split; [|split]]].
  - exists (Appointment.set_status cancelled (Appointment_hydrate a)).
    split; [|split; [reflexivity|]].
    + unfold stored_appointment in *. rewrite Happ.
      rewrite (find_id_eq Appointment._id _ _ _ Hf).
      apply (find_replace_by_id Appointment._id _ _ a); [exact Hf|].
      change (Appointment._id (Appointment_hydrate a) = CancelReq.id req).
      rewrite Appointment_hydrate_id.
      exact (find_id_eq Appointment._id _ _ _ Hf).
    + change (Appointment.slot (Appointment_hydrate a) = (d, date, time)).
      now rewrite Appointment_hydrate_slot.
  - intros booking Hreq Hready.
    pose proof (bookAppointment_ready env booking db1 d date time Hready Hreq)
      as Hb.
    now rewrite Hfree in Hb.
  - unfold no_double_booking, live_slots. rewrite Happ'.
    fold (slots_of (l1 ++ Appointment.set_status cancelled
                              (Appointment_hydrate a) :: l2)).
    rewrite slots_of_split. cbn [live Appointment.set_status
      Appointment.status status_eqb negb app].
    now apply NoDup_remove_1 in Hndb.
  - exact Hpat.
Qed.

Lemma cancel_frees_the_slot_witness :
  let env := ex_env june4_noon false false in
  let req := CancelReq.mk (User.mk 1 (Some "Ann") (Some "patient") "active")
                          10 in
  let db' := fst (cancelAppointment req ex_db) in
  res_status (snd (cancelAppointment req ex_db)) = 200
  /\ (exists a',
        stored_appointment 10 db' = Some a'
        /\ Appointment.status a' = cancelled
        /\ Appointment.slot a' = (7, "2024-06-01", "09:00"))
  /\ find (slot_taken_by 7 "2024-06-01" "09:00") (appointments db') = None
  /\ (forall booking,
        requested_slot booking = Some (7, "2024-06-01", "09:00") ->
        ready_to_book env booking db' = true ->
        res_status (snd (bookAppointment env booking db')) = 201)
  /\ no_double_booking db'
  /\ patients db' = patients ex_db.
Proof.
  intros env req.
  apply (cancel_frees_the_slot env req ex_db
           (ex_appointment 10 1 "2024-06-01" "09:00" pending
                           (Some successful) false) 7 "2024-06-01" "09:00");
    try reflexivity.
  - apply distinct_NoDup. reflexivity.
  - exact ex_no_double_booking.
  - discriminate.
Defined.

Lemma cancel_is_restricted_witness :
  cancelAppointment (CancelReq.mk staff 10) ex_db
  = (ex_db, error_response 403 "Not authorized to cancel this appointment").
Proof.
  destruct (cancel_is_restricted (CancelReq.mk staff 10) ex_db)
    as (_ & H & _).
  apply (H (ex_appointment 10 1 "2024-06-01" "09:00" pending
                           (Some successful) false));
    [reflexivity|discriminate|discriminate].
Defined.

(** ** Confirmation and the activation rule outside the booking *)

Lemma activate_on_create_patients env pid db :
  exists b,
    snd (activate_on_create env pid db) = Ok b
    /\ patients (fst (activate_on_create env pid db))
       = activation_rule env pid (patients db)
    /\ appointments (fst (activate_on_create env pid db)) = appointments db
    /\ activities (fst (activate_on_create env pid db)) = activities db.
Proof.
  unfold activate_on_create, activation_rule, try_catch, bind,
    Patient_findById, Patient_save, throw, ret.
  destruct (patient_lookup_fails env); cbn; [eexists; repeat split|].
  destruct (find _ (patients db)) as [p|]; cbn [option_map];
    [|cbn; eexists; repeat split].
  rewrite Patient_hydrate_status, set_active_hydrate.
  destruct (Patient.status p); cbn; [eexists; repeat split|].
  destruct (patient_save_fails env); cbn; [eexists; repeat split|].
  change (Patient.validate
            (Patient.set_lastStatusChangeDate (Some (now env))
               (Patient.set_status active p)))
    with (Patient.validate p).
  destruct (Patient.validate p); cbn; rewrite ?Patient_hydrate_id;
    eexists; repeat split.
Qed.

Lemma activate_on_confirm_patients env req a db :
  exists b,
    snd (activate_on_confirm env req a db) = Ok b
    /\ patients (fst (activate_on_confirm env req a db))
       = activation_rule env (Appointment.patientId a) (patients db)
    /\ appointments (fst (activate_on_confirm env req a db)) = appointments db
    /\ activities (fst (activate_on_confirm env req a db)) = activities db.
Proof.
  unfold activate_on_confirm, activation_rule, try_catch, bind,
    Patient_findById, Patient_save, throw, ret.
  destruct (patient_lookup_fails env); cbn -[logActivity];
    [eexists; repeat split|].
  destruct (find _ (patients db)) as [p|]; cbn [option_map];
    [|cbn -[logActivity]; eexists; repeat split].
  rewrite Patient_hydrate_status, set_active_hydrate.
  destruct (Patient.status p); cbn -[logActivity]; [eexists; repeat split|].
  destruct (patient_save_fails env); cbn -[logActivity];
    [eexists; repeat split|].
  change (Patient.validate
            (Patient.set_lastStatusChangeDate (Some (now env))
               (Patient.set_status active p)))
    with (Patient.validate p).
  destruct (Patient.validate p); cbn -[logActivity];
    [|eexists; repeat split].
  rewrite logActivity_rejected by reflexivity.
  cbn. rewrite ?Patient_hydrate_id. eexists. repeat split.
Qed.

Lemma confirmAppointment_run env req db a :
  stored_appointment (ConfirmReq.id req) db = Some a ->
  exists db',
    confirmAppointment env req db
    = (db', mkRes 200 None (Some (Appointment.set_status confirmed a)) None)
    /\ appointments db'
       = replace_by (fun x => Appointment._id x =? Appointment._id a)%nat
                    (Appointment.set_status confirmed a) (appointments db)
    /\ patients db'
       = activation_rule env (Appointment.patientId a) (patients db).
Proof.
  intros Hf. unfold confirmAppointment, Appointment_findById.
  unfold stored_appointment in Hf. rewrite Hf.
  unfold bind at 1. unfold Appointment_save.
  unfold bind at 1.
  match goal with
  | |- context [activate_on_confirm env req ?x ?d] =>
      destruct (activate_on_confirm_patients env req x d)
        as (b & Hb & Hp & Ha & _);
      destruct (activate_on_confirm env req x d) as [db2 r2]
  end.
  cbn [fst snd] in Hb, Hp, Ha. subst r2.
  match goal with
  | |- context [logActivity ?x ?d] =>
      destruct (logActivity_frame x d) as (Hp3 & Ha3 & Hok);
      destruct (logActivity x d) as [db3 r3]
  end.
  cbn [fst snd] in Hp3, Ha3, Hok. subst r3.
  exists db3. split; [reflexivity|].
  rewrite Hp3, Ha3, Hp, Ha. split; reflexivity.
Qed.


Lemma activation_rule_stored env pid l p :
  find (fun x => Patient._id x =? pid)%nat l = Some p ->
  (Patient.status p = active -> activation_rule env pid l = l)
  /\ (Patient.status p = inactive ->
      patient_lookup_fails env = false ->
      patient_save_fails env = false ->
      Patient.validate p = true ->
      find (fun x => Patient._id x =? pid)%nat (activation_rule env pid l)
      = Some (Patient.set_lastStatusChangeDate (Some (now env))
                (Patient.set_status active p))).
Proof.
  intros Hf. unfold activation_rule. rewrite Hf. split.
  - intros ->. now destruct (patient_lookup_fails env).
  - intros -> -> -> ->.
    rewrite (find_id_eq Patient._id _ _ _ Hf).
    apply (find_replace_by_id Patient._id _ _ p); [exact Hf|].
    exact (find_id_eq Patient._id _ _ _ Hf).
Qed.

(** An accepted creation applies the activation rule to its patient. *)
Lemma createAppointment_patients env req db pid :
  CreateReq.patientId req = Some pid ->
  res_status (snd (createAppointment env req db)) = 201 ->
  patients (fst (createAppointment env req db))
  = activation_rule env pid (patients db).
Proof.
  intros Hpid.
  remember (createAppointment env req db) as R eqn:HR.
  unfold createAppointment, createAppointment_body in HR.
  rewrite Hpid in HR.
  destruct (CreateReq.doctorId req) as [did|];
    [|subst R; discriminate].
  destruct (CreateReq.hospitalId req) as [hid|];
    [|subst R; discriminate].
  destruct (match CreateReq.status req with
            | Some s => parse_status s
            | None => Some pending
            end) as [st|]; [|subst R; discriminate].
  unfold bind at 1 in HR.
  unfold Appointment_create, bind at 1, fresh_id in HR.
  destruct (Appointment_validate _) in HR; [|subst R; discriminate].
  cbn [with_next_id next_id appointments] in HR.
  unfold bind at 1 in HR.
  match type of HR with
  | context [activate_on_create env pid ?s] =>
      destruct (activate_on_create_patients env pid s)
        as (b & Hb & Hpp & _);
      destruct (activate_on_create env pid s) as [db2 r2]
  end.
  cbn [fst snd] in Hb, Hpp. subst r2.
  unfold bind in HR.
  match type of HR with
  | context [logActivity ?x ?d] =>
      destruct (logActivity_frame x d) as (Hp3 & _ & Hok);
      destruct (logActivity x d) as [db3 r3]
  end.
  cbn [fst snd] in Hp3, Hok. subst r3. unfold ret in HR. subst R.
  cbn [fst]. rewrite Hp3, Hpp. reflexivity.
Qed.

(** X27.  The activation rule outside the booking: an accepted
    [createAppointment] for a stored patient, and a [confirmAppointment] of
    a stored appointment of that patient, leave the patient collection as
    it was when the patient is active, and store an inactive patient as
    active with lastStatusChangeDate = now and the treatmentDays it had
    when the patient store answers and accepts the document. *)
Theorem activation_on_create_and_confirm (env : Env) (db : DB)
    (pid : ObjectId) (p : Patient.t) :
  stored_patient pid db = Some p ->
  let activated := Patient.set_lastStatusChangeDate (Some (now env))
                     (Patient.set_status active p) in
  let ok := Patient.status p = inactive /\ patient_lookup_fails env = false
            /\ patient_save_fails env = false /\ Patient.validate p = true in
  (forall req,
     CreateReq.patientId req = Some pid ->
     res_status (snd (createAppointment env req db)) = 201 ->
     (Patient.status p = active ->
      patients (fst (createAppointment env req db)) = patients db)
     /\ (ok -> stored_patient pid (fst (createAppointment env req db))
               = Some activated))
  /\ (forall req a,
        stored_appointment (ConfirmReq.id req) db = Some a ->
        Appointment.patientId a = pid ->
        (Patient.status p = active ->
         patients (fst (confirmAppointment env req db)) = patients db)
        /\ (ok -> stored_patient pid (fst (confirmAppointment env req db))
                  = Some activated))
  /\ Patient.status activated = active
  /\ Patient.lastStatusChangeDate activated = Some (now env)
  /\ Patient.treatmentDays activated = Patient.treatmentDays p.
Proof.
  intros Hp activated ok.
  destruct (activation_rule_stored env pid (patients db) p Hp)
    as [Hact Hinact].
  split; [|split; [|repeat split]].
  - intros req Hpid H201.
    pose proof (createAppointment_patients env req db pid Hpid H201)
      as Hpat.
    unfold stored_patient. rewrite Hpat. split.
    + exact Hact.
    + intros (H1 & H2 & H3 & H4). now apply Hinact.
  - intros req a Hf Hpa.
    destruct (confirmAppointment_run env req db a Hf)
      as (db' & -> & _ & Hpat).
    cbn [fst]. unfold stored_patient. rewrite Hpat, Hpa. split.
    + exact Hact.
    + intros (H1 & H2 & H3 & H4). now apply Hinact.
Qed.

Lemma activation_on_create_and_confirm_witness :
  let env := ex_env june4_noon false false in
  stored_patient 2 (fst (createAppointment env ex_create ex_db))
  = Some (Patient.set_lastStatusChangeDate (Some june4_noon)
            (Patient.set_status active bob))
  /\ stored_patient 2
       (fst (confirmAppointment env (ConfirmReq.mk staff 11) ex_db))
     = Some (Patient.set_lastStatusChangeDate (Some june4_noon)
               (Patient.set_status active bob)).
Proof.
  intros env.
  destruct (activation_on_create_and_confirm env ex_db 2 bob eq_refl)
    as (Hcreate & Hconfirm & _).
  split.
  - destruct (Hcreate ex_create eq_refl eq_refl) as [_ H].
    apply H. repeat split.
  - destruct (Hconfirm (ConfirmReq.mk staff 11)
                (ex_appointment 11 2 "2024-06-01" "10:00" confirmed
                                (Some ongoing) false) eq_refl eq_refl)
      as [_ H].
    apply H. repeat split.
Defined.


(** ** Scheduling a follow-up *)

Lemma follow_up_activity_rejected req a :
  Activity.validate (follow_up_activity req a) = false.
Proof.
  unfold follow_up_activity, activity_doc, Activity.validate. cbn.
  now rewrite andb_false_r.
Qed.

Lemma follow_up_update_id req a :
  Appointment._id (follow_up_update req a) = Appointment._id a.
Proof. unfold follow_up_update. now destruct (truthy _). Qed.

Lemma updateFollowUpAppointment_run req db a :
  stored_appointment (FollowUpReq.id req) db = Some a ->
  Appointment.isFollowUp a = true ->
  updateFollowUpAppointment req db
  = (with_appointments
       (replace_by (fun x => Appointment._id x =? Appointment._id a)%nat
                   (follow_up_update req a) (appointments db)) db,
     mkRes 200 None (Some (follow_up_update req a)) None).
Proof.
  intros Hf Hfu. unfold updateFollowUpAppointment, Appointment_findById.
  unfold stored_appointment in Hf. rewrite Hf, Hfu. cbn [negb].
  unfold bind, Appointment_save.
  rewrite logActivity_rejected by apply follow_up_activity_rejected.
  now rewrite follow_up_update_id.
Qed.



(** X29.  A follow-up is scheduled without a lookup of the slot: when the
    requested time, on the follow-up's doctor and date, is held by another
    appointment that is not cancelled, the call is answered 200 all the
    same and the store then holds two live appointments at that slot. *)
Theorem follow_up_scheduling_skips_the_slot_check (req : FollowUpReq.t)
    (db : DB) (a b : Appointment.t) (t : string) :
  NoDup (map Appointment._id (appointments db)) ->
  stored_appointment (FollowUpReq.id req) db = Some a ->
  Appointment.isFollowUp a = true ->
  Appointment.status a <> cancelled ->
  FollowUpReq.time req = Some t ->
  t <> "" ->
  In b (appointments db) ->
  Appointment._id b <> Appointment._id a ->
  live b = true ->
  Appointment.slot b = (Appointment.doctorId a, Appointment.date a, t) ->
  res_status (snd (updateFollowUpAppointment req db)) = 200
  /\ ~ no_double_booking (fst (updateFollowUpAppointment req db)).
Proof.
  intros Hnd Hf Hfu Hlive Ht Hne Hb Hid Hlb Hsb.
  rewrite (updateFollowUpAppointment_run req db a Hf Hfu).
  cbn [fst snd res_status]. split; [reflexivity|].
  destruct (in_split a (appointments db) (find_In _ _ _ Hf))
    as (l1 & l2 & Hsplit).
  unfold no_double_booking, live_slots. cbn [appointments with_appointments].
  rewrite Hsplit, replace_by_unique by now rewrite <- Hsplit.
  fold (slots_of (l1 ++ follow_up_update req a :: l2)).
  rewrite slots_of_split.
  assert (Hupd : live (follow_up_update req a) = true
                 /\ Appointment.slot (follow_up_update req a)
                    = Appointment.slot b).
  { rewrite Hsb. unfold follow_up_update. rewrite Ht. cbn [truthy].
    apply String.eqb_neq in Hne. rewrite Hne. cbn [negb].
    unfold live, Appointment.slot. cbn. rewrite Hne. split; [|reflexivity].
    destruct (Appointment.status a); try reflexivity.
    now contradiction Hlive. }
  destruct Hupd as [-> ->].
  intros Hafter. apply NoDup_remove_2 in Hafter. apply Hafter.
  rewrite Hsplit in Hb. apply in_app_or in Hb. apply in_or_app.
  unfold slots_of.
  destruct Hb as [Hb|[Hb|Hb]].
  - left. apply in_map. apply filter_In. auto.
  - subst b. now contradiction Hid.
  - right. apply in_map. apply filter_In. auto.
Qed.

Lemma follow_up_scheduling_skips_the_slot_check_witness :
  let create := CreateReq.mk staff (Some 2) (Some 7) (Some 3)
                  (Some "2024-06-08") (Some "09:30") (Some "consultation")
                  None None in
  let db := fst (createAppointment (ex_env june4_noon false false) create
                   ex_db) in
  let req := FollowUpReq.mk staff 13 (Some "09:30") in
  res_status (snd (updateFollowUpAppointment req db)) = 200
  /\ ~ no_double_booking (fst (updateFollowUpAppointment req db)).
Proof.
  intros create db req.
  apply (follow_up_scheduling_skips_the_slot_check req db
           (ex_appointment 13 1 "2024-06-08" "00:00" pending (Some ongoing)
                           true)
           (created_appointment create 2 7 3 pending 1000) "09:30");
    try reflexivity; try discriminate.
  - apply distinct_NoDup. reflexivity.
  - vm_compute. auto 6.
Defined.

Lemma availability_handlers_agree_witness :
  match getAvailableSlots (Some 7) (Some "2024-06-01") ex_db with
  | Failed code _ =>
      code = 400
      /\ (Some 7 = None \/ truthy (Some "2024-06-01") = false)
      /\ getDoctorAvailability (Some 7) (Some "2024-06-01") ex_db
         = Failed 400 "Please provide doctor ID and date"
  | Json code (free, booked) =>
      code = 200
      /\ (forall t, In t allSlots -> (In t free <-> ~ In t booked))
      /\ (forall t, In t free -> In t allSlots)
      /\ exists d, Some 7 = Some d
         /\ getDoctorAvailability (Some 7) (Some "2024-06-01") ex_db
            = match find (fun x => Doctor._id x =? d)%nat (doctors ex_db) with
              | Some _ => Json 200 free
              | None => Failed 404 "Doctor not found"
              end
  end.
Proof.
  exact (availability_handlers_agree (Some 7) (Some "2024-06-01") ex_db).
Defined.

(** ** Deleting a report *)

Lemma delete_activity_rejected show req r :
  Activity.validate (delete_activity show req r) = false.
Proof.
  unfold delete_activity, activity_doc, Activity.validate. cbn.
  now rewrite andb_false_r.
Qed.

Lemma deleteReport_run show req db r :
  stored_report (DeleteReq.id req) db = Some r ->
  deleteReport show req db
  = if may_delete req r
    then (with_reports
            (delete_first (fun x => Report._id x =? DeleteReq.id req)%nat
                          (reports db)) db,
          mkRes 200 (Some "Report deleted successfully") None None)
    else (db, error_response 403
                (match DeleteReq.hospital req with
                 | None => "No hospital association found for the user"
                 | Some _ => "Not authorized to delete this report"
                 end)).
Proof.
  intros Hf. unfold deleteReport, may_delete.
  unfold stored_report in Hf. rewrite Hf.
  unfold bind, Report_findByIdAndDelete.
  rewrite logActivity_rejected by apply delete_activity_rejected.
  destruct (or_else (User.role (DeleteReq.user req)) "" =? "admin");
    cbn [negb orb]; [reflexivity|].
  destruct (DeleteReq.hospital req) as [h|]; [|reflexivity].
  now destruct (Report.hospitalId r =? h)%nat.
Qed.

Lemma delete_first_absent {A} (same : A -> bool) (l : list A) :
  find same l = None -> delete_first same l = l.
Proof.
  induction l as [|x l IH]; [reflexivity|].
  cbn [find delete_first]. destruct (same x); [discriminate|].
  intros H. now rewrite IH.
Qed.

Lemma delete_first_snoc {A} (same : A -> bool) (l : list A) (x : A) :
  find same l = None -> same x = true ->
  delete_first same (l ++ [x]) = l.
Proof.
  intros Hl Hx. induction l as [|y l IH]; cbn [app delete_first].
  - now rewrite Hx.
  - cbn [find] in Hl. destruct (same y); [discriminate|].
    now rewrite IH.
Qed.

(** X30.  Deleting the report a creation has just stored takes the report
    out again and nothing else: for a caller the handler lets pass (an
    admin, or a user of the report's hospital) the deletion is answered
    200 and the report collection is the one of before the creation, while
    the appointments stay as the creation left them (the cited appointment
    completed, the follow-up in place, still naming the deleted report)
    and neither patients nor audit entries are written. *)
Theorem report_deletion_keeps_the_traces (show : ObjectId -> string)
    (env : Env) (creq : ReportReq.t) (dreq : DeleteReq.t) (db : DB)
    (r : Report.t) :
  res_status (snd (createReport env creq db)) = 201 ->
  stored_report (DeleteReq.id dreq) db = None ->
  stored_report (DeleteReq.id dreq) (fst (createReport env creq db))
    = Some r ->
  may_delete dreq r = true ->
  let db1 := fst (createReport env creq db) in
  res_status (snd (deleteReport show dreq db1)) = 200
  /\ reports (fst (deleteReport show dreq db1)) = reports db
  /\ appointments (fst (deleteReport show dreq db1)) = appointments db1
  /\ patients (fst (deleteReport show dreq db1)) = patients db
  /\ activities (fst (deleteReport show dreq db1)) = activities db
  /\ (forall f, res_appointment (snd (createReport env creq db)) = Some f ->
        Appointment.relatedReportId f = Some (DeleteReq.id dreq)
        /\ In f (appointments (fst (deleteReport show dreq db1)))).
Proof.
  intros H201 Hnew Hf Hmay db1. subst db1.
  destruct (createReport_201 env creq db H201)
    as (ai & pi & di & hi & _ & _ & _ & _ & _ & _ & Hpat & Hact & Hrest).
  remember (fst (createReport env creq db)) as db1 eqn:Hdb1.
  rewrite (deleteReport_run show dreq db1 r Hf), Hmay.
  cbn [fst snd res_status reports with_reports appointments patients
       activities].
  unfold stored_report in Hnew, Hf.
  set (rep := created_report env creq ai pi di hi (next_id db)) in *.
  assert (Hreports : exists rep',
             reports db1 = (reports db ++ [rep'])%list
             /\ Report._id rep' = next_id db).
  { destruct (truthy (ReportReq.followUpDate creq)).
    - destruct Hrest as (_ & Hrep & _).
      exists (Report.set_followUpAppointmentId (Some (S (next_id db))) rep).
      split; [|reflexivity]. rewrite Hrep. unfold replace_by.
      rewrite map_app. cbn [map]. unfold rep at 2, created_report.
      cbn [Report._id]. rewrite Nat.eqb_refl. f_equal.
      fold (replace_by (fun y => Report._id y =? next_id db)%nat
              (Report.set_followUpAppointmentId (Some (S (next_id db))) rep)
              (reports db)).
      apply replace_by_absent. intros y Hy.
      destruct (Nat.eqb_spec (Report._id y) (next_id db)) as [E|];
        [|reflexivity].
      exfalso.
      (* the id under which the report is found *)
      assert (Hi : DeleteReq.id dreq = next_id db).
      { rewrite Hrep in Hf.
        destruct (Nat.eq_dec (DeleteReq.id dreq) (next_id db)) as [|Hne];
          [assumption|].
        exfalso. rewrite find_replace_by_key in Hf by reflexivity.
        rewrite find_app_none in Hf by exact Hnew.
        cbn [find] in Hf. unfold rep, created_report in Hf.
        cbn [Report._id] in Hf.
        apply Nat.eqb_neq in Hne. rewrite Nat.eqb_sym in Hne.
        now rewrite Hne in Hf. }
      pose proof (find_none _ _ Hnew y Hy) as Hn. cbn in Hn.
      rewrite Hi, E, Nat.eqb_refl in Hn. discriminate.
    - destruct Hrest as (_ & Hrep & _). exists rep. auto. }
  destruct Hreports as (rep' & Hrep & Hid).
  assert (Hi : DeleteReq.id dreq = next_id db).
  { rewrite Hrep in Hf. rewrite find_app_none in Hf by exact Hnew.
    cbn [find] in Hf. rewrite Hid in Hf.
    destruct (Nat.eqb_spec (next_id db) (DeleteReq.id dreq));
      [auto|discriminate]. }
  split; [reflexivity|]. split.
  - rewrite Hrep. apply delete_first_snoc; [exact Hnew|].
    rewrite Hid, Hi. apply Nat.eqb_refl.
  - split; [reflexivity|]. split; [exact Hpat|]. split; [exact Hact|].
    intros f Hres.
    destruct (truthy (ReportReq.followUpDate creq)).
    + destruct Hrest as (Happ & _ & Hres').
      rewrite Hres in Hres'. injection Hres' as ->.
      split; [cbn; now rewrite Hi|].
      rewrite Happ. apply in_or_app. right. now left.
    + destruct Hrest as (_ & _ & Hres'). congruence.
Qed.

Lemma report_deletion_keeps_the_traces_witness :
  let show := fun _ : ObjectId => "id" in
  let env := ex_env june4_noon false false in
  let dreq := DeleteReq.mk dr_user (Some 3) 1000 in
  let db1 := fst (createReport env ex_report ex_db) in
  res_status (snd (deleteReport show dreq db1)) = 200
  /\ reports (fst (deleteReport show dreq db1)) = reports ex_db
  /\ appointments (fst (deleteReport show dreq db1)) = appointments db1
  /\ patients (fst (deleteReport show dreq db1)) = patients ex_db
  /\ activities (fst (deleteReport show dreq db1)) = activities ex_db
  /\ (forall f,
        res_appointment (snd (createReport env ex_report ex_db)) = Some f ->
        Appointment.relatedReportId f = Some 1000
        /\ In f (appointments (fst (deleteReport show dreq db1)))).
Proof.
  intros show env dreq.
  apply (report_deletion_keeps_the_traces show env ex_report dreq ex_db
           (Report.set_followUpAppointmentId (Some 1001)
              (created_report env ex_report 10 1 7 3 1000)));
    reflexivity.
Defined.

(** ** The activation rule, handler by handler *)





